(** * Automation hub: rule evaluation and execution engine

    A shallow embedding of [automation_hub.py]: the path resolver, the
    condition matcher, the action executor, the rule table and the engine
    loop, followed by the properties of the specification that are proved
    about them. *)

From Stdlib Require Import List String Ascii ZArith QArith Bool Lia Permutation.
From Stdlib Require Import DecimalString Sorted.
Import ListNotations.
Local Open Scope string_scope.
Local Open Scope Z_scope.
Local Open Scope list_scope.
Set Warnings "-register-all".

(** ** Python values

    The values a context, a comparison value or a parameter mapping can hold:
    what [json.loads] produces. A [float] is the rational it denotes (finite
    floats only); a [dict] is its list of bindings, keys being strings, and a
    lookup reads the first binding of a key. *)

Inductive pyval : Type :=
| VNone
| VBool (b : bool)
| VInt (z : Z)
| VFloat (q : Q)
| VStr (s : string)
| VList (l : list pyval)
| VDict (d : list (string * pyval)).

Definition dict : Type := list (string * pyval).

(** [d.get(k)] on the bindings; [None] when the key is absent. *)
Fixpoint dict_get {A : Type} (d : list (string * A)) (k : string) : option A :=
  match d with
  | [] => None
  | (k', v) :: d' => if String.eqb k' k then Some v else dict_get d' k
  end.

(** [d.get(k)] as Python returns it: the value, or [None]. *)
Definition py_get (d : dict) (k : string) : pyval :=
  match dict_get d k with
  | Some v => v
  | None => VNone
  end.

(** [d.get(k, default)]. *)
Definition py_get_default (d : dict) (k : string) (default : pyval) : pyval :=
  match dict_get d k with
  | Some v => v
  | None => default
  end.

(** ** Exceptions

    The exceptions the modelled code raises. The text of a message is kept
    symbolic: the constructor and its argument stand for [str(e)]. *)

Inductive exn : Type :=
| UnknownConditionOperator (op : string)
    (* ValueError(f"Unknown condition operator: {op!r}") *)
| UnknownActionType (atype : string)
    (* ValueError(f"Unknown action type: {atype!r}") *)
| KeyError (key : string)
| TypeError (what : string)
| ValueError (what : string)
| OverflowError (what : string)
| HandlerError (msg : string).
    (* whatever a registered service handler raises *)

Inductive outcome (A : Type) : Type :=
| Ret (a : A)
| Raise (e : exn).
Arguments Ret {A} a.
Arguments Raise {A} e.

(** ** Comparison operators ([_OP_MAP]) *)

(** [bool] is a subclass of [int]; numbers compare by value across
    [bool], [int] and [float]. *)
Definition num_of (v : pyval) : option Q :=
  match v with
  | VBool b => Some (inject_Z (Z.b2z b))
  | VInt z => Some (inject_Z z)
  | VFloat q => Some q
  | _ => None
  end.

(** [a == b]. *)
Fixpoint py_eq (a b : pyval) {struct a} : bool :=
  match a with
  | VNone => match b with VNone => true | _ => false end
  | VStr s => match b with VStr t => String.eqb s t | _ => false end
  | VList l =>
      match b with
      | VList m =>
          (fix go (l m : list pyval) {struct l} : bool :=
             match l, m with
             | [], [] => true
             | x :: l', y :: m' => py_eq x y && go l' m'
             | _, _ => false
             end) l m
      | _ => false
      end
  | VDict d =>
      match b with
      | VDict e =>
          Nat.eqb (List.length d) (List.length e) &&
          (fix go (d : list (string * pyval)) {struct d} : bool :=
             match d with
             | [] => true
             | (k, v) :: d' =>
                 match dict_get e k with
                 | Some w => py_eq v w
                 | None => false
                 end && go d'
             end) d
      | _ => false
      end
  | VBool _ | VInt _ | VFloat _ =>
      match num_of a, num_of b with
      | Some p, Some q => Qeq_bool p q
      | _, _ => false
      end
  end.

(** The three-way comparison behind [<], [<=], [>], [>=]; [None] where
    Python raises [TypeError] (unordered types). Lists compare at the first
    position whose items differ by [==], then by length. *)
Fixpoint py_cmp (a b : pyval) {struct a} : option comparison :=
  match a with
  | VStr s => match b with VStr t => Some (String.compare s t) | _ => None end
  | VList l =>
      match b with
      | VList m =>
          (fix go (l m : list pyval) {struct l} : option comparison :=
             match l, m with
             | [], [] => Some Eq
             | [], _ :: _ => Some Lt
             | _ :: _, [] => Some Gt
             | x :: l', y :: m' => if py_eq x y then go l' m' else py_cmp x y
             end) l m
      | _ => None
      end
  | VBool _ | VInt _ | VFloat _ =>
      match num_of a, num_of b with
      | Some p, Some q => Some (Qcompare p q)
      | _, _ => None
      end
  | VNone | VDict _ => None
  end.

Definition order_with (test : comparison -> bool) (a b : pyval) : outcome bool :=
  match py_cmp a b with
  | Some c => Ret (test c)
  | None => Raise (TypeError "unorderable types")
  end.

(** [needle in hay] on strings: [needle] occurs in [hay]. *)
Fixpoint is_infix (needle hay : string) {struct hay} : bool :=
  String.prefix needle hay ||
  match hay with
  | EmptyString => false
  | String _ hay' => is_infix needle hay'
  end.

(** [a in b]: membership in a list, substring of a string, key of a dict. *)
Definition py_in (a b : pyval) : outcome bool :=
  match b with
  | VList l => Ret (existsb (fun x => py_eq x a) l)
  | VStr t =>
      match a with
      | VStr s => Ret (is_infix s t)
      | _ => Raise (TypeError "'in <string>' requires string as left operand")
      end
  | VDict d =>
      match a with
      | VList _ | VDict _ => Raise (TypeError "unhashable type")
      | VStr s => Ret (match dict_get d s with Some _ => true | None => false end)
      | _ => Ret false
      end
  | _ => Raise (TypeError "argument is not iterable")
  end.

Definition is_Gt (c : comparison) : bool := match c with Gt => true | _ => false end.
Definition is_Lt (c : comparison) : bool := match c with Lt => true | _ => false end.

(** [_OP_MAP.get(op)]. *)
Definition _OP_MAP (op : string) : option (pyval -> pyval -> outcome bool) :=
  if String.eqb op "==" then Some (fun a b => Ret (py_eq a b))
  else if String.eqb op "!=" then Some (fun a b => Ret (negb (py_eq a b)))
  else if String.eqb op ">" then Some (order_with is_Gt)
  else if String.eqb op ">=" then Some (order_with (fun c => negb (is_Lt c)))
  else if String.eqb op "<" then Some (order_with is_Lt)
  else if String.eqb op "<=" then Some (order_with (fun c => negb (is_Gt c)))
  else if String.eqb op "in" then Some (fun a b => py_in a b)
  else if String.eqb op "contains" then Some (fun a b => py_in b a)
  else None.

(** ** Path resolver *)

(** [path.split(".")]: never empty; an empty path is one empty part. *)
Fixpoint split_dot (path : string) : list string :=
  match path with
  | EmptyString => [EmptyString]
  | String c rest =>
      if Ascii.eqb c "."%char then EmptyString :: split_dot rest
      else match split_dot rest with
           | [] => [String c EmptyString]
           | part :: parts => String c part :: parts
           end
  end.

(** The loop of [_resolve_path] over the remaining parts. *)
Fixpoint resolve_parts (parts : list string) (val : pyval) : pyval :=
  match parts with
  | [] => val
  | part :: rest =>
      match val with
      | VDict d => resolve_parts rest (py_get d part)
      | _ => VNone
      end
  end.

Definition _resolve_path (path : string) (context : dict) : pyval :=
  resolve_parts (split_dot path) (VDict context).

(** ** Dataclasses and the documents they are built from

    A record [kwargs] (for a rule, [document]) is a parsed JSON object read
    through the schema of the dataclass: each key is either absent or bound
    to a value of the annotated type. *)

Definition or_default {A : Type} (o : option A) (default : A) : A :=
  match o with
  | Some a => a
  | None => default
  end.

(** A list comprehension [[init(x) for x in l]]: the first exception ends it. *)
Fixpoint comprehension {K T : Type} (init : K -> outcome T) (l : list K)
  : outcome (list T) :=
  match l with
  | [] => Ret []
  | x :: l' =>
      match init x with
      | Raise e => Raise e
      | Ret y =>
          match comprehension init l' with
          | Raise e => Raise e
          | Ret ys => Ret (y :: ys)
          end
      end
  end.

(** ** Conditions *)

Module Condition.
Record t : Type := Build {
  field : string;
  op : string;
  value : pyval;
  negate : bool
}.

Record kwargs : Type := Kw {
  kw_field : option string;
  kw_op : option string;
  kw_value : option pyval;
  kw_negate : option bool
}.

(** The constructor call [Condition] on the keyword arguments [kw]. *)
Definition init (kw : kwargs) : outcome t :=
  match kw_field kw, kw_op kw, kw_value kw with
  | Some f, Some o, Some v => Ret (Build f o v (or_default (kw_negate kw) false))
  | None, _, _ => Raise (TypeError "missing required argument: 'field'")
  | _, None, _ => Raise (TypeError "missing required argument: 'op'")
  | _, _, None => Raise (TypeError "missing required argument: 'value'")
  end.

Definition asdict (self : t) : kwargs :=
  Kw (Some (field self)) (Some (op self)) (Some (value self)) (Some (negate self)).

Definition evaluate (self : t) (context : dict) : outcome bool :=
  match _resolve_path (field self) context with
  | VNone => Ret (negate self)
  | actual =>
      match _OP_MAP (op self) with
      | None => Raise (UnknownConditionOperator (op self))
      | Some fn =>
          match fn actual (value self) with
          | Ret result => Ret (if negate self then negb result else result)
          | Raise e => Raise e
          end
      end
  end.
End Condition.

(** A failure description collected by [evaluate_rule]; the rendering to text
    is kept symbolic. *)
Inductive failure : Type :=
| FailedCondition (field op : string) (value : pyval)
    (* f"{cond.field} {cond.op} {cond.value}" *)
| ConditionError (e : exn).
    (* f"error: {e}" *)

(** ** Triggers, actions and rules *)

Module Trigger.
Record t : Type := Build {
  type : string;
  config : dict
}.

Record kwargs : Type := Kw {
  kw_type : option string;
  kw_config : option dict
}.

(** The constructor call [Trigger] on the keyword arguments [kw]. *)
Definition init (kw : kwargs) : outcome t :=
  match kw_type kw with
  | None => Raise (TypeError "missing required argument: 'type'")
  | Some ty => Ret (Build ty (or_default (kw_config kw) []))
  end.

Definition asdict (self : t) : kwargs :=
  Kw (Some (type self)) (Some (config self)).
End Trigger.

Module Action.
Record t : Type := Build {
  type : string;
  target : option string;
  params : dict
}.

Record kwargs : Type := Kw {
  kw_type : option string;
  kw_target : option (option string);
  kw_params : option dict
}.

(** The constructor call [Action] on the keyword arguments [kw]. *)
Definition init (kw : kwargs) : outcome t :=
  match kw_type kw with
  | None => Raise (TypeError "missing required argument: 'type'")
  | Some ty =>
      Ret (Build ty (or_default (kw_target kw) None) (or_default (kw_params kw) []))
  end.

Definition asdict (self : t) : kwargs :=
  Kw (Some (type self)) (Some (target self)) (Some (params self)).
End Action.

(** The value of the field and of the column [trigger_count]: a Python int,
    which table [rules] holds as a 64-bit INTEGER, or the float
    9223372036854775808.0 (2^63), the REAL that the addition of SQLite gives
    when an INTEGER overflows and that [get_rule] then reads back. A number
    written as is stands for the int. *)
Inductive count : Type :=
| CInt (n : Z)
| CReal.

Coercion CInt : Z >-> count.

(** A Python int that [sqlite3] binds as an INTEGER: 64 bits, signed. *)
Definition sqlite_int (n : Z) : bool :=
  (- 2 ^ 63 <=? n) && (n <? 2 ^ 63).

(** A count that [sqlite3] binds: an int of 64 bits, or the float. *)
Definition sqlite_count (c : count) : bool :=
  match c with
  | CInt n => sqlite_int n
  | CReal => true
  end.

(** [trigger_count+1] in SQLite: the sum of two INTEGERs that does not fit 64
    bits is the REAL nearest to it, and 2^63 + 1 rounds to the REAL 2^63. *)
Definition sqlite_succ (c : count) : count :=
  match c with
  | CInt n => if n <? 2 ^ 63 - 1 then CInt (n + 1) else CReal
  | CReal => CReal
  end.

(** The order of the values of the column: the REAL 2^63 is above every
    INTEGER. *)
Definition count_le (c c' : count) : Prop :=
  match c, c' with
  | CInt n, CInt m => n <= m
  | _, CReal => True
  | CReal, CInt _ => False
  end.

Module Rule.
Record t : Type := Build {
  name : string;
  trigger : Trigger.t;
  conditions : list Condition.t;
  actions : list Action.t;
  enabled : bool;
  priority : Z;
  description : string;
  created_at : string;
  last_triggered : option string;
  trigger_count : count
}.

Record document : Type := Doc {
  d_name : option string;
  d_trigger : option Trigger.kwargs;
  d_conditions : option (list Condition.kwargs);
  d_actions : option (list Action.kwargs);
  d_enabled : option bool;
  d_priority : option Z;
  d_description : option string;
  d_created_at : option string;
  d_last_triggered : option (option string);
  d_trigger_count : option count
}.

(** [asdict(self)]: every key present. *)
Definition to_dict (self : t) : document :=
  Doc (Some (name self))
      (Some (Trigger.asdict (trigger self)))
      (Some (map Condition.asdict (conditions self)))
      (Some (map Action.asdict (actions self)))
      (Some (enabled self))
      (Some (priority self))
      (Some (description self))
      (Some (created_at self))
      (Some (last_triggered self))
      (Some (trigger_count self)).

(** [Rule.from_dict(d)]. [now] is [datetime.utcnow().isoformat()], which the
    call evaluates as the default of [created_at] once [d["name"]] has been
    read, whether or not the key is present. *)
Definition from_dict (d : document) (now : string) : outcome t :=
  match d_trigger d with
  | None => Raise (KeyError "trigger")
  | Some tkw =>
      match Trigger.init tkw with
      | Raise e => Raise e
      | Ret trigger =>
          match comprehension Condition.init (or_default (d_conditions d) []) with
          | Raise e => Raise e
          | Ret conditions =>
              match comprehension Action.init (or_default (d_actions d) []) with
              | Raise e => Raise e
              | Ret actions =>
                  match d_name d with
                  | None => Raise (KeyError "name")
                  | Some name =>
                      Ret (Build name trigger conditions actions
                             (or_default (d_enabled d) true)
                             (or_default (d_priority d) 0)
                             (or_default (d_description d) "")
                             (or_default (d_created_at d) now)
                             (or_default (d_last_triggered d) None)
                             (or_default (d_trigger_count d) 0))
                  end
              end
          end
      end
  end.

(** A rule whose [priority] and [trigger_count] [sqlite3] binds. *)
Definition binds (self : t) : bool :=
  sqlite_int (priority self) && sqlite_count (trigger_count self).

Definition set_counters (self : t) (enabled : bool)
    (last_triggered : option string) (trigger_count : count) : t :=
  Build (name self) (trigger self) (conditions self) (actions self)
        enabled (priority self) (description self) (created_at self)
        last_triggered trigger_count.
End Rule.

(** ** Rule-level condition evaluation *)

(** The loop of [evaluate_rule]: every condition is evaluated, and [failed]
    grows by one description for each condition that is false or raises. *)
Fixpoint evaluate_conditions (conds : list Condition.t) (context : dict)
    (failed : list failure) : list failure :=
  match conds with
  | [] => failed
  | cond :: rest =>
      evaluate_conditions rest context
        (match Condition.evaluate cond context with
         | Ret true => failed
         | Ret false =>
             failed ++ [FailedCondition (Condition.field cond) (Condition.op cond)
                                        (Condition.value cond)]
         | Raise e => failed ++ [ConditionError e]
         end)
  end.

Definition evaluate_rule (rule : Rule.t) (context : dict) : bool * list failure :=
  let failed := evaluate_conditions (Rule.conditions rule) context [] in
  (Nat.eqb (List.length failed) 0, failed).

(** ** The database, the clock and the hub *)

(** A row of table [rules]. [row_definition] is the column [definition]: the
    JSON text of [rule.to_dict()], held as the document that text parses to;
    [row_enabled] is the INTEGER column. *)
Record rule_row : Type := RuleRow {
  row_name : string;
  row_definition : Rule.document;
  row_enabled : Z;
  row_priority : Z;
  row_created_at : string;
  row_last_triggered : option string;
  row_trigger_count : count
}.

(** A row of table [executions]. [ex_error] is [str(e)] of the exception that
    ended the actions; [ex_duration] is the interval between the two clock
    readings in microseconds, the column [duration_ms] being that interval in
    milliseconds. The AUTOINCREMENT id is the position in the table. *)
Record execution_row : Type := ExecutionRow {
  ex_rule_name : string;
  ex_triggered_by : string;
  ex_context : dict;
  ex_result : string;
  ex_error : option exn;
  ex_ts : string;
  ex_duration : Z
}.

Inductive log_text : Type :=
| RuleAdded (name : string)      (* f"Rule added: {rule.name}" *)
| RuleAction (msg : pyval).      (* f"[rule_action] {msg}" *)

Record log_row : Type := LogRow {
  log_level : string;
  log_message : log_text;
  log_context : dict;
  log_ts : string
}.

(** A registered service handler: called with the service name and the
    parameters, it returns a value or raises. Handlers do not touch the hub. *)
Definition handler : Type := string -> dict -> outcome pyval.

(** The state the methods of [AutomationHub] act on: the three tables, the
    handler registry, and the number of times the clock has been read.
    [calls] is a ghost trace, one entry per call of [execute_action] made by
    the engine loop, tagged with the name of the rule it is made for; no
    operation reads it. *)
Record state : Type := State {
  rules : list rule_row;
  executions : list execution_row;
  logs : list log_row;
  _service_handlers : list (string * handler);
  clock_reads : nat;
  calls : list (string * Action.t)
}.

(** The wall clock and the pause, modules [datetime] and [time] of the
    library: [utcnow n] is what the [n]-th call of [datetime.utcnow()]
    returns, as its count of microseconds since [datetime.min]
    (0001-01-01T00:00:00), [isoformat] renders such a reading, and
    [time_sleep secs] is what [time.sleep(secs)] does with its argument on
    the platform: it returns, or it raises. The pause itself leaves no
    mark. *)
Class Clock : Type := {
  utcnow : nat -> Z;
  isoformat : Z -> string;
  time_sleep : pyval -> outcome unit
}.

(** The result entry of one rule, a Python dict: one field per key. *)
Inductive field : Type :=
| FStr (s : string)
| FFailures (l : list failure)
| FActions (l : list pyval)
| FRounded (us : Z).   (* round(duration_ms, 2), of an interval of [us] microseconds *)

Definition entry : Type := list (string * field).

(** *** State and exceptions *)

Definition M (A : Type) : Type := state -> outcome A * state.

Definition ret {A : Type} (a : A) : M A := fun s => (Ret a, s).

Definition raise {A : Type} (e : exn) : M A := fun s => (Raise e, s).

Definition bind {A B : Type} (m : M A) (k : A -> M B) : M B :=
  fun s =>
    match m s with
    | (Ret a, s') => k a s'
    | (Raise e, s') => (Raise e, s')
    end.

Definition lift {A : Type} (o : outcome A) : M A := fun s => (o, s).

Definition gets {A : Type} (f : state -> A) : M A := fun s => (Ret (f s), s).

Definition modify (f : state -> state) : M unit := fun s => (Ret tt, f s).

(** [try: m  except Exception as e: ...]: the outcome of [m], reified. *)
Definition try_except {A : Type} (m : M A) : M (outcome A) :=
  fun s => let (o, s') := m s in (Ret o, s').

Declare Scope hub_scope.
Delimit Scope hub_scope with hub.
Notation "x <- m ;; k" := (bind m (fun x => k))
  (at level 61, m at next level, right associativity) : hub_scope.
Notation "m ;; k" := (bind m (fun _ => k))
  (at level 61, right associativity) : hub_scope.
Local Open Scope hub_scope.

Definition set_rules (f : list rule_row -> list rule_row) (s : state) : state :=
  State (f (rules s)) (executions s) (logs s) (_service_handlers s)
        (clock_reads s) (calls s).

Definition set_executions (f : list execution_row -> list execution_row)
    (s : state) : state :=
  State (rules s) (f (executions s)) (logs s) (_service_handlers s)
        (clock_reads s) (calls s).

Definition set_logs (f : list log_row -> list log_row) (s : state) : state :=
  State (rules s) (executions s) (f (logs s)) (_service_handlers s)
        (clock_reads s) (calls s).

Definition set_handlers (f : list (string * handler) -> list (string * handler))
    (s : state) : state :=
  State (rules s) (executions s) (logs s) (f (_service_handlers s))
        (clock_reads s) (calls s).

Definition tick (s : state) : state :=
  State (rules s) (executions s) (logs s) (_service_handlers s)
        (S (clock_reads s)) (calls s).

Definition record_call (rule_name : string) (action : Action.t) (s : state) : state :=
  State (rules s) (executions s) (logs s) (_service_handlers s)
        (clock_reads s) (calls s ++ [(rule_name, action)]).

(** [init_db] on a fresh file, and a hub constructed on it. *)
Definition init_db : state := State [] [] [] [] 0 [].

(** A stable sort, greatest first: [x] passes only the items that are
    strictly greater ([gt y x]). [ORDER BY ... DESC], with ties left in
    storage order. *)
Fixpoint insert_desc {A : Type} (gt : A -> A -> bool) (x : A) (l : list A) : list A :=
  match l with
  | [] => [x]
  | y :: l' => if gt y x then y :: insert_desc gt x l' else x :: l
  end.

Fixpoint sort_desc {A : Type} (gt : A -> A -> bool) (l : list A) : list A :=
  match l with
  | [] => []
  | x :: l' => insert_desc gt x (sort_desc gt l')
  end.

Definition name_is (name : string) (row : rule_row) : bool :=
  String.eqb (row_name row) name.

(** [INSERT OR REPLACE INTO rules]: the row holding the primary key, if any,
    is deleted and the new row is stored last. *)
Definition insert_or_replace (row : rule_row) (table : list rule_row) : list rule_row :=
  filter (fun r => negb (name_is (row_name row) r)) table ++ [row].

(** [UPDATE rules SET ... WHERE name=?]. *)
Definition update_where (name : string) (f : rule_row -> rule_row)
    (table : list rule_row) : list rule_row :=
  map (fun r => if name_is name r then f r else r) table.

Definition with_enabled (e : Z) (r : rule_row) : rule_row :=
  RuleRow (row_name r) (row_definition r) e (row_priority r)
          (row_created_at r) (row_last_triggered r) (row_trigger_count r).

Definition with_trigger (now : string) (r : rule_row) : rule_row :=
  RuleRow (row_name r) (row_definition r) (row_enabled r) (row_priority r)
          (row_created_at r) (Some now) (sqlite_succ (row_trigger_count r)).

(** [if x:] and [x or default] on an optional string: [None] and the empty
    string are false. *)
Definition truthy (x : option string) : bool :=
  match x with
  | Some s => negb (String.eqb s "")
  | None => false
  end.

Definition or_str (x : option string) (default : string) : string :=
  match x with
  | Some s => if String.eqb s "" then default else s
  | None => default
  end.

Definition opt_str (x : option string) : pyval :=
  match x with
  | Some s => VStr s
  | None => VNone
  end.

(** [timedelta(hours=hours)], in microseconds: the days it spans must fit a C
    int, and be at most 999999999 in magnitude. *)
Definition timedelta_hours (hours : Z) : outcome Z :=
  let days := hours / 24 in
  if negb ((- 2 ^ 31 <=? days) && (days <? 2 ^ 31))
  then Raise (OverflowError "Python int too large to convert to C int")
  else if negb ((- 999999999 <=? days) && (days <=? 999999999))
  then Raise (OverflowError "days; must have magnitude <= 999999999")
  else Ret (hours * 3600000000).

(** [datetime.max], 9999-12-31T23:59:59.999999, in microseconds since
    [datetime.min]. *)
Definition datetime_max : Z := 315537897599999999.

(** [t - delta] on a datetime [t]: the result must be a datetime. *)
Definition datetime_sub (t delta : Z) : outcome Z :=
  if (0 <=? t - delta) && (t - delta <=? datetime_max)
  then Ret (t - delta)
  else Raise (OverflowError "date value out of range").

(** ** The methods of [AutomationHub] *)

Section Hub.
Context {clock : Clock}.

(** [datetime.utcnow()]. *)
Definition now : M Z :=
  fun s => (Ret (utcnow (clock_reads s)), tick s).

(** [datetime.utcnow().isoformat()]. *)
Definition now_iso : M string :=
  (t <- now ;; ret (isoformat t)).

Definition _log (level : string) (message : log_text) (context : dict) : M unit :=
  (ts <- now_iso ;;
   modify (set_logs (fun l => l ++ [LogRow level message context ts]))).

(** [Rule.from_dict(d)] as a step of the hub: the clock is read when the
    call gets as far as the default of [created_at]. *)
Definition Rule_from_dict (d : Rule.document) : M Rule.t :=
  fun s =>
    match Rule.from_dict d (isoformat (utcnow (clock_reads s))) with
    | Ret r => (Ret r, tick s)
    | Raise e => (Raise e, s)
    end.

(** *** Rule management *)

(** [sqlite3] binds [rule.priority] and [rule.trigger_count] as INTEGERs, and
    raises on an int that does not fit 64 bits: nothing is written then. *)
Definition add_rule (rule : Rule.t) : M Rule.t :=
  if Rule.binds rule then
    (modify (set_rules (insert_or_replace
       (RuleRow (Rule.name rule) (Rule.to_dict rule)
                (Z.b2z (Rule.enabled rule)) (Rule.priority rule)
                (Rule.created_at rule) (Rule.last_triggered rule)
                (Rule.trigger_count rule)))) ;;
     _log "INFO" (RuleAdded (Rule.name rule)) [] ;;
     ret rule)
  else raise (OverflowError "Python int too large to convert to SQLite INTEGER").

(** The argument is the document [json.loads(rule_json)] returns. *)
Definition add_rule_from_json (d : Rule.document) : M Rule.t :=
  (rule <- Rule_from_dict d ;;
   add_rule rule).

Definition get_rule (name : string) : M (option Rule.t) :=
  (row <- gets (fun s => find (name_is name) (rules s)) ;;
   match row with
   | None => ret None
   | Some row =>
       r <- Rule_from_dict (row_definition row) ;;
       ret (Some (Rule.set_counters r (negb (Z.eqb (row_enabled row) 0))
                    (row_last_triggered row) (row_trigger_count row)))
   end).

Definition enable_rule (name : string) : M unit :=
  modify (set_rules (update_where name (with_enabled 1))).

Definition disable_rule (name : string) : M unit :=
  modify (set_rules (update_where name (with_enabled 0))).

Definition delete_rule (name : string) : M unit :=
  modify (set_rules (filter (fun r => negb (name_is name r)))).

(** [SELECT * FROM rules WHERE enabled=1 ORDER BY priority DESC]. *)
Definition select_active (table : list rule_row) : list rule_row :=
  sort_desc (fun a b => Z.ltb (row_priority b) (row_priority a))
            (filter (fun r => Z.eqb (row_enabled r) 1) table).

(** The loop of [get_active_rules] over the fetched rows. *)
Fixpoint load_rules (rows : list rule_row) (result : list Rule.t) : M (list Rule.t) :=
  match rows with
  | [] => ret result
  | row :: rest =>
      r <- Rule_from_dict (row_definition row) ;;
      load_rules rest
        (result ++ [Rule.set_counters r true (row_last_triggered row)
                                      (row_trigger_count row)])
  end.

Definition get_active_rules : M (list Rule.t) :=
  (rows <- gets (fun s => select_active (rules s)) ;;
   load_rules rows []).

(** [list_rules]: five columns of every row, highest priority first. *)
Definition list_rules : M (list (string * Z * Z * option string * count)) :=
  gets (fun s =>
    map (fun r => (row_name r, row_enabled r, row_priority r,
                   row_last_triggered r, row_trigger_count r))
        (sort_desc (fun a b => Z.ltb (row_priority b) (row_priority a)) (rules s))).

(** *** Condition and action evaluation *)

Definition is_type (atype tag : string) : bool := String.eqb atype tag.

Definition execute_action (action : Action.t) (context : dict) : M pyval :=
  let atype := Action.type action in
  if is_type atype "log_message" then
    let msg := py_get_default (Action.params action) "message" (VStr "") in
    (_log "INFO" (RuleAction msg) context ;;
     ret (VDict [("logged", msg)]))
  else if is_type atype "send_notify" then
    let channel := py_get_default (Action.params action) "channel" (VStr "default") in
    let message := py_get_default (Action.params action) "message" (VStr "") in
    ret (VDict [("channel", channel); ("message", message)])
  else if is_type atype "set_state" then
    let entity_id := Action.target action in
    let new_state := py_get (Action.params action) "state" in
    ret (VDict [("entity_id", opt_str entity_id); ("state", new_state)])
  else if is_type atype "call_service" then
    let service := Action.target action in
    (handler <- gets (fun s =>
                  match service with
                  | Some name => dict_get (_service_handlers s) name
                  | None => None
                  end) ;;
     match handler, service with
     | Some h, Some name => lift (h name (Action.params action))
     | _, _ => ret (VDict [("service", opt_str service); ("status", VStr "no_handler")])
     end)
  else if is_type atype "delay" then
    let secs := py_get_default (Action.params action) "seconds" (VInt 1) in
    (lift (time_sleep secs) ;;
     ret (VDict [("delayed", secs)]))
  else if is_type atype "run_scene" then
    let scene := py_get (Action.params action) "scene_name" in
    ret (VDict [("scene", scene)])
  else raise (UnknownActionType atype).

Definition register_service (name : string) (h : handler) : M unit :=
  modify (set_handlers (fun l => (name, h) :: l)).

(** *** Execution history *)

Definition _record_execution (rule_name triggered_by : string) (context : dict)
    (result : string) (error : option exn) (duration : Z) : M unit :=
  (ts <- now_iso ;;
   let safe_context :=
     filter (fun kv => negb (String.eqb (fst kv) "credentials")) context in
   modify (set_executions (fun l =>
     l ++ [ExecutionRow rule_name triggered_by safe_context result error ts duration]))).

Definition _increment_trigger (rule_name : string) : M unit :=
  (ts <- now_iso ;;
   modify (set_rules (update_where rule_name (with_trigger ts)))).

(** *** Rule engine *)

(** The [try] block of [run_rule_engine]: the actions in order, until one
    raises. It returns the results gathered and the exception, if any. *)
Fixpoint run_actions (rule_name : string) (actions : list Action.t) (context : dict)
    (action_results : list pyval) : M (list pyval * option exn) :=
  match actions with
  | [] => ret (action_results, None)
  | action :: rest =>
      modify (record_call rule_name action) ;;
      res <- try_except (execute_action action context) ;;
      match res with
      | Ret res => run_actions rule_name rest context (action_results ++ [res])
      | Raise e => ret (action_results, Some e)
      end
  end.

(** The body of the loop of [run_rule_engine], for one rule. *)
Definition run_rule (context : dict) (trigger_type : option string)
    (rule : Rule.t) : M entry :=
  (start <- now ;;
   let (ok, failed) := evaluate_rule rule context in
   if negb ok then
     ret [("rule", FStr (Rule.name rule)); ("status", FStr "skipped");
          ("failed_conditions", FFailures failed)]
   else
     tried <- run_actions (Rule.name rule) (Rule.actions rule) context [] ;;
     let action_results := fst tried in
     let error_msg := snd tried in
     let status := match error_msg with None => "ok" | Some _ => "error" end in
     finish <- now ;;
     let duration := finish - start in
     _record_execution (Rule.name rule) (or_str trigger_type "manual")
                       context status error_msg duration ;;
     _increment_trigger (Rule.name rule) ;;
     ret [("rule", FStr (Rule.name rule)); ("status", FStr status);
          ("actions", FActions action_results); ("duration_ms", FRounded duration)]).

Fixpoint run_rules (context : dict) (trigger_type : option string)
    (rules : list Rule.t) (results : list entry) : M (list entry) :=
  match rules with
  | [] => ret results
  | rule :: rest =>
      e <- run_rule context trigger_type rule ;;
      run_rules context trigger_type rest (results ++ [e])
  end.

(** [rules = [r for r in rules if r.trigger.type == trigger_type]], when a
    trigger type is given. *)
Definition select_trigger (trigger_type : option string) (rules : list Rule.t)
  : list Rule.t :=
  if truthy trigger_type
  then filter (fun r => String.eqb (Trigger.type (Rule.trigger r))
                                   (or_default trigger_type "")) rules
  else rules.

Definition run_rule_engine (context : dict) (trigger_type : option string)
  : M (list entry) :=
  (rules <- get_active_rules ;;
   run_rules context trigger_type (select_trigger trigger_type rules) []).

Definition fire_event (event_name : string) (event_data : option dict)
  : M (list entry) :=
  (ts <- now_iso ;;
   let context :=
     [("event", VDict [("name", VStr event_name);
                       ("data", VDict (or_default event_data []))]);
      ("ts", VStr ts)] in
   run_rule_engine context (Some "event")).

Definition process_sensor_update (sensor_id : string) (value : Q) (unit : string)
  : M (list entry) :=
  (ts <- now_iso ;;
   let context :=
     [("sensor", VDict [(sensor_id, VDict [("value", VFloat value);
                                           ("unit", VStr unit)])]);
      ("event", VDict [("name", VStr "sensor_update");
                       ("sensor_id", VStr sensor_id);
                       ("value", VFloat value)]);
      ("ts", VStr ts)] in
   run_rule_engine context (Some "sensor")).

(** [get_execution_history]: the rows not older than [hours] hours, of one
    rule when a name is given, latest first. Timestamps compare as text.
    Rows of the same timestamp come in storage order when no name is given;
    with a name the rows are read backwards off the index on
    [(rule_name, ts)], so that of two such rows the one stored last comes
    first. *)
Definition get_execution_history (rule_name : option string) (hours : Z)
  : M (list execution_row) :=
  (t <- now ;;
   delta <- lift (timedelta_hours hours) ;;
   since <- lift (datetime_sub t delta) ;;
   let since := isoformat since in
   rows <- gets executions ;;
   let rows := filter (fun r => String.leb since (ex_ts r)) rows in
   let rows := if truthy rule_name
               then rev (filter (fun r => String.eqb (ex_rule_name r)
                                                     (or_default rule_name "")) rows)
               else rows in
   ret (sort_desc (fun a b => String.ltb (ex_ts b) (ex_ts a)) rows)).
End Hub.

(** ** Notions the properties are stated with *)

(** What stands at a path: [Some v] when every part is a key of the mapping
    reached so far and [v] is bound at the last one, [None] when at some step
    the current value is not a mapping or the key is absent. Unlike
    [_resolve_path] it tells a stored [None] from an absent path. *)
Fixpoint path_lookup (parts : list string) (val : pyval) : option pyval :=
  match parts with
  | [] => Some val
  | part :: rest =>
      match val with
      | VDict d =>
          match dict_get d part with
          | Some v => path_lookup rest v
          | None => None
          end
      | _ => None
      end
  end.

(** The description one condition contributes to the failure list. *)
Definition condition_failure (context : dict) (cond : Condition.t) : list failure :=
  match Condition.evaluate cond context with
  | Ret true => []
  | Ret false =>
      [FailedCondition (Condition.field cond) (Condition.op cond) (Condition.value cond)]
  | Raise e => [ConditionError e]
  end.

Definition condition_passes (context : dict) (cond : Condition.t) : bool :=
  match Condition.evaluate cond context with
  | Ret true => true
  | _ => false
  end.

(** What [execute_action] returns or raises: it depends on the hub only
    through the handler registry. *)
Definition action_outcome {clock : Clock} (handlers : list (string * handler))
    (action : Action.t) : outcome pyval :=
  let atype := Action.type action in
  let params := Action.params action in
  if is_type atype "log_message" then
    Ret (VDict [("logged", py_get_default params "message" (VStr ""))])
  else if is_type atype "send_notify" then
    Ret (VDict [("channel", py_get_default params "channel" (VStr "default"));
                ("message", py_get_default params "message" (VStr ""))])
  else if is_type atype "set_state" then
    Ret (VDict [("entity_id", opt_str (Action.target action));
                ("state", py_get params "state")])
  else if is_type atype "call_service" then
    match Action.target action with
    | Some name =>
        match dict_get handlers name with
        | Some h => h name params
        | None => Ret (VDict [("service", VStr name); ("status", VStr "no_handler")])
        end
    | None => Ret (VDict [("service", VNone); ("status", VStr "no_handler")])
    end
  else if is_type atype "delay" then
    match time_sleep (py_get_default params "seconds" (VInt 1)) with
    | Ret _ => Ret (VDict [("delayed", py_get_default params "seconds" (VInt 1))])
    | Raise e => Raise e
    end
  else if is_type atype "run_scene" then
    Ret (VDict [("scene", py_get params "scene_name")])
  else Raise (UnknownActionType atype).

(** The actions a sequence gets to call, the results it gathers and the
    exception that ends it, if any. *)
Fixpoint attempt {clock : Clock} (handlers : list (string * handler))
    (actions : list Action.t) : list Action.t * list pyval * option exn :=
  match actions with
  | [] => ([], [], None)
  | a :: rest =>
      match action_outcome handlers a with
      | Ret v =>
          let '(called, results, err) := attempt handlers rest in
          (a :: called, v :: results, err)
      | Raise e => ([a], [], Some e)
      end
  end.

(** The invariant of table [rules]: [name] is its primary key, and every
    [definition] parses to a rule of the name of its row. *)
Fixpoint distinct (l : list string) : bool :=
  match l with
  | [] => true
  | x :: l' => negb (existsb (String.eqb x) l') && distinct l'
  end.

Definition row_ok (row : rule_row) : bool :=
  match Rule.from_dict (row_definition row) "" with
  | Ret r => String.eqb (Rule.name r) (row_name row)
  | Raise _ => false
  end.

Definition db_ok (s : state) : bool :=
  distinct (map row_name (rules s)) && forallb row_ok (rules s).

(** The calls of [execute_action] made for a rule, the execution records of a
    rule, and the row of a rule. *)
Definition calls_for (name : string) (s : state) : list Action.t :=
  map snd (filter (fun c => String.eqb (fst c) name) (calls s)).

Definition executions_for (name : string) (s : state) : list execution_row :=
  filter (fun r => String.eqb (ex_rule_name r) name) (executions s).

Definition row_for (name : string) (s : state) : option rule_row :=
  find (name_is name) (rules s).

Definition entries_for (name : string) (results : list entry) : list entry :=
  filter (fun e => match dict_get e "rule" with
                   | Some (FStr n) => String.eqb n name
                   | _ => false
                   end) results.

Section Selection.
Context {clock : Clock}.

(** The rules a run iterates over: the active rules, kept by trigger type. *)
Definition selected_rules (trigger_type : option string) (s : state) : list Rule.t :=
  match get_active_rules s with
  | (Ret rules, _) => select_trigger trigger_type rules
  | (Raise _, _) => []
  end.

(** The names the active-rule listing returns. *)
Definition active_names (s : state) : list string :=
  match get_active_rules s with
  | (Ret rules, _) => map Rule.name rules
  | (Raise _, _) => []
  end.

(** One call of a method of the hub, whatever it returns: the fifteen public
    methods, then the three the hub keeps to itself. [evaluate_rule] reads
    neither the database nor the clock. *)
Inductive step : state -> state -> Prop :=
| step_add_rule rule s : step s (snd (add_rule rule s))
| step_add_rule_from_json d s : step s (snd (add_rule_from_json d s))
| step_get_rule name s : step s (snd (get_rule name s))
| step_enable_rule name s : step s (snd (enable_rule name s))
| step_disable_rule name s : step s (snd (disable_rule name s))
| step_delete_rule name s : step s (snd (delete_rule name s))
| step_get_active_rules s : step s (snd (get_active_rules s))
| step_list_rules s : step s (snd (list_rules s))
| step_evaluate_rule (rule : Rule.t) (context : dict) s : step s s
| step_execute_action action context s :
    step s (snd (execute_action action context s))
| step_register_service name h s : step s (snd (register_service name h s))
| step_run_rule_engine context trigger_type s :
    step s (snd (run_rule_engine context trigger_type s))
| step_fire_event name data s : step s (snd (fire_event name data s))
| step_process_sensor_update sensor value unit s :
    step s (snd (process_sensor_update sensor value unit s))
| step_get_execution_history name hours s :
    step s (snd (get_execution_history name hours s))
| step_record_execution rule_name triggered_by context result error duration s :
    step s (snd (_record_execution rule_name triggered_by context result error
                                   duration s))
| step_increment_trigger rule_name s : step s (snd (_increment_trigger rule_name s))
| step_log level message context s : step s (snd (_log level message context s)).

(** The states a hub goes through, from a fresh database. *)
Inductive reachable : state -> Prop :=
| reachable_init : reachable init_db
| reachable_step s s' : reachable s -> step s s' -> reachable s'.
End Selection.

Definition count_name (name : string) (l : list string) : nat :=
  List.length (filter (String.eqb name) l).

(** [n] further readings of the clock, and nothing else. *)
Definition advance (n : nat) (s : state) : state :=
  State (rules s) (executions s) (logs s) (_service_handlers s)
        (n + clock_reads s) (calls s).

(** What [get_active_rules] makes of a fetched row. *)
Definition loaded (row : rule_row) (r : Rule.t) : Prop :=
  exists now r0,
    Rule.from_dict (row_definition row) now = Ret r0 /\
    r = Rule.set_counters r0 true (row_last_triggered row) (row_trigger_count row).

(** A step that leaves the rule table, the execution table, the registry and
    the call trace as they are. *)
Definition keeps (s s' : state) : Prop :=
  rules s' = rules s /\
  executions s' = executions s /\
  _service_handlers s' = _service_handlers s /\
  calls s' = calls s /\
  (clock_reads s <= clock_reads s')%nat.

(** A step that leaves everything recorded under a rule name as it is: its
    row, its execution records and its calls. *)
Definition untouched (name : string) (s s' : state) : Prop :=
  row_for name s' = row_for name s /\
  executions_for name s' = executions_for name s /\
  calls_for name s' = calls_for name s.

(** The result entry of a rule whose conditions do not all pass. *)
Definition skipped_entry (rule : Rule.t) (context : dict) : entry :=
  [("rule", FStr (Rule.name rule)); ("status", FStr "skipped");
   ("failed_conditions", FFailures (snd (evaluate_rule rule context)))].

(** The six action tags [execute_action] recognizes. *)
Definition known_action_type (atype : string) : bool :=
  is_type atype "log_message" || is_type atype "send_notify" ||
  is_type atype "set_state" || is_type atype "call_service" ||
  is_type atype "delay" || is_type atype "run_scene".

Definition is_some {A : Type} (o : option A) : bool :=
  match o with
  | Some _ => true
  | None => false
  end.

(** A document that holds every required field: [name], [trigger] with its
    [type], and [field], [op], [value] of each condition and [type] of each
    action it lists. *)
Definition required_present (d : Rule.document) : bool :=
  is_some (Rule.d_name d) &&
  match Rule.d_trigger d with
  | Some tkw => is_some (Trigger.kw_type tkw)
  | None => false
  end &&
  forallb (fun c => is_some (Condition.kw_field c) && is_some (Condition.kw_op c)
                    && is_some (Condition.kw_value c))
          (or_default (Rule.d_conditions d) []) &&
  forallb (fun a => is_some (Action.kw_type a)) (or_default (Rule.d_actions d) []).

(** A document whose [priority] and [trigger_count], 0 where it leaves them
    out, [sqlite3] binds. *)
Definition document_binds (d : Rule.document) : bool :=
  sqlite_int (or_default (Rule.d_priority d) 0) &&
  sqlite_count (or_default (Rule.d_trigger_count d) 0).

(** The row [add_rule] stores for a rule. *)
Definition row_of (rule : Rule.t) : rule_row :=
  RuleRow (Rule.name rule) (Rule.to_dict rule) (Z.b2z (Rule.enabled rule))
          (Rule.priority rule) (Rule.created_at rule) (Rule.last_triggered rule)
          (Rule.trigger_count rule).

(** ** Concrete scenarios *)

(** A clock that advances one millisecond at each reading, with a pause
    that takes any number that is not negative. *)
Definition ms_clock : Clock :=
  {| utcnow := fun n => 1000 * Z.of_nat n;
     isoformat := fun t => String.append "T+" (NilZero.string_of_int (Z.to_int t));
     time_sleep := fun secs =>
       match num_of secs with
       | None => Raise (TypeError "a number is required")
       | Some q =>
           if Qle_bool 0 q then Ret tt
           else Raise (ValueError "sleep length must be non-negative")
       end |}.

(** The rule of the test fixture: [sensor.t1.value > 30.0], one log action. *)
Definition temp_alert : Rule.t :=
  Rule.Build "temp_alert"
    (Trigger.Build "sensor" [("sensor_id", VStr "t1")])
    [Condition.Build "sensor.t1.value" ">" (VFloat (30 # 1)) false]
    [Action.Build "log_message" None [("message", VStr "hot!")]]
    true 5 "" "2024-01-01T00:00:00" None 0.

Definition hub_temp_alert : state := snd (@add_rule ms_clock temp_alert init_db).

(** The context [process_sensor_update] builds for a reading of sensor t1. *)
Definition reading (value : Q) : dict :=
  [("sensor", VDict [("t1", VDict [("value", VFloat value); ("unit", VStr "C")])]);
   ("event", VDict [("name", VStr "sensor_update"); ("sensor_id", VStr "t1");
                    ("value", VFloat value)]);
   ("ts", VStr "T+0")].

(** A rule whose second action has an unrecognized tag. *)
Definition night_scene : Rule.t :=
  Rule.Build "night_scene"
    (Trigger.Build "event" [])
    []
    [Action.Build "log_message" None [("message", VStr "start")];
     Action.Build "launch_rocket" None [];
     Action.Build "log_message" None [("message", VStr "done")]]
    true 0 "" "2024-01-01T00:00:00" None 0.

Definition hub_night_scene : state := snd (@add_rule ms_clock night_scene init_db).

(** A rule logging a message and then calling a service nobody registered. *)
Definition call_unregistered : Rule.t :=
  Rule.Build "call_unregistered"
    (Trigger.Build "event" [])
    []
    [Action.Build "log_message" None [("message", VStr "calling")];
     Action.Build "call_service" (Some "garage.open") []]
    true 0 "" "2024-01-01T00:00:00" None 0.

Definition hub_call_unregistered : state :=
  snd (@add_rule ms_clock call_unregistered init_db).

(** A rule document that states [enabled: false]. *)
Definition disabled_document : Rule.document :=
  Rule.Doc (Some "porch_light") (Some (Trigger.Kw (Some "event") None))
           None None (Some false) None None None None None.

(** A rule document with the required fields only. *)
Definition minimal_document : Rule.document :=
  Rule.Doc (Some "porch_light") (Some (Trigger.Kw (Some "event") None))
           None None None None None None None None.

(** A rule document without a name. *)
Definition nameless_document : Rule.document :=
  Rule.Doc None (Some (Trigger.Kw (Some "event") None))
           None None None None None None None None.

(** A rule that has been triggered 2^63 - 1 times, the largest count an
    INTEGER holds, and a hub holding it. *)
Definition worn_rule : Rule.t :=
  Rule.Build "worn" (Trigger.Build "sensor" []) [] [] true 0 ""
             "2024-01-01T00:00:00" None (2 ^ 63 - 1).

Definition hub_worn_rule : state := snd (@add_rule ms_clock worn_rule init_db).

(** A rule document with every required field and the priority 2^63. *)
Definition oversized_document : Rule.document :=
  Rule.Doc (Some "porch_light") (Some (Trigger.Kw (Some "event") None))
           None None None (Some (2 ^ 63)) None None None None.

(** An execution table in which three records bear the same stamp. *)
Definition tied_history : state :=
  State []
        [ExecutionRow "x" "manual" [("i", VInt 1)] "ok" None "a" 0;
         ExecutionRow "y" "manual" [("i", VInt 2)] "ok" None "a" 0;
         ExecutionRow "x" "manual" [("i", VInt 3)] "ok" None "a" 0;
         ExecutionRow "x" "manual" [("i", VInt 4)] "ok" None "b" 0]
        [] [] 0 [].

(** ** Further notions *)

(** The rule a result entry is about. *)
Definition entry_rule (e : entry) : option string :=
  match dict_get e "rule" with
  | Some (FStr n) => Some n
  | _ => None
  end.

(** The status a result entry reports. *)
Definition entry_status (e : entry) : option string :=
  match dict_get e "status" with
  | Some (FStr st) => Some st
  | _ => None
  end.

(** Whether every condition of a rule passes on a context. *)
Definition passes (context : dict) (rule : Rule.t) : bool :=
  fst (evaluate_rule rule context).

(** A condition with its [negate] flag flipped. *)
Definition negated (c : Condition.t) : Condition.t :=
  Condition.Build (Condition.field c) (Condition.op c) (Condition.value c)
                  (negb (Condition.negate c)).

(** The condition with another operator. *)
Definition with_op (c : Condition.t) (op : string) : Condition.t :=
  Condition.Build (Condition.field c) op (Condition.value c) (Condition.negate c).

Definition outcome_map {A B : Type} (f : A -> B) (o : outcome A) : outcome B :=
  match o with
  | Ret a => Ret (f a)
  | Raise e => Raise e
  end.

(** A string without the path separator. *)
Fixpoint no_dot (s : string) : bool :=
  match s with
  | EmptyString => true
  | String c rest => negb (Ascii.eqb c "."%char) && no_dot rest
  end.

(** The context with its top-level [credentials] key taken out. *)
Definition without_credentials (context : dict) : dict :=
  filter (fun kv => negb (String.eqb (fst kv) "credentials")) context.

(** What one call leaves of a row: every column but the two counters. *)
Definition same_but_counters (r r' : rule_row) : Prop :=
  row_name r' = row_name r /\
  row_definition r' = row_definition r /\
  row_enabled r' = row_enabled r /\
  row_priority r' = row_priority r /\
  row_created_at r' = row_created_at r /\
  count_le (row_trigger_count r) (row_trigger_count r').

(** A row whose columns [priority] and [enabled] are those of the rule its
    definition parses to, as [add_rule] writes them. *)
Definition row_synced (row : rule_row) : bool :=
  match Rule.from_dict (row_definition row) "" with
  | Ret r => Z.eqb (Rule.priority r) (row_priority row)
  | Raise _ => false
  end.

(** The status a run reports for a rule: "skipped" unless every condition
    passes, then "ok" unless an action raises. *)
Definition status_of {clock : Clock} (handlers : list (string * handler))
    (context : dict) (rule : Rule.t) : string :=
  if passes context rule then
    match snd (attempt handlers (Rule.actions rule)) with
    | None => "ok"
    | Some _ => "error"
    end
  else "skipped".

(** A step that only appends to the execution table and to the log. *)
Definition grows (s s' : state) : Prop :=
  (exists new, executions s' = executions s ++ new) /\
  (exists new, logs s' = logs s ++ new).

(** An execution record whose context has no top-level [credentials] key. *)
Definition no_credentials (r : execution_row) : Prop :=
  dict_get (ex_context r) "credentials" = None.

(** A handler that answers every call with the same value. *)
Definition constant_handler (v : pyval) : handler := fun _ _ => Ret v.

(** The fixture hub after one reading of 40 from sensor t1. *)
Definition hub_after_reading : state :=
  snd (@process_sensor_update ms_clock "t1" (40 # 1) "C" hub_temp_alert).

(** * Properties *)

(** ** Path resolver and condition matcher *)

Lemma resolve_parts_none (parts : list string) : resolve_parts parts VNone = VNone.
Proof. destruct parts; reflexivity. Qed.

(** [_resolve_path] is [path_lookup] with absence turned into [None]. *)
Lemma resolve_parts_lookup (parts : list string) :
  forall val,
    resolve_parts parts val =
    match path_lookup parts val with
    | Some v => v
    | None => VNone
    end.
Proof.
  induction parts as [|part rest IH]; intros val; simpl.
  - reflexivity.
  - destruct val; try reflexivity.
    unfold py_get. destruct (dict_get d part) as [v|].
    + apply IH.
    + apply resolve_parts_none.
Qed.

Lemma split_dot_not_nil (path : string) : split_dot path <> [].
Proof.
  induction path as [|c rest IH]; simpl.
  - discriminate.
  - destruct (Ascii.eqb c "."); [discriminate|].
    destruct (split_dot rest); discriminate.
Qed.

Lemma evaluate_none (c : Condition.t) (context : dict) :
  _resolve_path (Condition.field c) context = VNone ->
  Condition.evaluate c context = Ret (Condition.negate c).
Proof. intros E. unfold Condition.evaluate. rewrite E. reflexivity. Qed.

Lemma resolve_path_none (path : string) (context : dict) :
  match path_lookup (split_dot path) (VDict context) with
  | Some v => v = VNone
  | None => True
  end ->
  _resolve_path path context = VNone.
Proof.
  unfold _resolve_path. rewrite resolve_parts_lookup.
  destruct (path_lookup (split_dot path) (VDict context)); intros H;
    [exact H | reflexivity].
Qed.

Example split_dot_sensor : split_dot "sensor.t1.value" = ["sensor"; "t1"; "value"].
Proof. reflexivity. Qed.

Example split_dot_trailing : split_dot "a." = ["a"; ""].
Proof. reflexivity. Qed.

(** C1. Whenever the field path of a condition is missing from the context
    (at some step of the walk the current value is not a mapping, or the key
    is absent), the resolver returns [None] without raising, and
    [Condition.evaluate] returns exactly the [negate] flag of the condition. *)
Theorem missing_field_evaluates_to_negate (c : Condition.t) (context : dict) :
  path_lookup (split_dot (Condition.field c)) (VDict context) = None ->
  _resolve_path (Condition.field c) context = VNone /\
  Condition.evaluate c context = Ret (Condition.negate c).
Proof.
  intros Hmiss.
  assert (E : _resolve_path (Condition.field c) context = VNone).
  { apply resolve_path_none. rewrite Hmiss. exact I. }
  split; [exact E | apply evaluate_none; exact E].
Qed.

(** C10. A [None] stored at the field path of a condition resolves to the
    same value as an absent path. Whenever the resolved value is [None],
    [Condition.evaluate] returns the [negate] flag whatever the operator and
    the comparison value are, an unrecognized operator included, and so it
    agrees with the evaluation in any context where the path is absent. *)
Theorem null_field_evaluates_to_negate (c : Condition.t) (context : dict) :
  path_lookup (split_dot (Condition.field c)) (VDict context) = Some VNone ->
  _resolve_path (Condition.field c) context = VNone /\
  (forall op value,
     Condition.evaluate
       (Condition.Build (Condition.field c) op value (Condition.negate c)) context
     = Ret (Condition.negate c)) /\
  (forall context',
     path_lookup (split_dot (Condition.field c)) (VDict context') = None ->
     Condition.evaluate c context' = Condition.evaluate c context).
Proof.
  intros Hnull.
  assert (E : _resolve_path (Condition.field c) context = VNone).
  { apply resolve_path_none. rewrite Hnull. reflexivity. }
  split; [exact E|]. split.
  - intros op value. apply (evaluate_none (Condition.Build _ op value _)). exact E.
  - intros context' Hmiss.
    rewrite (evaluate_none c context E).
    apply evaluate_none, resolve_path_none. rewrite Hmiss. exact I.
Qed.

(** ** Rule-level evaluation *)

Lemma evaluate_conditions_acc (context : dict) (conds : list Condition.t) :
  forall failed,
    evaluate_conditions conds context failed =
    failed ++ flat_map (condition_failure context) conds.
Proof.
  induction conds as [|cond rest IH]; intros failed; simpl.
  - symmetry. apply app_nil_r.
  - rewrite IH. unfold condition_failure.
    destruct (Condition.evaluate cond context) as [[|]|e]; simpl;
      rewrite <- ?app_assoc; reflexivity.
Qed.

Lemma flat_map_failure_nil (context : dict) (conds : list Condition.t) :
  flat_map (condition_failure context) conds = [] <->
  forall cond, In cond conds -> Condition.evaluate cond context = Ret true.
Proof.
  induction conds as [|cond rest IH]; simpl.
  - split; [intros _ ? []|reflexivity].
  - split.
    + intros E. apply app_eq_nil in E. destruct E as [E1 E2].
      intros c [<-|Hin].
      * unfold condition_failure in E1.
        destruct (Condition.evaluate cond context) as [[|]|e];
          [reflexivity|discriminate|discriminate].
      * apply IH; assumption.
    + intros H.
      assert (E1 : condition_failure context cond = []).
      { unfold condition_failure. rewrite (H cond) by (left; reflexivity). reflexivity. }
      rewrite E1. simpl. apply IH. intros c Hin. apply H. right. exact Hin.
Qed.

Lemma flat_map_failure_length (context : dict) (conds : list Condition.t) :
  List.length (flat_map (condition_failure context) conds) =
  List.length (filter (fun cond => negb (condition_passes context cond)) conds).
Proof.
  induction conds as [|cond rest IH]; simpl.
  - reflexivity.
  - rewrite length_app, IH. unfold condition_failure, condition_passes.
    destruct (Condition.evaluate cond context) as [[|]|e]; reflexivity.
Qed.

(** C2. [evaluate_rule] returns a pair and raises nothing. Its failure list
    holds, in the order of the conditions, one description for each condition
    that evaluates to false and one for each condition whose evaluation
    raises (so every condition is evaluated, also after a failing one); a
    condition with an unrecognized operator and a present field contributes
    the description of its error; and [passed] is true exactly when the
    failure list is empty. *)
Theorem evaluate_rule_collects_every_failure (rule : Rule.t) (context : dict) :
  let passed := fst (evaluate_rule rule context) in
  let failures := snd (evaluate_rule rule context) in
  failures = flat_map (condition_failure context) (Rule.conditions rule) /\
  List.length failures =
    List.length (filter (fun cond => negb (condition_passes context cond))
                        (Rule.conditions rule)) /\
  (passed = true <-> failures = []) /\
  (passed = true <->
   forall cond, In cond (Rule.conditions rule) ->
                Condition.evaluate cond context = Ret true) /\
  (forall cond e, In cond (Rule.conditions rule) ->
                  Condition.evaluate cond context = Raise e ->
                  In (ConditionError e) failures) /\
  (forall cond, In cond (Rule.conditions rule) ->
                _resolve_path (Condition.field cond) context <> VNone ->
                _OP_MAP (Condition.op cond) = None ->
                In (ConditionError (UnknownConditionOperator (Condition.op cond)))
                   failures).
Proof.
  unfold evaluate_rule. cbn [fst snd].
  rewrite evaluate_conditions_acc. cbn [app].
  set (failures := flat_map (condition_failure context) (Rule.conditions rule)).
  assert (Hlen : Nat.eqb (List.length failures) 0 = true <-> failures = []).
  { rewrite Nat.eqb_eq. apply length_zero_iff_nil. }
  assert (Herr : forall cond e, In cond (Rule.conditions rule) ->
                   Condition.evaluate cond context = Raise e ->
                   In (ConditionError e) failures).
  { intros cond e Hin He. apply in_flat_map. exists cond. split; [exact Hin|].
    unfold condition_failure. rewrite He. left. reflexivity. }
  repeat split.
  - apply flat_map_failure_length.
  - apply Hlen.
  - apply Hlen.
  - intros Hp. apply flat_map_failure_nil. apply Hlen. exact Hp.
  - intros H. apply Hlen. apply flat_map_failure_nil. exact H.
  - exact Herr.
  - intros cond Hin Hres Hop. apply (Herr cond); [exact Hin|].
    unfold Condition.evaluate. rewrite Hop.
    destruct (_resolve_path (Condition.field cond) context); congruence.
Qed.

(** ** Rule documents *)

Lemma comprehension_asdict {K T : Type} (init : K -> outcome T) (asdict : T -> K) :
  (forall x, init (asdict x) = Ret x) ->
  forall l, comprehension init (map asdict l) = Ret l.
Proof.
  intros Hinit. induction l as [|x l IH]; simpl.
  - reflexivity.
  - rewrite Hinit, IH. reflexivity.
Qed.

(** A rule survives the round trip through its stored definition. *)
Lemma from_dict_to_dict (r : Rule.t) (now : string) :
  Rule.from_dict (Rule.to_dict r) now = Ret r.
Proof.
  destruct r as [name [ty cfg] conds acts en pr de cr lt tc].
  unfold Rule.from_dict, Rule.to_dict. cbn.
  rewrite (comprehension_asdict Condition.init Condition.asdict)
    by (intros []; reflexivity).
  rewrite (comprehension_asdict Action.init Action.asdict)
    by (intros []; reflexivity).
  reflexivity.
Qed.

(** Whether a document parses, and all of the rule but [created_at], do not
    depend on the clock. *)
Lemma from_dict_clock (d : Rule.document) (now now' : string) (r : Rule.t) :
  Rule.from_dict d now = Ret r ->
  exists r',
    Rule.from_dict d now' = Ret r' /\
    Rule.name r' = Rule.name r /\
    Rule.trigger r' = Rule.trigger r /\
    Rule.conditions r' = Rule.conditions r /\
    Rule.actions r' = Rule.actions r /\
    Rule.enabled r' = Rule.enabled r.
Proof.
  unfold Rule.from_dict.
  destruct (Rule.d_trigger d) as [tkw|]; [|discriminate].
  destruct (Trigger.init tkw) as [trigger|]; [|discriminate].
  destruct (comprehension Condition.init _) as [conds|]; [|discriminate].
  destruct (comprehension Action.init _) as [acts|]; [|discriminate].
  destruct (Rule.d_name d) as [name|]; [|discriminate].
  intros E. injection E as <-. eexists. split; [reflexivity|].
  cbn. repeat split; reflexivity.
Qed.

Lemma row_ok_parses (row : rule_row) (now : string) :
  row_ok row = true ->
  exists r, Rule.from_dict (row_definition row) now = Ret r /\
            Rule.name r = row_name row.
Proof.
  unfold row_ok.
  destruct (Rule.from_dict (row_definition row) "") as [r0|] eqn:E; [|discriminate].
  intros Hname. apply String.eqb_eq in Hname.
  destruct (from_dict_clock _ _ now _ E) as (r & Hr & Hn & _).
  exists r. split; [exact Hr | congruence].
Qed.

Lemma loaded_name (row : rule_row) (r : Rule.t) :
  row_ok row = true -> loaded row r -> Rule.name r = row_name row.
Proof.
  intros Hok (now & r0 & Hr0 & ->).
  destruct (row_ok_parses row now Hok) as (r1 & Hr1 & Hn).
  rewrite Hr0 in Hr1. injection Hr1 as <-. exact Hn.
Qed.

Lemma loaded_counters (row : rule_row) (r : Rule.t) :
  loaded row r ->
  Rule.enabled r = true /\
  Rule.last_triggered r = row_last_triggered row /\
  Rule.trigger_count r = row_trigger_count row.
Proof. intros (now & r0 & _ & ->). repeat split. Qed.

(** ** Sorting and keys *)

Lemma insert_desc_perm {A : Type} (gt : A -> A -> bool) (x : A) (l : list A) :
  Permutation (insert_desc gt x l) (x :: l).
Proof.
  induction l as [|y l IH]; simpl.
  - apply Permutation_refl.
  - destruct (gt y x).
    + eapply perm_trans; [apply perm_skip, IH | apply perm_swap].
    + apply Permutation_refl.
Qed.

Lemma sort_desc_perm {A : Type} (gt : A -> A -> bool) (l : list A) :
  Permutation (sort_desc gt l) l.
Proof.
  induction l as [|x l IH]; simpl.
  - apply perm_nil.
  - eapply perm_trans; [apply insert_desc_perm | apply perm_skip, IH].
Qed.


Lemma distinct_NoDup (l : list string) : distinct l = true <-> NoDup l.
Proof.
  induction l as [|x l IH]; simpl.
  - split; [constructor | reflexivity].
  - rewrite andb_true_iff, negb_true_iff, IH. split.
    + intros [Hx Hl]. constructor; [|exact Hl].
      intros Hin. assert (existsb (String.eqb x) l = true).
      { apply existsb_exists. exists x. split; [exact Hin | apply String.eqb_refl]. }
      congruence.
    + intros H. inversion H as [|? ? Hx Hl]; subst. split; [|exact Hl].
      destruct (existsb (String.eqb x) l) eqn:E; [|reflexivity].
      apply existsb_exists in E. destruct E as (y & Hy & Exy).
      apply String.eqb_eq in Exy. subst y. contradiction.
Qed.

Lemma count_name_absent (name : string) (l : list string) :
  ~ In name l -> count_name name l = 0%nat.
Proof.
  unfold count_name. induction l as [|x l IH]; intros Hnin; simpl.
  - reflexivity.
  - destruct (String.eqb_spec name x) as [->|Hne].
    + exfalso. apply Hnin. left. reflexivity.
    + apply IH. intros Hin. apply Hnin. right. exact Hin.
Qed.

Lemma count_name_NoDup (name : string) (l : list string) :
  NoDup l -> In name l -> count_name name l = 1%nat.
Proof.
  induction l as [|x l IH]; intros Hnd Hin.
  - destruct Hin.
  - inversion Hnd as [|? ? Hx Hl]; subst.
    unfold count_name. simpl.
    destruct (String.eqb_spec name x) as [->|Hne].
    + simpl. f_equal. apply (count_name_absent x l Hx).
    + destruct Hin as [->|Hin]; [contradiction|]. apply IH; assumption.
Qed.

(** Filtering a table cannot make two of its keys equal. *)
Lemma filter_keeps_keys_distinct {K R : Type} (key : R -> K) (keep : R -> bool)
    (table : list R) (Hkeys : NoDup (map key table)) :
  NoDup (map key (filter keep table)).
Proof.
  revert Hkeys. induction table as [|row table IH]; cbn [filter map]; intros Hkeys.
  - exact Hkeys.
  - inversion Hkeys as [|? ? Hfresh Hrest]; subst.
    destruct (keep row); cbn [map]; [|exact (IH Hrest)].
    constructor; [|exact (IH Hrest)].
    intros Hin. apply Hfresh. apply in_map_iff in Hin.
    destruct Hin as (other & Hkey & Hin). apply filter_In in Hin.
    apply in_map_iff. exists other. split; [exact Hkey | apply Hin].
Qed.

(** ** The hub *)

Section HubFacts.
Context {clock : Clock}.

Lemma keeps_refl (s : state) : keeps s s.
Proof. unfold keeps. repeat split. apply Nat.le_refl. Qed.

Lemma keeps_trans (s1 s2 s3 : state) : keeps s1 s2 -> keeps s2 s3 -> keeps s1 s3.
Proof.
  unfold keeps. intros (A1 & A2 & A3 & A4 & A5) (B1 & B2 & B3 & B4 & B5).
  repeat split; try congruence. eapply Nat.le_trans; eassumption.
Qed.

Lemma keeps_advance (n : nat) (s : state) : keeps s (advance n s).
Proof. unfold keeps, advance. cbn. repeat split. apply Nat.le_add_l. Qed.

Lemma keeps_untouched (name : string) (s s' : state) :
  keeps s s' -> untouched name s s'.
Proof.
  unfold keeps, untouched, row_for, executions_for, calls_for.
  intros (-> & -> & _ & -> & _). repeat split.
Qed.

Lemma untouched_refl (name : string) (s : state) : untouched name s s.
Proof. unfold untouched. repeat split. Qed.

Lemma untouched_trans (name : string) (s1 s2 s3 : state) :
  untouched name s1 s2 -> untouched name s2 s3 -> untouched name s1 s3.
Proof.
  unfold untouched. intros (A1 & A2 & A3) (B1 & B2 & B3).
  repeat split; congruence.
Qed.

Lemma log_keeps (level : string) (message : log_text) (context : dict) (s : state) :
  exists s', _log level message context s = (Ret tt, s') /\ keeps s s'.
Proof.
  eexists. split; [reflexivity|].
  unfold keeps. cbn. repeat split. apply Nat.le_succ_diag_r.
Qed.

(** [execute_action] returns what [action_outcome] says, and touches
    neither the rule table nor the execution table. *)
Lemma execute_action_outcome (action : Action.t) (context : dict) (s : state) :
  exists s',
    execute_action action context s =
      (action_outcome (_service_handlers s) action, s') /\
    keeps s s'.
Proof.
  unfold execute_action, action_outcome.
  destruct (is_type (Action.type action) "log_message").
  { destruct (log_keeps "INFO"
                (RuleAction (py_get_default (Action.params action) "message" (VStr "")))
                context s) as (s' & E & K).
    exists s'. unfold bind. rewrite E. split; [reflexivity | exact K]. }
  destruct (is_type (Action.type action) "send_notify").
  { exists s. split; [reflexivity | apply keeps_refl]. }
  destruct (is_type (Action.type action) "set_state").
  { exists s. split; [reflexivity | apply keeps_refl]. }
  destruct (is_type (Action.type action) "call_service").
  { exists s. split; [|apply keeps_refl].
    unfold bind, gets, lift, ret.
    destruct (Action.target action) as [name|]; [|reflexivity].
    destruct (dict_get (_service_handlers s) name) as [h|]; [|reflexivity].
    destruct (h name (Action.params action)); reflexivity. }
  destruct (is_type (Action.type action) "delay").
  { exists s. split; [|apply keeps_refl].
    unfold bind, lift, ret.
    destruct (time_sleep _); reflexivity. }
  destruct (is_type (Action.type action) "run_scene").
  { exists s. split; [reflexivity | apply keeps_refl]. }
  exists s. split; [reflexivity | apply keeps_refl].
Qed.

(** *** Loading the active rules *)

Lemma Rule_from_dict_ok (row : rule_row) (s : state) :
  row_ok row = true ->
  exists r,
    Rule_from_dict (row_definition row) s = (Ret r, tick s) /\
    loaded row (Rule.set_counters r true (row_last_triggered row)
                                  (row_trigger_count row)).
Proof.
  intros Hok.
  destruct (row_ok_parses row (isoformat (utcnow (clock_reads s))) Hok)
    as (r & Hr & _).
  exists r. unfold Rule_from_dict. rewrite Hr. split; [reflexivity|].
  exists (isoformat (utcnow (clock_reads s))), r. split; [exact Hr | reflexivity].
Qed.

Lemma load_rules_ok (rows : list rule_row) :
  forall result s,
    forallb row_ok rows = true ->
    exists rs,
      load_rules rows result s = (Ret (result ++ rs), advance (List.length rows) s) /\
      Forall2 loaded rows rs.
Proof.
  induction rows as [|row rows IH]; intros result s Hok.
  - exists []. rewrite app_nil_r. split; [|constructor].
    destruct s; reflexivity.
  - simpl in Hok. apply andb_true_iff in Hok. destruct Hok as [Hrow Hrows].
    destruct (Rule_from_dict_ok row s Hrow) as (r & Er & Lr).
    destruct (IH (result ++ [Rule.set_counters r true (row_last_triggered row)
                                               (row_trigger_count row)])
                 (tick s) Hrows) as (rs & Ers & Lrs).
    exists (Rule.set_counters r true (row_last_triggered row)
                              (row_trigger_count row) :: rs).
    split; [|constructor; assumption].
    cbn [load_rules]. unfold bind at 1. rewrite Er, Ers.
    rewrite <- app_assoc. cbn [app]. f_equal.
    unfold advance, tick. cbn. f_equal. apply Nat.add_succ_r.
Qed.

Lemma select_active_In (table : list rule_row) (row : rule_row) :
  In row (select_active table) <-> In row table /\ row_enabled row = 1.
Proof.
  unfold select_active. split.
  - intros Hin. apply (Permutation_in _ (sort_desc_perm _ _)) in Hin.
    apply filter_In in Hin. destruct Hin as [Hin He].
    split; [exact Hin | apply Z.eqb_eq; exact He].
  - intros [Hin He].
    apply (Permutation_in _ (Permutation_sym (sort_desc_perm _ _))).
    apply filter_In. split; [exact Hin | apply Z.eqb_eq; exact He].
Qed.

Lemma select_active_NoDup (table : list rule_row) :
  NoDup (map row_name table) -> NoDup (map row_name (select_active table)).
Proof.
  intros Hnd. unfold select_active.
  eapply Permutation_NoDup.
  - apply Permutation_sym, Permutation_map, sort_desc_perm.
  - apply filter_keeps_keys_distinct. exact Hnd.
Qed.

Lemma select_active_ok (table : list rule_row) :
  forallb row_ok table = true -> forallb row_ok (select_active table) = true.
Proof.
  intros Hok. apply forallb_forall. intros row Hin.
  apply select_active_In in Hin.
  apply (proj1 (forallb_forall _ _) Hok). apply Hin.
Qed.

Lemma db_ok_parts (s : state) :
  db_ok s = true ->
  NoDup (map row_name (rules s)) /\ forallb row_ok (rules s) = true.
Proof.
  unfold db_ok. intros H. apply andb_true_iff in H. destruct H as [H1 H2].
  split; [apply distinct_NoDup; exact H1 | exact H2].
Qed.

Lemma Forall2_loaded_names (rows : list rule_row) (rs : list Rule.t) :
  forallb row_ok rows = true -> Forall2 loaded rows rs ->
  map Rule.name rs = map row_name rows.
Proof.
  intros Hok HF. induction HF as [|row r rows rs Hl HF IH]; simpl.
  - reflexivity.
  - simpl in Hok. apply andb_true_iff in Hok. destruct Hok as [Hrow Hrows].
    rewrite (loaded_name row r Hrow Hl), (IH Hrows). reflexivity.
Qed.

(** On a well-formed table the active-rule listing raises nothing: it
    returns one rule per enabled row, in the order of the query, and only
    reads the clock. *)
Lemma get_active_rules_ok (s : state) :
  db_ok s = true ->
  exists rs,
    get_active_rules s =
      (Ret rs, advance (List.length (select_active (rules s))) s) /\
    Forall2 loaded (select_active (rules s)) rs /\
    map Rule.name rs = map row_name (select_active (rules s)) /\
    NoDup (map Rule.name rs).
Proof.
  intros Hdb. destruct (db_ok_parts s Hdb) as [Hnd Hok].
  pose proof (select_active_ok _ Hok) as Hok'.
  destruct (load_rules_ok (select_active (rules s)) [] s Hok') as (rs & E & HF).
  exists rs. unfold get_active_rules, bind, gets. rewrite E.
  pose proof (Forall2_loaded_names _ _ Hok' HF) as Hn.
  repeat split; try assumption.
  rewrite Hn. apply select_active_NoDup. exact Hnd.
Qed.
End HubFacts.

(** ** Table updates seen from one name *)

Lemma name_is_update (name other : string) (f : rule_row -> rule_row) (r : rule_row) :
  (forall r, row_name (f r) = row_name r) ->
  name_is name (if name_is other r then f r else r) = name_is name r.
Proof.
  intros Hf. unfold name_is.
  destruct (String.eqb (row_name r) other); [rewrite Hf|]; reflexivity.
Qed.

Lemma find_update_other (name other : string) (f : rule_row -> rule_row)
    (table : list rule_row) :
  other <> name ->
  (forall r, row_name (f r) = row_name r) ->
  find (name_is name) (update_where other f table) = find (name_is name) table.
Proof.
  intros Hne Hf. unfold update_where.
  induction table as [|r table IH]; cbn [map find].
  - reflexivity.
  - rewrite IH, (name_is_update name other f r Hf).
    destruct (name_is name r) eqn:En; [|reflexivity].
    destruct (name_is other r) eqn:Eo; [|reflexivity].
    unfold name_is in En, Eo. apply String.eqb_eq in En, Eo. congruence.
Qed.

Lemma find_update_same (name : string) (f : rule_row -> rule_row)
    (table : list rule_row) :
  (forall r, row_name (f r) = row_name r) ->
  find (name_is name) (update_where name f table) =
  option_map f (find (name_is name) table).
Proof.
  intros Hf. unfold update_where.
  induction table as [|r table IH]; cbn [map find].
  - reflexivity.
  - rewrite IH, (name_is_update name name f r Hf).
    destruct (name_is name r) eqn:En; reflexivity.
Qed.

Lemma update_where_names (name : string) (f : rule_row -> rule_row)
    (table : list rule_row) :
  (forall r, row_name (f r) = row_name r) ->
  map row_name (update_where name f table) = map row_name table.
Proof.
  intros Hf. unfold update_where. rewrite map_map. apply map_ext.
  intros r. destruct (name_is name r); [apply Hf | reflexivity].
Qed.

Lemma find_NoDup (table : list rule_row) (row : rule_row) :
  NoDup (map row_name table) -> In row table ->
  find (name_is (row_name row)) table = Some row.
Proof.
  induction table as [|r table IH]; simpl; intros Hnd Hin.
  - destruct Hin.
  - inversion Hnd as [|? ? Hr Ht]; subst. unfold name_is at 1.
    destruct Hin as [->|Hin].
    + rewrite String.eqb_refl. reflexivity.
    + destruct (String.eqb_spec (row_name r) (row_name row)) as [E|_].
      * exfalso. apply Hr. rewrite E. apply in_map. exact Hin.
      * apply IH; assumption.
Qed.

Lemma filter_pair_other {A : Type} (name other : string) (l : list A) :
  other <> name ->
  filter (fun c : string * A => String.eqb (fst c) name) (map (pair other) l) = [].
Proof.
  intros Hne. induction l as [|x l IH]; simpl.
  - reflexivity.
  - destruct (String.eqb_spec other name); [contradiction | exact IH].
Qed.

Lemma filter_pair_same {A : Type} (name : string) (l : list A) :
  map snd (filter (fun c : string * A => String.eqb (fst c) name) (map (pair name) l)) = l.
Proof.
  induction l as [|x l IH]; simpl.
  - reflexivity.
  - rewrite String.eqb_refl. simpl. rewrite IH. reflexivity.
Qed.

Section EngineFacts.
Context {clock : Clock}.

(** *** The action sequence of one rule *)

Lemma run_actions_attempt (rule_name : string) (context : dict)
    (actions : list Action.t) :
  forall action_results s,
    exists s',
      run_actions rule_name actions context action_results s =
        (Ret (action_results ++ snd (fst (attempt (_service_handlers s) actions)),
              snd (attempt (_service_handlers s) actions)), s') /\
      rules s' = rules s /\
      executions s' = executions s /\
      _service_handlers s' = _service_handlers s /\
      calls s' =
        calls s ++ map (pair rule_name) (fst (fst (attempt (_service_handlers s) actions))) /\
      (clock_reads s <= clock_reads s')%nat.
Proof.
  induction actions as [|action rest IH]; intros acc s.
  - exists s. cbn. rewrite !app_nil_r. repeat split. apply Nat.le_refl.
  - destruct (execute_action_outcome action context (record_call rule_name action s))
      as (s1 & E1 & K1 & K2 & K3 & K4 & K5).
    cbn [_service_handlers record_call rules executions calls clock_reads]
      in E1, K1, K2, K3, K4, K5.
    cbn [run_actions attempt].
    unfold bind at 1, modify. unfold bind at 1, try_except. rewrite E1.
    destruct (action_outcome (_service_handlers s) action) as [v|e].
    + destruct (IH (acc ++ [v]) s1) as (s' & E & R1 & R2 & R3 & R4 & R5).
      rewrite K3 in E, R4. exists s'. rewrite E.
      destruct (attempt (_service_handlers s) rest) as [[called results] err].
      cbn [fst snd] in *. rewrite <- app_assoc. cbn [app].
      split; [reflexivity|].
      split; [congruence|]. split; [congruence|]. split; [congruence|].
      split.
      * rewrite R4, K4. cbn [map]. rewrite <- app_assoc. reflexivity.
      * eapply Nat.le_trans; [exact K5 | exact R5].
    + exists s1. cbn [fst snd]. rewrite app_nil_r.
      split; [reflexivity|].
      split; [exact K1|]. split; [exact K2|]. split; [exact K3|].
      split; [exact K4 | exact K5].
Qed.

(** *** One pass of the loop body *)

Lemma run_rule_skipped (context : dict) (trigger_type : option string)
    (rule : Rule.t) (s : state) :
  fst (evaluate_rule rule context) = false ->
  run_rule context trigger_type rule s = (Ret (skipped_entry rule context), tick s).
Proof.
  intros Hfail. unfold run_rule, skipped_entry.
  destruct (evaluate_rule rule context) as [ok failed].
  cbn [fst] in Hfail. subst ok. reflexivity.
Qed.

Lemma run_rule_passed (context : dict) (trigger_type : option string)
    (rule : Rule.t) (s : state) :
  fst (evaluate_rule rule context) = true ->
  let att := attempt (_service_handlers s) (Rule.actions rule) in
  let status := match snd att with None => "ok" | Some _ => "error" end in
  exists c1 s',
    (clock_reads s < c1)%nat /\
    run_rule context trigger_type rule s =
      (Ret [("rule", FStr (Rule.name rule)); ("status", FStr status);
            ("actions", FActions (snd (fst att)));
            ("duration_ms", FRounded (utcnow c1 - utcnow (clock_reads s)))], s') /\
    rules s' =
      update_where (Rule.name rule) (with_trigger (isoformat (utcnow (S (S c1)))))
                   (rules s) /\
    executions s' =
      executions s ++
      [ExecutionRow (Rule.name rule) (or_str trigger_type "manual")
         (filter (fun kv => negb (String.eqb (fst kv) "credentials")) context)
         status (snd att) (isoformat (utcnow (S c1)))
         (utcnow c1 - utcnow (clock_reads s))] /\
    _service_handlers s' = _service_handlers s /\
    calls s' = calls s ++ map (pair (Rule.name rule)) (fst (fst att)) /\
    clock_reads s' = S (S (S c1)).
Proof.
  intros Hpass att status.
  destruct (run_actions_attempt (Rule.name rule) context (Rule.actions rule) [] (tick s))
    as (s1 & E & R1 & R2 & R3 & R4 & R5).
  cbn [_service_handlers tick rules executions calls clock_reads app] in E, R1, R2, R3, R4, R5.
  fold att in E, R4.
  exists (clock_reads s1).
  exists (set_rules
            (update_where (Rule.name rule)
               (with_trigger (isoformat (utcnow (S (S (clock_reads s1)))))))
            (tick (set_executions
                     (fun l => l ++
                        [ExecutionRow (Rule.name rule) (or_str trigger_type "manual")
                           (filter (fun kv => negb (String.eqb (fst kv) "credentials"))
                                   context)
                           status (snd att) (isoformat (utcnow (S (clock_reads s1))))
                           (utcnow (clock_reads s1) - utcnow (clock_reads s))])
                     (tick (tick s1))))).
  split; [exact R5|]. split.
  - unfold run_rule. unfold bind at 1, now at 1.
    destruct (evaluate_rule rule context) as [ok failed].
    cbn [fst] in Hpass. subst ok. cbn [negb].
    unfold bind at 1. rewrite E. reflexivity.
  - cbn [rules executions _service_handlers calls clock_reads set_rules
         set_executions tick].
    rewrite R1, R2, R3, R4. repeat split; reflexivity.
Qed.
End EngineFacts.

Lemma NoDup_map_split {A B : Type} (f : A -> B) (l1 l2 : list A) (x : A) :
  NoDup (map f (l1 ++ x :: l2)) ->
  Forall (fun y => f y <> f x) l1 /\ Forall (fun y => f y <> f x) l2.
Proof.
  rewrite map_app. cbn [map]. intros Hnd. apply NoDup_remove_2 in Hnd.
  split; apply Forall_forall; intros y Hy Heq; apply Hnd; apply in_or_app;
    [left | right]; rewrite <- Heq; apply in_map; exact Hy.
Qed.

Lemma Forall2_In_r {A B : Type} (R : A -> B -> Prop) (l : list A) (l' : list B) (y : B) :
  Forall2 R l l' -> In y l' -> exists x, In x l /\ R x y.
Proof.
  intros HF. induction HF as [|a b l l' Hab HF IH]; intros Hin.
  - destruct Hin.
  - destruct Hin as [->|Hin].
    + exists a. split; [left; reflexivity | exact Hab].
    + destruct (IH Hin) as (x & Hx & Hr). exists x. split; [right; exact Hx | exact Hr].
Qed.

Section LoopFacts.
Context {clock : Clock}.

Lemma with_trigger_name (ts : string) (r : rule_row) :
  row_name (with_trigger ts r) = row_name r.
Proof. reflexivity. Qed.

(** The loop body never raises. *)
Lemma run_rule_returns (context : dict) (trigger_type : option string)
    (rule : Rule.t) (s : state) :
  exists e s', run_rule context trigger_type rule s = (Ret e, s').
Proof.
  destruct (fst (evaluate_rule rule context)) eqn:Ev.
  - destruct (run_rule_passed context trigger_type rule s Ev)
      as (c1 & s' & _ & E & _).
    eexists. exists s'. exact E.
  - eexists. eexists. apply run_rule_skipped. exact Ev.
Qed.

(** The pass of one rule leaves what is recorded under another name. *)
Lemma run_rule_other (name : string) (context : dict)
    (trigger_type : option string) (rule : Rule.t) (s : state) :
  Rule.name rule <> name ->
  exists e s',
    run_rule context trigger_type rule s = (Ret e, s') /\
    untouched name s s' /\
    _service_handlers s' = _service_handlers s /\
    (clock_reads s <= clock_reads s')%nat /\
    entries_for name [e] = [].
Proof.
  intros Hne.
  assert (Hneb : String.eqb (Rule.name rule) name = false)
    by (apply String.eqb_neq; exact Hne).
  destruct (fst (evaluate_rule rule context)) eqn:Ev.
  - destruct (run_rule_passed context trigger_type rule s Ev)
      as (c1 & s' & Hc & E & Hr & Hx & Hh & Hcl & Hclk).
    eexists. exists s'. split; [exact E|].
    split; [|split; [exact Hh | split]].
    + unfold untouched, row_for, executions_for, calls_for.
      rewrite Hr, Hx, Hcl. split; [|split].
      * apply find_update_other; [exact Hne | apply with_trigger_name].
      * rewrite filter_app. cbn [filter ex_rule_name]. rewrite Hneb.
        apply app_nil_r.
      * rewrite filter_app, filter_pair_other by exact Hne.
        rewrite app_nil_r. reflexivity.
    + rewrite Hclk. apply Nat.lt_le_incl.
      eapply Nat.lt_le_trans; [exact Hc|]. do 3 apply Nat.le_le_succ_r.
      apply Nat.le_refl.
    + cbn. rewrite Hneb. reflexivity.
  - exists (skipped_entry rule context), (tick s).
    split; [apply run_rule_skipped; exact Ev|].
    split; [|split; [reflexivity | split]].
    + apply keeps_untouched. unfold keeps. cbn. repeat split.
      apply Nat.le_succ_diag_r.
    + cbn. apply Nat.le_succ_diag_r.
    + cbn. rewrite Hneb. reflexivity.
Qed.

Lemma entries_for_app (name : string) (l1 l2 : list entry) :
  entries_for name (l1 ++ l2) = entries_for name l1 ++ entries_for name l2.
Proof. apply filter_app. Qed.

Lemma run_rules_others (name : string) (context : dict)
    (trigger_type : option string) (rs : list Rule.t) :
  Forall (fun r => Rule.name r <> name) rs ->
  forall results s,
    exists es s',
      run_rules context trigger_type rs results s = (Ret (results ++ es), s') /\
      untouched name s s' /\
      _service_handlers s' = _service_handlers s /\
      (clock_reads s <= clock_reads s')%nat /\
      entries_for name es = [].
Proof.
  induction rs as [|rule rs IH]; intros Hall results s.
  - exists [], s. rewrite app_nil_r. split; [reflexivity|].
    split; [apply untouched_refl|]. repeat split. apply Nat.le_refl.
  - inversion Hall as [|? ? Hne Hrest]; subst.
    destruct (run_rule_other name context trigger_type rule s Hne)
      as (e & s1 & E1 & U1 & H1 & C1 & N1).
    destruct (IH Hrest (results ++ [e]) s1) as (es & s' & E & U & H & C & N).
    exists (e :: es), s'. cbn [run_rules]. unfold bind at 1. rewrite E1, E.
    rewrite <- app_assoc. split; [reflexivity|].
    split; [eapply untouched_trans; eassumption|].
    split; [congruence|]. split; [eapply Nat.le_trans; eassumption|].
    change (e :: es) with ([e] ++ es). rewrite entries_for_app, N1, N.
    reflexivity.
Qed.

Lemma run_rules_app (context : dict) (trigger_type : option string)
    (l1 l2 : list Rule.t) :
  forall results s,
    run_rules context trigger_type (l1 ++ l2) results s =
    bind (run_rules context trigger_type l1 results)
         (fun results' => run_rules context trigger_type l2 results') s.
Proof.
  induction l1 as [|rule l1 IH]; intros results s.
  - reflexivity.
  - cbn [app run_rules]. unfold bind.
    destruct (run_rule context trigger_type rule s) as [[e|ex] s1].
    + rewrite IH. reflexivity.
    + reflexivity.
Qed.

Lemma select_trigger_In (trigger_type : option string) (rs : list Rule.t)
    (rule : Rule.t) :
  In rule (select_trigger trigger_type rs) -> In rule rs.
Proof.
  unfold select_trigger. destruct (truthy trigger_type); [|exact (fun H => H)].
  intros H. apply filter_In in H. apply H.
Qed.

Lemma select_trigger_NoDup (trigger_type : option string) (rs : list Rule.t) :
  NoDup (map Rule.name rs) -> NoDup (map Rule.name (select_trigger trigger_type rs)).
Proof.
  unfold select_trigger. destruct (truthy trigger_type); [|exact (fun H => H)].
  apply filter_keeps_keys_distinct.
Qed.

(** A selected rule comes from an enabled row of its name. *)
Lemma selected_row (trigger_type : option string) (rule : Rule.t) (s : state) :
  db_ok s = true ->
  In rule (selected_rules trigger_type s) ->
  exists row,
    row_for (Rule.name rule) s = Some row /\
    row_name row = Rule.name rule /\
    row_enabled row = 1 /\
    loaded row rule.
Proof.
  intros Hdb Hin. destruct (get_active_rules_ok s Hdb) as (rs & E & HF & _ & _).
  unfold selected_rules in Hin. rewrite E in Hin.
  apply select_trigger_In in Hin.
  destruct (Forall2_In_r _ _ _ _ HF Hin) as (row & Hrow & Hl).
  apply select_active_In in Hrow. destruct Hrow as [Hrow Hen].
  destruct (db_ok_parts s Hdb) as [Hnd Hok].
  assert (Hname : Rule.name rule = row_name row).
  { apply loaded_name; [|exact Hl].
    apply (proj1 (forallb_forall _ _) Hok). exact Hrow. }
  exists row. unfold row_for. rewrite Hname.
  split; [apply find_NoDup; assumption|]. repeat split; assumption.
Qed.

(** A run reaches every selected rule once: the passes before and after
    the pass of the rule leave what is recorded under its name. *)
Lemma engine_reaches (context : dict) (trigger_type : option string)
    (rule : Rule.t) (s : state) :
  db_ok s = true ->
  In rule (selected_rules trigger_type s) ->
  exists s1 e s2 es1 es2 s',
    run_rule_engine context trigger_type s = (Ret (es1 ++ e :: es2), s') /\
    run_rule context trigger_type rule s1 = (Ret e, s2) /\
    untouched (Rule.name rule) s s1 /\
    _service_handlers s1 = _service_handlers s /\
    (clock_reads s <= clock_reads s1)%nat /\
    untouched (Rule.name rule) s2 s' /\
    (clock_reads s2 <= clock_reads s')%nat /\
    entries_for (Rule.name rule) es1 = [] /\
    entries_for (Rule.name rule) es2 = [].
Proof.
  intros Hdb Hin. destruct (get_active_rules_ok s Hdb) as (rs & E & _ & _ & Hnd).
  unfold selected_rules in Hin. rewrite E in Hin.
  pose proof (select_trigger_NoDup trigger_type rs Hnd) as Hnd'.
  destruct (in_split _ _ Hin) as (l1 & l2 & Hsplit).
  rewrite Hsplit in Hnd'.
  destruct (NoDup_map_split Rule.name l1 l2 rule Hnd') as [Hl1 Hl2].
  set (s0 := advance (List.length (select_active (rules s))) s) in *.
  destruct (run_rules_others (Rule.name rule) context trigger_type l1 Hl1 [] s0)
    as (es1 & s1 & E1 & U1 & H1 & C1 & N1).
  destruct (run_rule_returns context trigger_type rule s1) as (e & s2 & E2).
  destruct (run_rules_others (Rule.name rule) context trigger_type l2 Hl2
              (es1 ++ [e]) s2)
    as (es2 & s' & E3 & U3 & H3 & C3 & N3).
  exists s1, e, s2, es1, es2, s'.
  split.
  { unfold run_rule_engine. unfold bind at 1. rewrite E. fold s0.
    rewrite Hsplit, run_rules_app. unfold bind at 1. rewrite E1.
    cbn [app run_rules]. unfold bind at 1. rewrite E2, E3.
    rewrite <- app_assoc. reflexivity. }
  split; [exact E2|].
  split; [eapply untouched_trans; [apply keeps_untouched, keeps_advance | exact U1]|].
  split; [rewrite H1; reflexivity|].
  split; [eapply Nat.le_trans; [|exact C1]; apply Nat.le_add_l|].
  split; [exact U3|]. split; [exact C3|]. split; [exact N1 | exact N3].
Qed.
End LoopFacts.

(** ** What a run does to one selected rule *)

Lemma attempt_all {clock : Clock} (handlers : list (string * handler))
    (actions : list Action.t) (vs : list pyval) :
  Forall2 (fun a v => action_outcome handlers a = Ret v) actions vs ->
  attempt handlers actions = (actions, vs, None).
Proof.
  intros HF. induction HF as [|a v actions vs Hav HF IH]; cbn [attempt].
  - reflexivity.
  - rewrite Hav, IH. reflexivity.
Qed.

Lemma attempt_stops {clock : Clock} (handlers : list (string * handler))
    (pre post : list Action.t) (a : Action.t) (vs : list pyval) (e : exn) :
  Forall2 (fun a v => action_outcome handlers a = Ret v) pre vs ->
  action_outcome handlers a = Raise e ->
  attempt handlers (pre ++ a :: post) = (pre ++ [a], vs, Some e).
Proof.
  intros HF Ha. induction HF as [|b v pre vs Hbv HF IH]; cbn [attempt app].
  - rewrite Ha. reflexivity.
  - rewrite Hbv, IH. reflexivity.
Qed.

Section RunFacts.
Context {clock : Clock}.

Lemma execute_action_fst (action : Action.t) (context : dict) (s : state) :
  fst (execute_action action context s) = action_outcome (_service_handlers s) action.
Proof.
  destruct (execute_action_outcome action context s) as (s' & E & _).
  rewrite E. reflexivity.
Qed.

Lemma entries_for_own (name : string) (fields : entry) :
  entries_for name [("rule", FStr name) :: fields] = [("rule", FStr name) :: fields].
Proof. cbn. rewrite String.eqb_refl. reflexivity. Qed.

(** The pass of a selected rule whose conditions do not all pass. *)
Lemma engine_skipped (context : dict) (trigger_type : option string)
    (rule : Rule.t) (s : state) :
  db_ok s = true ->
  In rule (selected_rules trigger_type s) ->
  fst (evaluate_rule rule context) = false ->
  exists results s',
    run_rule_engine context trigger_type s = (Ret results, s') /\
    entries_for (Rule.name rule) results = [skipped_entry rule context] /\
    untouched (Rule.name rule) s s'.
Proof.
  intros Hdb Hin Hfail.
  destruct (engine_reaches context trigger_type rule s Hdb Hin)
    as (s1 & e & s2 & es1 & es2 & s' & E & E2 & U1 & _ & _ & U3 & _ & N1 & N3).
  rewrite (run_rule_skipped context trigger_type rule s1 Hfail) in E2.
  injection E2 as <- <-.
  exists (es1 ++ skipped_entry rule context :: es2), s'.
  split; [exact E|]. split.
  - change (skipped_entry rule context :: es2)
      with ([skipped_entry rule context] ++ es2).
    rewrite !entries_for_app, N1, N3. unfold skipped_entry.
    rewrite entries_for_own. reflexivity.
  - eapply untouched_trans; [exact U1|].
    eapply untouched_trans; [|exact U3].
    apply keeps_untouched. unfold keeps. cbn. repeat split.
    apply Nat.le_succ_diag_r.
Qed.

(** The pass of a selected rule whose conditions all pass. *)
Lemma engine_passed (context : dict) (trigger_type : option string)
    (rule : Rule.t) (s : state) :
  db_ok s = true ->
  In rule (selected_rules trigger_type s) ->
  fst (evaluate_rule rule context) = true ->
  let att := attempt (_service_handlers s) (Rule.actions rule) in
  let status := match snd att with None => "ok" | Some _ => "error" end in
  exists results s' c0 c1 row,
    run_rule_engine context trigger_type s = (Ret results, s') /\
    (clock_reads s <= c0)%nat /\ (c0 < c1)%nat /\ (S (S c1) < clock_reads s')%nat /\
    entries_for (Rule.name rule) results =
      [[("rule", FStr (Rule.name rule)); ("status", FStr status);
        ("actions", FActions (snd (fst att)));
        ("duration_ms", FRounded (utcnow c1 - utcnow c0))]] /\
    executions_for (Rule.name rule) s' =
      executions_for (Rule.name rule) s ++
      [ExecutionRow (Rule.name rule) (or_str trigger_type "manual")
         (filter (fun kv => negb (String.eqb (fst kv) "credentials")) context)
         status (snd att) (isoformat (utcnow (S c1))) (utcnow c1 - utcnow c0)] /\
    calls_for (Rule.name rule) s' = calls_for (Rule.name rule) s ++ fst (fst att) /\
    row_for (Rule.name rule) s = Some row /\
    loaded row rule /\
    row_for (Rule.name rule) s' = Some (with_trigger (isoformat (utcnow (S (S c1)))) row).
Proof.
  intros Hdb Hin Hpass att status.
  destruct (engine_reaches context trigger_type rule s Hdb Hin)
    as (s1 & e & s2 & es1 & es2 & s' & E & E2 & U1 & H1 & C1 & U3 & C3 & N1 & N3).
  destruct (run_rule_passed context trigger_type rule s1 Hpass)
    as (c1 & s2' & Hc & E2' & Hr & Hx & Hh & Hcl & Hclk).
  rewrite H1 in E2', Hx, Hcl. fold att in E2', Hx, Hcl. fold status in E2', Hx.
  rewrite E2 in E2'. injection E2' as -> <-.
  destruct (selected_row trigger_type rule s Hdb Hin) as (row & Hrow & _ & _ & Hl).
  destruct U1 as (U1r & U1x & U1c). destruct U3 as (U3r & U3x & U3c).
  eexists. exists s', (clock_reads s1), c1, row.
  split; [exact E|]. split; [exact C1|]. split; [exact Hc|].
  split; [rewrite Hclk in C3; exact C3|].
  split.
  { match goal with
    | |- entries_for _ (es1 ++ ?x :: es2) = _ =>
        change (x :: es2) with ([x] ++ es2)
    end.
    rewrite !entries_for_app, N1, N3, entries_for_own. reflexivity. }
  split.
  { rewrite U3x. unfold executions_for at 1. rewrite Hx, filter_app.
    cbn [filter ex_rule_name]. rewrite String.eqb_refl.
    fold (executions_for (Rule.name rule) s1). rewrite U1x. reflexivity. }
  split.
  { rewrite U3c. unfold calls_for at 1. rewrite Hcl, filter_app, map_app.
    rewrite filter_pair_same. fold (calls_for (Rule.name rule) s1).
    rewrite U1c. reflexivity. }
  split; [exact Hrow|]. split; [exact Hl|].
  rewrite U3r. unfold row_for at 1. rewrite Hr.
  rewrite find_update_same by apply with_trigger_name.
  fold (row_for (Rule.name rule) s1). rewrite U1r, Hrow. reflexivity.
Qed.
End RunFacts.

(** ** The engine: skipped rules, executed rules, failing actions *)

Section Engine.
Context {clock : Clock}.

Lemma failed_nonempty (rule : Rule.t) (context : dict) :
  fst (evaluate_rule rule context) = false -> snd (evaluate_rule rule context) <> [].
Proof.
  unfold evaluate_rule. cbn [fst snd]. intros H E. rewrite E in H. discriminate.
Qed.

(** C4. In a run, a selected rule with a failing condition gets one result
    entry, of status [skipped] and carrying the (non-empty) list of failure
    descriptions; [execute_action] is called for none of its actions; no
    execution record of the rule is appended; and the row of the rule, its
    trigger count and last-triggered stamp included, is what it was. *)
Theorem skipped_rule_records_nothing (context : dict)
    (trigger_type : option string) (rule : Rule.t) (s : state) :
  db_ok s = true ->
  In rule (selected_rules trigger_type s) ->
  fst (evaluate_rule rule context) = false ->
  exists results s' row,
    run_rule_engine context trigger_type s = (Ret results, s') /\
    In [("rule", FStr (Rule.name rule)); ("status", FStr "skipped");
        ("failed_conditions", FFailures (snd (evaluate_rule rule context)))]
       results /\
    entries_for (Rule.name rule) results =
      [[("rule", FStr (Rule.name rule)); ("status", FStr "skipped");
        ("failed_conditions", FFailures (snd (evaluate_rule rule context)))]] /\
    snd (evaluate_rule rule context) <> [] /\
    calls_for (Rule.name rule) s' = calls_for (Rule.name rule) s /\
    executions_for (Rule.name rule) s' = executions_for (Rule.name rule) s /\
    row_for (Rule.name rule) s = Some row /\
    row_for (Rule.name rule) s' = Some row /\
    row_trigger_count row = Rule.trigger_count rule /\
    row_last_triggered row = Rule.last_triggered rule.
Proof.
  intros Hdb Hin Hfail.
  destruct (engine_skipped context trigger_type rule s Hdb Hin Hfail)
    as (results & s' & E & Hent & Ur & Ux & Uc).
  destruct (selected_row trigger_type rule s Hdb Hin) as (row & Hrow & _ & _ & Hl).
  destruct (loaded_counters row rule Hl) as (_ & Hlt & Htc).
  exists results, s', row. split; [exact E|].
  split.
  { assert (Hi : In (skipped_entry rule context)
                    (entries_for (Rule.name rule) results))
      by (rewrite Hent; left; reflexivity).
    apply filter_In in Hi. apply Hi. }
  split; [exact Hent|]. split; [apply failed_nonempty; exact Hfail|].
  split; [exact Uc|]. split; [exact Ux|]. split; [exact Hrow|].
  split; [rewrite Ur; exact Hrow|]. split; [symmetry; exact Htc | symmetry; exact Hlt].
Qed.

(** C5, as the code has it. In a run, a selected rule whose conditions all
    pass gets exactly one new execution record: it carries the name of the
    rule, the trigger type given ("manual" when none, or an empty one, is
    given), the status ("ok" when every action returns, "error" when one
    raises, never "skipped"), the exception if any, and the interval
    between two readings of the clock taken during the run. The row of the
    rule changes in two columns only: the last-triggered stamp is a reading
    of the clock taken during the run, after those of the record, and the
    trigger count is the one SQLite computes for [trigger_count+1]: a count
    below 2^63 - 1 is one more, the count 2^63 - 1 becomes the REAL 2^63,
    and a count that is this REAL already stays as it is. *)
Theorem executed_rule_is_recorded_and_counted (context : dict)
    (trigger_type : option string) (rule : Rule.t) (s : state) :
  db_ok s = true ->
  In rule (selected_rules trigger_type s) ->
  fst (evaluate_rule rule context) = true ->
  exists results s' rec row row' c0 c1 c2,
    run_rule_engine context trigger_type s = (Ret results, s') /\
    executions_for (Rule.name rule) s' = executions_for (Rule.name rule) s ++ [rec] /\
    ex_rule_name rec = Rule.name rule /\
    ex_triggered_by rec =
      match trigger_type with
      | Some label => if String.eqb label "" then "manual" else label
      | None => "manual"
      end /\
    (ex_result rec, ex_error rec) =
      match snd (attempt (_service_handlers s) (Rule.actions rule)) with
      | None => ("ok", None)
      | Some e => ("error", Some e)
      end /\
    (exists acts,
       entries_for (Rule.name rule) results =
         [[("rule", FStr (Rule.name rule)); ("status", FStr (ex_result rec));
           ("actions", FActions acts);
           ("duration_ms", FRounded (ex_duration rec))]]) /\
    (clock_reads s <= c0 < c1)%nat /\ (c1 < c2 < clock_reads s')%nat /\
    ex_duration rec = utcnow c1 - utcnow c0 /\
    row_for (Rule.name rule) s = Some row /\
    row_trigger_count row = Rule.trigger_count rule /\
    row_for (Rule.name rule) s' = Some row' /\
    row_trigger_count row' = sqlite_succ (row_trigger_count row) /\
    (forall n, row_trigger_count row = CInt n -> n < 2 ^ 63 - 1 ->
               row_trigger_count row' = CInt (n + 1)) /\
    (row_trigger_count row = CInt (2 ^ 63 - 1) -> row_trigger_count row' = CReal) /\
    (row_trigger_count row = CReal -> row_trigger_count row' = CReal) /\
    row_last_triggered row' = Some (isoformat (utcnow c2)) /\
    row_name row' = row_name row /\
    row_definition row' = row_definition row /\
    row_enabled row' = row_enabled row /\
    row_priority row' = row_priority row /\
    row_created_at row' = row_created_at row.
Proof.
  intros Hdb Hin Hpass.
  destruct (engine_passed context trigger_type rule s Hdb Hin Hpass)
    as (results & s' & c0 & c1 & row & E & C0 & C1 & C2 & Hent & Hx & _ & Hrow & Hl & Hrow').
  destruct (loaded_counters row rule Hl) as (_ & _ & Htc).
  eexists results, s', _, row, _, c0, c1, (S (S c1)).
  split; [exact E|]. split; [exact Hx|]. cbn [ex_rule_name ex_triggered_by
    ex_result ex_error ex_duration].
  split; [reflexivity|]. split; [reflexivity|].
  split; [destruct (snd (attempt _ _)); reflexivity|].
  split; [eexists; exact Hent|].
  split; [split; assumption|].
  split; [split; [lia | exact C2]|].
  split; [reflexivity|]. split; [exact Hrow|]. split; [symmetry; exact Htc|].
  split; [exact Hrow'|]. cbn [with_trigger row_trigger_count].
  split; [reflexivity|].
  split.
  { intros n -> Hn. cbn [sqlite_succ].
    destruct (Z.ltb_spec n (2 ^ 63 - 1)); [reflexivity | lia]. }
  split; [intros ->; reflexivity|].
  split; [intros ->; reflexivity|].
  repeat split.
Qed.
End Engine.

Lemma attempt_cases {clock : Clock} (handlers : list (string * handler))
    (actions : list Action.t) :
  (exists vs, Forall2 (fun a v => action_outcome handlers a = Ret v) actions vs) \/
  (exists pre a post vs e,
     actions = pre ++ a :: post /\
     Forall2 (fun a v => action_outcome handlers a = Ret v) pre vs /\
     action_outcome handlers a = Raise e).
Proof.
  induction actions as [|a actions IH].
  - left. exists []. constructor.
  - destruct (action_outcome handlers a) as [v|e] eqn:Ea.
    + destruct IH as [(vs & HF) | (pre & b & post & vs & e & -> & HF & Hb)].
      * left. exists (v :: vs). constructor; assumption.
      * right. exists (a :: pre), b, post, (v :: vs), e.
        split; [reflexivity|]. split; [constructor; assumption | exact Hb].
    + right. exists [], a, actions, [], e.
      split; [reflexivity|]. split; [constructor | exact Ea].
Qed.

Lemma unknown_action_raises {clock : Clock} (handlers : list (string * handler))
    (a : Action.t) :
  known_action_type (Action.type a) = false ->
  action_outcome handlers a = Raise (UnknownActionType (Action.type a)).
Proof.
  unfold known_action_type, action_outcome. intros H.
  repeat (apply orb_false_iff in H; destruct H as [H ?]).
  repeat match goal with E : is_type _ _ = false |- _ => rewrite E; clear E end.
  reflexivity.
Qed.

Section Actions.
Context {clock : Clock}.

Lemma returns_as_outcome (context : dict) (s : state) (l : list Action.t)
    (vs : list pyval) :
  Forall2 (fun a v => fst (execute_action a context s) = Ret v) l vs ->
  Forall2 (fun a v => action_outcome (_service_handlers s) a = Ret v) l vs.
Proof.
  apply Forall2_impl. intros a v H. rewrite <- execute_action_fst with (context := context).
  exact H.
Qed.

(** C3, as the code has it. In a run, a selected rule whose conditions all
    pass has its actions called in declared order, up to and including the
    first one that raises (an action of unrecognized tag raises
    [UnknownActionType]); no later action is called. Its result entry has
    the four keys [rule], [status], [actions], [duration_ms] and no other:
    when an action raises, the status is "error", the action list holds
    the results of the actions before the failing one and nothing for the
    failing one, and the exception is kept in the [error] column of the
    execution record of the rule, not in the entry; when every action
    returns, the status is "ok" and the list holds every result. *)
Theorem actions_stop_at_first_failure (context : dict)
    (trigger_type : option string) (rule : Rule.t) (s : state) :
  db_ok s = true ->
  In rule (selected_rules trigger_type s) ->
  fst (evaluate_rule rule context) = true ->
  exists results s' e rec,
    run_rule_engine context trigger_type s = (Ret results, s') /\
    entries_for (Rule.name rule) results = [e] /\
    map fst e = ["rule"; "status"; "actions"; "duration_ms"] /\
    executions_for (Rule.name rule) s' = executions_for (Rule.name rule) s ++ [rec] /\
    (forall vs,
       Forall2 (fun a v => fst (execute_action a context s) = Ret v)
               (Rule.actions rule) vs ->
       calls_for (Rule.name rule) s' =
         calls_for (Rule.name rule) s ++ Rule.actions rule /\
       dict_get e "status" = Some (FStr "ok") /\
       dict_get e "actions" = Some (FActions vs) /\
       ex_result rec = "ok" /\
       ex_error rec = None) /\
    (forall pre a post vs ex,
       Rule.actions rule = pre ++ a :: post ->
       Forall2 (fun a v => fst (execute_action a context s) = Ret v) pre vs ->
       fst (execute_action a context s) = Raise ex ->
       calls_for (Rule.name rule) s' =
         calls_for (Rule.name rule) s ++ pre ++ [a] /\
       dict_get e "status" = Some (FStr "error") /\
       dict_get e "actions" = Some (FActions vs) /\
       List.length vs = List.length pre /\
       dict_get e "error" = None /\
       ex_result rec = "error" /\
       ex_error rec = Some ex) /\
    ((exists vs,
        Forall2 (fun a v => fst (execute_action a context s) = Ret v)
                (Rule.actions rule) vs) \/
     (exists pre a post vs ex,
        Rule.actions rule = pre ++ a :: post /\
        Forall2 (fun a v => fst (execute_action a context s) = Ret v) pre vs /\
        fst (execute_action a context s) = Raise ex)) /\
    (forall a,
       known_action_type (Action.type a) = false ->
       fst (execute_action a context s) = Raise (UnknownActionType (Action.type a))).
Proof.
  intros Hdb Hin Hpass.
  destruct (engine_passed context trigger_type rule s Hdb Hin Hpass)
    as (results & s' & c0 & c1 & row & E & _ & _ & _ & Hent & Hx & Hc & _).
  eexists results, s', _, _.
  split; [exact E|]. split; [exact Hent|]. split; [reflexivity|].
  split; [exact Hx|].
  cbn [ex_result ex_error]. split; [|split; [|split]].
  - intros vs HF. apply returns_as_outcome in HF.
    rewrite (attempt_all _ _ _ HF) in Hc |- *. cbn [fst snd] in Hc |- *.
    split; [exact Hc|]. repeat split.
  - intros pre a post vs ex Hsplit HF Ha.
    apply returns_as_outcome in HF. rewrite execute_action_fst in Ha.
    rewrite Hsplit in Hc |- *.
    rewrite (attempt_stops _ _ _ _ _ _ HF Ha) in Hc |- *. cbn [fst snd] in Hc |- *.
    split; [exact Hc|]. split; [reflexivity|]. split; [reflexivity|].
    split; [symmetry; eapply Forall2_length; exact HF|]. repeat split.
  - destruct (attempt_cases (_service_handlers s) (Rule.actions rule))
      as [(vs & HF) | (pre & a & post & vs & ex & Hsplit & HF & Ha)].
    + left. exists vs. eapply Forall2_impl; [|exact HF].
      intros a v H. rewrite execute_action_fst. exact H.
    + right. exists pre, a, post, vs, ex. split; [exact Hsplit|]. split.
      * eapply Forall2_impl; [|exact HF].
        intros b v H. rewrite execute_action_fst. exact H.
      * rewrite execute_action_fst. exact Ha.
  - intros a Hun. rewrite execute_action_fst. apply unknown_action_raises. exact Hun.
Qed.

Lemma call_service_unregistered (handlers : list (string * handler)) (a : Action.t) :
  Action.type a = "call_service" ->
  match Action.target a with
  | Some name => dict_get handlers name
  | None => None
  end = None ->
  action_outcome handlers a =
    Ret (VDict [("service", opt_str (Action.target a)); ("status", VStr "no_handler")]).
Proof.
  intros Hty Hnone. unfold action_outcome. rewrite Hty.
  change (is_type "call_service" "log_message") with false.
  change (is_type "call_service" "send_notify") with false.
  change (is_type "call_service" "set_state") with false.
  change (is_type "call_service" "call_service") with true.
  cbv iota.
  destruct (Action.target a) as [name|]; [|reflexivity].
  rewrite Hnone. reflexivity.
Qed.

Lemma log_message_outcome (handlers : list (string * handler)) (a : Action.t) :
  Action.type a = "log_message" ->
  action_outcome handlers a =
    Ret (VDict [("logged", py_get_default (Action.params a) "message" (VStr ""))]).
Proof. intros Hty. unfold action_outcome. rewrite Hty. reflexivity. Qed.

(** C9. A [call_service] action whose target has no registered handler
    does not raise: [execute_action] returns the "no_handler" status. So a
    selected rule whose conditions pass and whose actions are a
    [log_message] followed by such a call has both actions called, both
    results in its entry, the status "ok", and an execution record without
    error. *)
Theorem unregistered_service_is_not_fatal (call : Action.t) (context : dict)
    (s : state) :
  Action.type call = "call_service" ->
  match Action.target call with
  | Some name => dict_get (_service_handlers s) name
  | None => None
  end = None ->
  (exists s',
     execute_action call context s =
       (Ret (VDict [("service", opt_str (Action.target call));
                    ("status", VStr "no_handler")]), s') /\
     keeps s s') /\
  (forall trigger_type rule log,
     db_ok s = true ->
     In rule (selected_rules trigger_type s) ->
     fst (evaluate_rule rule context) = true ->
     Action.type log = "log_message" ->
     Rule.actions rule = [log; call] ->
     exists results s' d rec,
       run_rule_engine context trigger_type s = (Ret results, s') /\
       entries_for (Rule.name rule) results =
         [[("rule", FStr (Rule.name rule)); ("status", FStr "ok");
           ("actions",
            FActions
              [VDict [("logged", py_get_default (Action.params log) "message" (VStr ""))];
               VDict [("service", opt_str (Action.target call));
                      ("status", VStr "no_handler")]]);
           ("duration_ms", FRounded d)]] /\
       calls_for (Rule.name rule) s' = calls_for (Rule.name rule) s ++ [log; call] /\
       executions_for (Rule.name rule) s' =
         executions_for (Rule.name rule) s ++ [rec] /\
       ex_result rec = "ok" /\
       ex_error rec = None).
Proof.
  intros Hty Hnone.
  pose proof (call_service_unregistered _ call Hty Hnone) as Hcall.
  split.
  - destruct (execute_action_outcome call context s) as (s' & E & K).
    exists s'. rewrite E, Hcall. split; [reflexivity | exact K].
  - intros trigger_type rule log Hdb Hin Hpass Hlog Hacts.
    destruct (engine_passed context trigger_type rule s Hdb Hin Hpass)
      as (results & s' & c0 & c1 & row & E & _ & _ & _ & Hent & Hx & Hc & _).
    assert (Hatt : attempt (_service_handlers s) (Rule.actions rule) =
                   ([log; call],
                    [VDict [("logged",
                             py_get_default (Action.params log) "message" (VStr ""))];
                     VDict [("service", opt_str (Action.target call));
                            ("status", VStr "no_handler")]], None)).
    { rewrite Hacts. cbn [attempt].
      rewrite (log_message_outcome _ log Hlog), Hcall. reflexivity. }
    rewrite Hatt in Hent, Hx, Hc. cbn [fst snd] in Hent, Hx, Hc.
    eexists results, s', _, _.
    split; [exact E|]. split; [exact Hent|]. split; [exact Hc|].
    split; [exact Hx|]. split; reflexivity.
Qed.
End Actions.

(** ** Rule management *)

Lemma find_app_none {A : Type} (p : A -> bool) (l1 l2 : list A) :
  find p l1 = None -> find p (l1 ++ l2) = find p l2.
Proof.
  induction l1 as [|x l1 IH]; cbn [app find].
  - reflexivity.
  - destruct (p x); [discriminate | exact IH].
Qed.

Lemma find_app_some {A : Type} (p : A -> bool) (l1 l2 : list A) (x : A) :
  find p l1 = Some x -> find p (l1 ++ l2) = Some x.
Proof.
  induction l1 as [|y l1 IH]; cbn [app find].
  - discriminate.
  - destruct (p y); [exact (fun H => H) | exact IH].
Qed.

Lemma find_filter_out (name : string) (table : list rule_row) :
  find (name_is name) (filter (fun r => negb (name_is name r)) table) = None.
Proof.
  induction table as [|r table IH]; cbn [filter find].
  - reflexivity.
  - destruct (name_is name r) eqn:E; cbn [negb find]; [exact IH|].
    rewrite E. exact IH.
Qed.

Lemma find_filter_other (name other : string) (table : list rule_row) :
  other <> name ->
  find (name_is other) (filter (fun r => negb (name_is name r)) table) =
  find (name_is other) table.
Proof.
  intros Hne. induction table as [|r table IH]; cbn [filter find].
  - reflexivity.
  - destruct (name_is name r) eqn:E; cbn [negb find].
    + rewrite IH. destruct (name_is other r) eqn:Eo; [|reflexivity].
      unfold name_is in E, Eo. apply String.eqb_eq in E, Eo. congruence.
    + rewrite IH. reflexivity.
Qed.

Lemma insert_or_replace_own (row : rule_row) (table : list rule_row) :
  find (name_is (row_name row)) (insert_or_replace row table) = Some row.
Proof.
  unfold insert_or_replace. rewrite find_app_none by apply find_filter_out.
  cbn [find]. unfold name_is. rewrite String.eqb_refl. reflexivity.
Qed.

Lemma insert_or_replace_other (other : string) (row : rule_row) (table : list rule_row) :
  other <> row_name row ->
  find (name_is other) (insert_or_replace row table) = find (name_is other) table.
Proof.
  intros Hne. unfold insert_or_replace.
  destruct (find (name_is other) table) as [x|] eqn:E.
  - apply find_app_some. rewrite find_filter_other by exact Hne. exact E.
  - rewrite find_app_none by (rewrite find_filter_other by exact Hne; exact E).
    cbn [find]. unfold name_is.
    destruct (String.eqb_spec (row_name row) other); [congruence | reflexivity].
Qed.

Lemma insert_or_replace_again (row : rule_row) (table : list rule_row) :
  insert_or_replace row (insert_or_replace row table) = insert_or_replace row table.
Proof.
  unfold insert_or_replace. rewrite filter_app. cbn [filter].
  unfold name_is at 3. rewrite String.eqb_refl. cbn [negb]. rewrite app_nil_r.
  f_equal. apply forallb_filter_id, forallb_filter.
Qed.

Lemma insert_or_replace_NoDup (row : rule_row) (table : list rule_row) :
  NoDup (map row_name table) -> NoDup (map row_name (insert_or_replace row table)).
Proof.
  intros Hnd. unfold insert_or_replace. rewrite map_app. apply NoDup_app.
  - apply filter_keeps_keys_distinct. exact Hnd.
  - cbn. constructor; [intros [] | constructor].
  - intros n Hin [<-|[]]. apply in_map_iff in Hin. destruct Hin as (r & Hr & Hin).
    apply filter_In in Hin. destruct Hin as [_ Hneg]. unfold name_is in Hneg.
    rewrite Hr, String.eqb_refl in Hneg. discriminate.
Qed.

Lemma insert_or_replace_ok (row : rule_row) (table : list rule_row) :
  row_ok row = true -> forallb row_ok table = true ->
  forallb row_ok (insert_or_replace row table) = true.
Proof.
  intros Hrow Hok. unfold insert_or_replace. rewrite forallb_app. cbn [forallb].
  rewrite Hrow. cbn [andb]. rewrite andb_true_r.
  apply forallb_forall. intros r Hin. apply filter_In in Hin.
  apply (proj1 (forallb_forall _ _) Hok). apply Hin.
Qed.

Lemma db_ok_intro (s : state) :
  NoDup (map row_name (rules s)) -> forallb row_ok (rules s) = true -> db_ok s = true.
Proof.
  intros Hnd Hok. unfold db_ok. rewrite Hok, andb_true_r.
  apply distinct_NoDup. exact Hnd.
Qed.

Lemma row_of_ok (rule : Rule.t) : row_ok (row_of rule) = true.
Proof.
  unfold row_ok, row_of. cbn [row_definition row_name].
  rewrite from_dict_to_dict. apply String.eqb_refl.
Qed.

Lemma update_where_compose (name : string) (f g : rule_row -> rule_row)
    (table : list rule_row) :
  (forall r, row_name (g r) = row_name r) ->
  update_where name f (update_where name g table) =
  update_where name (fun r => f (g r)) table.
Proof.
  intros Hg. unfold update_where. rewrite map_map. apply map_ext. intros r.
  destruct (name_is name r) eqn:E; [|rewrite E; reflexivity].
  unfold name_is in *. rewrite Hg, E. reflexivity.
Qed.

Lemma update_where_ok (name : string) (f : rule_row -> rule_row)
    (table : list rule_row) :
  (forall r, row_name (f r) = row_name r) ->
  (forall r, row_definition (f r) = row_definition r) ->
  forallb row_ok (update_where name f table) = forallb row_ok table.
Proof.
  intros Hn Hd. unfold update_where. induction table as [|r table IH]; cbn [map forallb].
  - reflexivity.
  - rewrite IH. f_equal. destruct (name_is name r); [|reflexivity].
    unfold row_ok. rewrite Hn, Hd. reflexivity.
Qed.

Lemma db_ok_update (name : string) (f : rule_row -> rule_row) (s : state) :
  (forall r, row_name (f r) = row_name r) ->
  (forall r, row_definition (f r) = row_definition r) ->
  db_ok (set_rules (update_where name f) s) = db_ok s.
Proof.
  intros Hn Hd. unfold db_ok. cbn [rules set_rules].
  rewrite update_where_names by exact Hn.
  rewrite update_where_ok by assumption. reflexivity.
Qed.

Lemma Forall2_In_l {A B : Type} (R : A -> B -> Prop) (l : list A) (l' : list B) (x : A) :
  Forall2 R l l' -> In x l -> exists y, In y l' /\ R x y.
Proof.
  intros HF. induction HF as [|a b l l' Hab HF IH]; intros Hin.
  - destruct Hin.
  - destruct Hin as [->|Hin].
    + exists b. split; [left; reflexivity | exact Hab].
    + destruct (IH Hin) as (y & Hy & Hr). exists y. split; [right; exact Hy | exact Hr].
Qed.

Section Management.
Context {clock : Clock}.

Lemma add_rule_state (rule : Rule.t) (s : state) :
  Rule.binds rule = true ->
  exists s',
    add_rule rule s = (Ret rule, s') /\
    rules s' = insert_or_replace (row_of rule) (rules s) /\
    executions s' = executions s /\
    _service_handlers s' = _service_handlers s.
Proof.
  intros Hb. unfold add_rule. rewrite Hb.
  eexists. split; [reflexivity|]. repeat split.
Qed.

Lemma add_rule_overflow (rule : Rule.t) (s : state) :
  Rule.binds rule = false ->
  add_rule rule s =
    (Raise (OverflowError "Python int too large to convert to SQLite INTEGER"), s).
Proof. intros Hb. unfold add_rule. rewrite Hb. reflexivity. Qed.

(** The table after [add_rule], whether it returns or raises. *)
Lemma add_rule_rules (rule : Rule.t) (s : state) :
  rules (snd (add_rule rule s)) =
    (if Rule.binds rule then insert_or_replace (row_of rule) (rules s) else rules s) /\
  executions (snd (add_rule rule s)) = executions s /\
  _service_handlers (snd (add_rule rule s)) = _service_handlers s /\
  calls (snd (add_rule rule s)) = calls s /\
  exists new, logs (snd (add_rule rule s)) = logs s ++ new.
Proof.
  unfold add_rule. destruct (Rule.binds rule).
  - repeat split. eexists. reflexivity.
  - repeat split. exists []. symmetry. apply app_nil_r.
Qed.

Lemma db_ok_add_rule (rule : Rule.t) (s s' : state) :
  db_ok s = true -> rules s' = insert_or_replace (row_of rule) (rules s) ->
  db_ok s' = true.
Proof.
  intros Hdb Hr. destruct (db_ok_parts s Hdb) as [Hnd Hok].
  apply db_ok_intro; rewrite Hr.
  - apply insert_or_replace_NoDup. exact Hnd.
  - apply insert_or_replace_ok; [apply row_of_ok | exact Hok].
Qed.

Lemma row_for_found (name : string) (s : state) (row : rule_row) :
  row_for name s = Some row -> In row (rules s) /\ row_name row = name.
Proof.
  unfold row_for. intros H. apply find_some in H. destruct H as [Hin Hn].
  split; [exact Hin | apply String.eqb_eq; exact Hn].
Qed.

(** How often a name occurs in the active-rule listing: once when its row
    is enabled, never otherwise. *)
Lemma active_count (name : string) (s : state) (row : rule_row) :
  db_ok s = true ->
  row_for name s = Some row ->
  count_name name (active_names s) = if Z.eqb (row_enabled row) 1 then 1%nat else 0%nat.
Proof.
  intros Hdb Hrow. destruct (get_active_rules_ok s Hdb) as (rs & E & _ & Hn & Hnd).
  destruct (db_ok_parts s Hdb) as [Hndt _].
  destruct (row_for_found name s row Hrow) as [Hin Hname].
  unfold active_names. rewrite E, Hn. rewrite Hn in Hnd.
  destruct (Z.eqb_spec (row_enabled row) 1) as [He|He].
  - apply count_name_NoDup; [exact Hnd|]. rewrite <- Hname.
    apply in_map. apply select_active_In. split; assumption.
  - apply count_name_absent. intros Hc. apply in_map_iff in Hc.
    destruct Hc as (row' & Hn' & Hin'). apply select_active_In in Hin'.
    destruct Hin' as [Hin' He'].
    pose proof (find_NoDup _ _ Hndt Hin') as Hf. rewrite Hn' in Hf.
    unfold row_for in Hrow. rewrite Hrow in Hf. injection Hf as ->.
    contradiction.
Qed.

Lemma count_name_zero (name : string) (l : list string) :
  count_name name l = 0%nat -> ~ In name l.
Proof.
  unfold count_name. induction l as [|x l IH]; cbn [filter]; intros H Hin.
  - destruct Hin.
  - destruct (String.eqb_spec name x) as [->|Hne]; [discriminate|].
    destruct Hin as [->|Hin]; [contradiction | exact (IH H Hin)].
Qed.

Lemma import_steps (d : Rule.document) (s : state) (r : Rule.t) (s' : state) :
  add_rule_from_json d s = (Ret r, s') ->
  Rule.from_dict d (isoformat (utcnow (clock_reads s))) = Ret r /\
  Rule.binds r = true /\
  rules s' = insert_or_replace (row_of r) (rules s).
Proof.
  unfold add_rule_from_json, bind, Rule_from_dict.
  destruct (Rule.from_dict d _) as [r0|e]; [|discriminate].
  destruct (Rule.binds r0) eqn:Hb.
  - destruct (add_rule_state r0 (tick s) Hb) as (s0 & E & Hr & _). rewrite E.
    intros H. injection H as <- <-.
    split; [reflexivity|]. split; [exact Hb | exact Hr].
  - rewrite (add_rule_overflow r0 (tick s) Hb). discriminate.
Qed.

Lemma import_parsed (d : Rule.document) (s : state) (r : Rule.t) :
  Rule.from_dict d (isoformat (utcnow (clock_reads s))) = Ret r ->
  Rule.binds r = true ->
  exists s',
    add_rule_from_json d s = (Ret r, s') /\
    rules s' = insert_or_replace (row_of r) (rules s).
Proof.
  intros Hr Hb. unfold add_rule_from_json, bind, Rule_from_dict. rewrite Hr.
  destruct (add_rule_state r (tick s) Hb) as (s0 & E & Hrules & _). rewrite E.
  exists s0. split; [reflexivity | exact Hrules].
Qed.

(** An import raises where [Rule.from_dict] does, before anything is done,
    or where [add_rule] does, once the clock has been read for the default
    of [created_at]. *)
Lemma import_failed (d : Rule.document) (s : state) (e : exn) (s' : state) :
  add_rule_from_json d s = (Raise e, s') ->
  (Rule.from_dict d (isoformat (utcnow (clock_reads s))) = Raise e /\ s' = s) \/
  (exists r,
     Rule.from_dict d (isoformat (utcnow (clock_reads s))) = Ret r /\
     Rule.binds r = false /\
     e = OverflowError "Python int too large to convert to SQLite INTEGER" /\
     s' = tick s).
Proof.
  unfold add_rule_from_json, bind, Rule_from_dict.
  destruct (Rule.from_dict d _) as [r0|e0].
  - destruct (Rule.binds r0) eqn:Hb.
    + destruct (add_rule_state r0 (tick s) Hb) as (s0 & E & _). rewrite E. discriminate.
    + rewrite (add_rule_overflow r0 (tick s) Hb). intros H. injection H as <- <-.
      right. exists r0. repeat split. exact Hb.
  - intros H. injection H as <- <-. left. split; reflexivity.
Qed.

Lemma import_overflow (d : Rule.document) (s : state) (r : Rule.t) :
  Rule.from_dict d (isoformat (utcnow (clock_reads s))) = Ret r ->
  Rule.binds r = false ->
  add_rule_from_json d s =
    (Raise (OverflowError "Python int too large to convert to SQLite INTEGER"), tick s).
Proof.
  intros Hr Hb. unfold add_rule_from_json, bind, Rule_from_dict. rewrite Hr.
  apply add_rule_overflow. exact Hb.
Qed.

Lemma from_dict_binds (d : Rule.document) (now : string) (r : Rule.t) :
  Rule.from_dict d now = Ret r -> Rule.binds r = document_binds d.
Proof.
  unfold Rule.from_dict.
  destruct (Rule.d_trigger d) as [tkw|]; [|discriminate].
  destruct (Trigger.init tkw) as [trigger|]; [|discriminate].
  destruct (comprehension Condition.init _) as [conds|]; [|discriminate].
  destruct (comprehension Action.init _) as [acts|]; [|discriminate].
  destruct (Rule.d_name d) as [name|]; [|discriminate].
  intros E. injection E as <-. reflexivity.
Qed.

Lemma from_dict_defaults (d : Rule.document) (now : string) (r : Rule.t) :
  Rule.from_dict d now = Ret r ->
  Some (Rule.name r) = Rule.d_name d /\
  Rule.enabled r = or_default (Rule.d_enabled d) true /\
  Rule.priority r = or_default (Rule.d_priority d) 0 /\
  (Rule.d_conditions d = None -> Rule.conditions r = []) /\
  (Rule.d_actions d = None -> Rule.actions r = []).
Proof.
  unfold Rule.from_dict.
  destruct (Rule.d_trigger d) as [tkw|]; [|discriminate].
  destruct (Trigger.init tkw) as [trigger|]; [|discriminate].
  destruct (comprehension Condition.init _) as [conds|] eqn:Ec; [|discriminate].
  destruct (comprehension Action.init _) as [acts|] eqn:Ea; [|discriminate].
  destruct (Rule.d_name d) as [name|]; [|discriminate].
  intros E. injection E as <-. cbn.
  split; [reflexivity|]. split; [reflexivity|]. split; [reflexivity|].
  split; intros Hnone; rewrite Hnone in *; cbn in *; congruence.
Qed.
End Management.

Section Store.
Context {clock : Clock}.

Lemma b2z_enabled (b : bool) : Z.eqb (Z.b2z b) 1 = b.
Proof. destruct b; reflexivity. Qed.

Lemma added_rule_facts (rule : Rule.t) (s s' : state) :
  db_ok s = true ->
  rules s' = insert_or_replace (row_of rule) (rules s) ->
  db_ok s' = true /\
  count_name (Rule.name rule) (map row_name (rules s')) = 1%nat /\
  row_for (Rule.name rule) s' = Some (row_of rule) /\
  (forall other, other <> Rule.name rule -> row_for other s' = row_for other s) /\
  count_name (Rule.name rule) (active_names s') =
    if Rule.enabled rule then 1%nat else 0%nat.
Proof.
  intros Hdb Hr.
  pose proof (db_ok_add_rule rule s s' Hdb Hr) as Hdb'.
  assert (Hrow : row_for (Rule.name rule) s' = Some (row_of rule)).
  { unfold row_for. rewrite Hr. apply (insert_or_replace_own (row_of rule)). }
  split; [exact Hdb'|]. split; [|split; [exact Hrow|split]].
  - apply count_name_NoDup; [apply (db_ok_parts s' Hdb')|].
    destruct (row_for_found _ _ _ Hrow) as [Hin _].
    apply (in_map row_name) in Hin. exact Hin.
  - intros other Hne. unfold row_for. rewrite Hr.
    apply insert_or_replace_other. exact Hne.
  - rewrite (active_count _ _ _ Hdb' Hrow). cbn [row_of row_enabled].
    rewrite b2z_enabled. reflexivity.
Qed.

(** C6, as the code has it. Adding a rule whose priority and trigger count
    fit 64 bits replaces by name: whatever the table held under that name,
    after [add_rule] it holds exactly one row of that name, built from the
    rule added, the rows of other names are as before, and adding the rule
    once more leaves the table as it is. Adding a rule whose priority or
    trigger count is an int that does not fit 64 bits raises
    [OverflowError] and leaves the state as it is. After the same document
    is imported twice, the table holds exactly one row of its name, and the
    active-rule listing holds exactly one entry of that name when the
    document is enabled ([enabled] true or absent) and none when it states
    [enabled: false]. *)
Theorem add_rule_replaces_by_name (s : state) :
  db_ok s = true ->
  (forall rule,
     Rule.binds rule = true ->
     exists s',
       add_rule rule s = (Ret rule, s') /\
       db_ok s' = true /\
       count_name (Rule.name rule) (map row_name (rules s')) = 1%nat /\
       row_for (Rule.name rule) s' = Some (row_of rule) /\
       (forall other, other <> Rule.name rule -> row_for other s' = row_for other s) /\
       count_name (Rule.name rule) (active_names s') =
         (if Rule.enabled rule then 1%nat else 0%nat) /\
       rules (snd (add_rule rule s')) = rules s') /\
  (forall rule,
     Rule.binds rule = false ->
     add_rule rule s =
       (Raise (OverflowError "Python int too large to convert to SQLite INTEGER"),
        s)) /\
  (forall d r1 s1,
     add_rule_from_json d s = (Ret r1, s1) ->
     exists r2 s2,
       add_rule_from_json d s1 = (Ret r2, s2) /\
       Rule.name r2 = Rule.name r1 /\
       count_name (Rule.name r1) (map row_name (rules s2)) = 1%nat /\
       row_for (Rule.name r1) s2 = Some (row_of r2) /\
       count_name (Rule.name r1) (active_names s2) =
         if or_default (Rule.d_enabled d) true then 1%nat else 0%nat).
Proof.
  intros Hdb. split; [|split].
  - intros rule Hb. destruct (add_rule_state rule s Hb) as (s' & E & Hr & _).
    exists s'. split; [exact E|].
    destruct (added_rule_facts rule s s' Hdb Hr) as (H1 & H2 & H3 & H4 & H5).
    repeat (split; [assumption|]).
    destruct (add_rule_state rule s' Hb) as (s'' & E' & Hr' & _).
    rewrite E'. cbn [snd]. rewrite Hr', Hr. apply insert_or_replace_again.
  - intros rule Hb. apply add_rule_overflow. exact Hb.
  - intros d r1 s1 E1. destruct (import_steps d s r1 s1 E1) as (Hp1 & Hb1 & Hr1).
    destruct (added_rule_facts r1 s s1 Hdb Hr1) as (Hdb1 & _).
    destruct (from_dict_clock d _ (isoformat (utcnow (clock_reads s1))) r1 Hp1)
      as (r2 & Hp2 & Hn & _).
    assert (Hb2 : Rule.binds r2 = true)
      by (rewrite (from_dict_binds d _ r2 Hp2), <- (from_dict_binds d _ r1 Hp1);
          exact Hb1).
    destruct (import_parsed d s1 r2 Hp2 Hb2) as (s2 & E2 & Hr2).
    destruct (added_rule_facts r2 s1 s2 Hdb1 Hr2) as (_ & Hc & Hrow & _ & Ha).
    destruct (from_dict_defaults d _ r2 Hp2) as (_ & Hen & _).
    exists r2, s2. rewrite <- Hn, <- Hen.
    split; [exact E2|]. split; [reflexivity|]. repeat split; assumption.
Qed.

Lemma with_enabled_twice (r : rule_row) :
  with_enabled 1 (with_enabled 0 r) = with_enabled 1 r.
Proof. reflexivity. Qed.

Lemma update_where_fixed (name : string) (f : rule_row -> rule_row)
    (table : list rule_row) :
  (forall r, In r table -> name_is name r = true -> f r = r) ->
  update_where name f table = table.
Proof.
  intros Hf. unfold update_where. rewrite <- (map_id table) at 2.
  apply map_ext_in. intros r Hin.
  destruct (name_is name r) eqn:E; [apply Hf; assumption | reflexivity].
Qed.

(** What [get_execution_history] returns or raises depends on the state
    through the execution table and the clock only. *)
Lemma history_reads (rule_name : option string) (hours : Z) (s s' : state) :
  executions s' = executions s ->
  clock_reads s' = clock_reads s ->
  fst (get_execution_history rule_name hours s') =
  fst (get_execution_history rule_name hours s).
Proof.
  intros Hx Hc. unfold get_execution_history, bind, now, lift, gets, ret.
  rewrite Hc. destruct (timedelta_hours hours) as [delta|e]; [|reflexivity].
  destruct (datetime_sub _ delta) as [since|e]; [|reflexivity].
  cbn [fst executions tick]. rewrite Hx. reflexivity.
Qed.

(** C7. Disabling a stored rule takes its name out of the active-rule
    listing. Enabling it again puts it back, exactly once, with the trigger
    count and last-triggered stamp its row had before the disable. After
    the round trip the row differs from the row before at most in the
    column [enabled], rows of other names, the execution table and the
    history queried from it are unchanged, and a rule that was enabled
    before leaves the whole state unchanged. *)
Theorem disable_enable_round_trip (name : string) (row : rule_row) (s : state) :
  db_ok s = true ->
  row_for name s = Some row ->
  exists s1 s2,
    disable_rule name s = (Ret tt, s1) /\
    enable_rule name s1 = (Ret tt, s2) /\
    ~ In name (active_names s1) /\
    count_name name (active_names s2) = 1%nat /\
    (exists rs s3 r,
       get_active_rules s2 = (Ret rs, s3) /\
       In r rs /\
       Rule.name r = name /\
       Rule.trigger_count r = row_trigger_count row /\
       Rule.last_triggered r = row_last_triggered row) /\
    row_for name s1 = Some (with_enabled 0 row) /\
    row_for name s2 = Some (with_enabled 1 row) /\
    (forall other, other <> name -> row_for other s2 = row_for other s) /\
    executions s2 = executions s /\
    (forall rule_name hours,
       fst (get_execution_history rule_name hours s2) =
       fst (get_execution_history rule_name hours s)) /\
    (row_enabled row = 1 -> s2 = s).
Proof.
  intros Hdb Hrow.
  set (s1 := set_rules (update_where name (with_enabled 0)) s).
  set (s2 := set_rules (update_where name (with_enabled 1)) s1).
  assert (Hdb1 : db_ok s1 = true)
    by (unfold s1; rewrite db_ok_update; [exact Hdb | reflexivity | reflexivity]).
  assert (Hdb2 : db_ok s2 = true)
    by (unfold s2; rewrite db_ok_update; [exact Hdb1 | reflexivity | reflexivity]).
  assert (Hrow1 : row_for name s1 = Some (with_enabled 0 row)).
  { unfold row_for, s1. cbn [rules set_rules].
    rewrite find_update_same by reflexivity.
    fold (row_for name s). rewrite Hrow. reflexivity. }
  assert (Hrow2 : row_for name s2 = Some (with_enabled 1 row)).
  { unfold row_for, s2. cbn [rules set_rules].
    rewrite find_update_same by reflexivity.
    fold (row_for name s1). rewrite Hrow1. reflexivity. }
  exists s1, s2. split; [reflexivity|]. split; [reflexivity|].
  split; [apply count_name_zero; rewrite (active_count _ _ _ Hdb1 Hrow1); reflexivity|].
  split; [rewrite (active_count _ _ _ Hdb2 Hrow2); reflexivity|].
  split.
  { destruct (get_active_rules_ok s2 Hdb2) as (rs & E & HF & _ & _).
    destruct (row_for_found _ _ _ Hrow2) as [Hin2 Hn2].
    assert (Hsel : In (with_enabled 1 row) (select_active (rules s2)))
      by (apply select_active_In; split; [exact Hin2 | reflexivity]).
    destruct (Forall2_In_l _ _ _ _ HF Hsel) as (r & Hr & Hl).
    destruct (loaded_counters _ _ Hl) as (_ & Hlt & Htc).
    destruct (db_ok_parts s2 Hdb2) as [_ Hok2].
    exists rs, (advance (List.length (select_active (rules s2))) s2), r.
    split; [exact E|]. split; [exact Hr|]. split; [|split; assumption].
    rewrite (loaded_name _ r (proj1 (forallb_forall _ _) Hok2 _ Hin2) Hl).
    exact Hn2. }
  split; [exact Hrow1|]. split; [exact Hrow2|].
  split.
  { intros other Hne. unfold row_for, s2, s1. cbn [rules set_rules].
    rewrite !find_update_other by (try reflexivity; congruence). reflexivity. }
  split; [reflexivity|].
  split; [intros rule_name hours; apply history_reads; reflexivity|].
  intros Hen. unfold s2, s1. destruct s as [t x l h c k].
  unfold set_rules. cbn [rules executions logs _service_handlers clock_reads calls].
  f_equal. rewrite update_where_compose by reflexivity.
  apply update_where_fixed. intros r Hin Hname.
  cbn [db_ok rules] in Hdb. destruct (db_ok_parts _ Hdb) as [Hnd _].
  cbn [rules] in Hnd. pose proof (find_NoDup _ _ Hnd Hin) as Hf.
  unfold name_is in Hname. apply String.eqb_eq in Hname. rewrite Hname in Hf.
  unfold row_for in Hrow. cbn [rules] in Hrow. rewrite Hrow in Hf.
  injection Hf as <-. destruct row. cbn in Hen. subst. reflexivity.
Qed.

Lemma comprehension_complete {K T : Type} (init : K -> outcome T) (ok : K -> bool)
    (l : list K) :
  (forall x, ok x = true -> exists y, init x = Ret y) ->
  forallb ok l = true -> exists ys, comprehension init l = Ret ys.
Proof.
  intros Hinit. induction l as [|x l IH]; cbn [forallb comprehension]; intros H.
  - exists []. reflexivity.
  - apply andb_true_iff in H. destruct H as [Hx Hl].
    destruct (Hinit x Hx) as (y & ->). destruct (IH Hl) as (ys & ->).
    exists (y :: ys). reflexivity.
Qed.

Lemma required_present_parses (d : Rule.document) (now : string) :
  required_present d = true -> exists r, Rule.from_dict d now = Ret r.
Proof.
  unfold required_present, Rule.from_dict. intros H.
  apply andb_true_iff in H. destruct H as [H Ha].
  apply andb_true_iff in H. destruct H as [H Hc].
  apply andb_true_iff in H. destruct H as [Hn Ht].
  destruct (Rule.d_trigger d) as [tkw|]; [|discriminate].
  unfold Trigger.init. destruct (Trigger.kw_type tkw) as [ty|]; [|discriminate].
  assert (Hci : forall c,
            is_some (Condition.kw_field c) && is_some (Condition.kw_op c)
            && is_some (Condition.kw_value c) = true ->
            exists y, Condition.init c = Ret y).
  { intros c Hc'. unfold Condition.init.
    destruct (Condition.kw_field c), (Condition.kw_op c),
      (Condition.kw_value c); try discriminate. eexists. reflexivity. }
  assert (Hai : forall a, is_some (Action.kw_type a) = true ->
                          exists y, Action.init a = Ret y).
  { intros a Ha'. unfold Action.init.
    destruct (Action.kw_type a); [|discriminate]. eexists. reflexivity. }
  destruct (comprehension_complete Condition.init _ _ Hci Hc) as (conds & ->).
  destruct (comprehension_complete Action.init _ _ Hai Ha) as (acts & ->).
  destruct (Rule.d_name d) as [name|]; [|discriminate].
  eexists. reflexivity.
Qed.

(** C8, as the code has it. Importing a rule document that lacks [name] or
    [trigger] raises (a [KeyError] naming [trigger] when that key is absent)
    and leaves the whole state as it was; every import that raises leaves
    the three tables and the registry as they were. A document holding
    every required field, whose priority and trigger count (0 where it
    leaves them out) fit 64 bits, is imported: the rule returned is stored
    under its name, with [enabled] true, [priority] 0, and empty condition
    and action lists wherever the document leaves these fields out, and so
    are the columns of its row. When the priority or the trigger count does
    not fit 64 bits, the import raises [OverflowError]. *)
Theorem import_needs_name_and_trigger (d : Rule.document) (s : state) :
  (Rule.d_trigger d = None ->
   add_rule_from_json d s = (Raise (KeyError "trigger"), s)) /\
  (Rule.d_name d = None \/ Rule.d_trigger d = None ->
   exists e, add_rule_from_json d s = (Raise e, s)) /\
  (forall e s',
     add_rule_from_json d s = (Raise e, s') ->
     rules s' = rules s /\
     executions s' = executions s /\
     logs s' = logs s /\
     _service_handlers s' = _service_handlers s) /\
  (required_present d = true ->
   document_binds d = false ->
   exists s',
     add_rule_from_json d s =
       (Raise (OverflowError "Python int too large to convert to SQLite INTEGER"),
        s')) /\
  (required_present d = true ->
   document_binds d = true ->
   exists r s',
     add_rule_from_json d s = (Ret r, s') /\
     Some (Rule.name r) = Rule.d_name d /\
     row_for (Rule.name r) s' = Some (row_of r) /\
     (forall other, other <> Rule.name r -> row_for other s' = row_for other s) /\
     (Rule.d_enabled d = None -> Rule.enabled r = true) /\
     (Rule.d_priority d = None -> Rule.priority r = 0) /\
     (Rule.d_conditions d = None -> Rule.conditions r = []) /\
     (Rule.d_actions d = None -> Rule.actions r = []) /\
     (Rule.d_enabled d = None ->
      option_map row_enabled (row_for (Rule.name r) s') = Some 1) /\
     (Rule.d_priority d = None ->
      option_map row_priority (row_for (Rule.name r) s') = Some 0) /\
     option_map row_definition (row_for (Rule.name r) s') = Some (Rule.to_dict r)).
Proof.
  assert (Hfail : forall e,
            Rule.from_dict d (isoformat (utcnow (clock_reads s))) = Raise e ->
            add_rule_from_json d s = (Raise e, s)).
  { intros e He. unfold add_rule_from_json, bind, Rule_from_dict. rewrite He.
    reflexivity. }
  assert (Htrig : Rule.d_trigger d = None ->
            Rule.from_dict d (isoformat (utcnow (clock_reads s))) =
            Raise (KeyError "trigger")).
  { intros Hnone. unfold Rule.from_dict. rewrite Hnone. reflexivity. }
  split; [intros Hnone; apply Hfail, Htrig, Hnone|]. split; [|split; [|split]].
  - intros [Hname|Hnone].
    + destruct (Rule.from_dict d (isoformat (utcnow (clock_reads s)))) as [r|e] eqn:E.
      * apply from_dict_defaults in E. destruct E as (E & _).
        rewrite Hname in E. discriminate.
      * exists e. apply Hfail. reflexivity.
    + eexists. apply Hfail, Htrig, Hnone.
  - intros e s' E.
    destruct (import_failed d s e s' E) as [(_ & ->) | (r & _ & _ & _ & ->)];
      repeat split.
  - intros Hreq Hb.
    destruct (required_present_parses d (isoformat (utcnow (clock_reads s))) Hreq)
      as (r & Hr).
    rewrite <- (from_dict_binds d _ r Hr) in Hb.
    eexists. apply (import_overflow d s r Hr Hb).
  - intros Hreq Hb.
    destruct (required_present_parses d (isoformat (utcnow (clock_reads s))) Hreq)
      as (r & Hr).
    rewrite <- (from_dict_binds d _ r Hr) in Hb.
    destruct (import_parsed d s r Hr Hb) as (s' & E & Hrules).
    destruct (from_dict_defaults d _ r Hr) as (Hn & Hen & Hpr & Hco & Hac).
    assert (Hrow : row_for (Rule.name r) s' = Some (row_of r))
      by (unfold row_for; rewrite Hrules; apply (insert_or_replace_own (row_of r))).
    exists r, s'. split; [exact E|]. split; [exact Hn|].
    split; [exact Hrow|].
    split; [intros other Hne; unfold row_for; rewrite Hrules;
            apply insert_or_replace_other; exact Hne|].
    split; [intros H; rewrite Hen, H; reflexivity|].
    split; [intros H; rewrite Hpr, H; reflexivity|].
    split; [exact Hco|]. split; [exact Hac|].
    rewrite Hrow. cbn [option_map row_of row_enabled row_priority row_definition].
    split; [intros H; rewrite Hen, H; reflexivity|].
    split; [intros H; rewrite Hpr, H; reflexivity | reflexivity].
Qed.
End Store.

(** ** The invariant of the rule table holds in every reachable state *)

Section Reachable.
Context {clock : Clock}.

Lemma db_ok_init : db_ok init_db = true.
Proof. reflexivity. Qed.

Lemma db_ok_updated (name : string) (f : rule_row -> rule_row) (s s' : state) :
  (forall r, row_name (f r) = row_name r) ->
  (forall r, row_definition (f r) = row_definition r) ->
  rules s' = update_where name f (rules s) ->
  db_ok s' = db_ok s.
Proof.
  intros Hn Hd Hr. unfold db_ok. rewrite Hr.
  rewrite update_where_names by exact Hn.
  rewrite update_where_ok by assumption. reflexivity.
Qed.

Lemma db_ok_same_rules (s s' : state) : rules s' = rules s -> db_ok s' = db_ok s.
Proof. intros Hr. unfold db_ok. rewrite Hr. reflexivity. Qed.



Lemma db_ok_delete_rule (name : string) (s : state) :
  db_ok s = true -> db_ok (snd (delete_rule name s)) = true.
Proof.
  intros Hdb. destruct (db_ok_parts s Hdb) as [Hnd Hok].
  apply db_ok_intro; cbn [delete_rule modify snd rules set_rules].
  - apply filter_keeps_keys_distinct. exact Hnd.
  - apply forallb_forall. intros r Hin. apply filter_In in Hin.
    apply (proj1 (forallb_forall _ _) Hok). apply Hin.
Qed.

Lemma db_ok_register_service (name : string) (h : handler) (s : state) :
  db_ok (snd (register_service name h s)) = db_ok s.
Proof. reflexivity. Qed.


Lemma run_rule_db_ok (context : dict) (trigger_type : option string)
    (rule : Rule.t) (s : state) :
  db_ok (snd (run_rule context trigger_type rule s)) = db_ok s.
Proof.
  destruct (fst (evaluate_rule rule context)) eqn:Ev.
  - destruct (run_rule_passed context trigger_type rule s Ev)
      as (c1 & s' & _ & E & Hr & _).
    rewrite E. cbn [snd].
    apply (db_ok_updated _ _ s s' (with_trigger_name _) (fun _ => eq_refl) Hr).
  - rewrite (run_rule_skipped context trigger_type rule s Ev). reflexivity.
Qed.

Lemma run_rules_db_ok (context : dict) (trigger_type : option string)
    (rs : list Rule.t) :
  forall results s,
    db_ok (snd (run_rules context trigger_type rs results s)) = db_ok s.
Proof.
  induction rs as [|rule rs IH]; intros results s.
  - reflexivity.
  - cbn [run_rules]. unfold bind.
    pose proof (run_rule_db_ok context trigger_type rule s) as H1.
    destruct (run_rule context trigger_type rule s) as [[e|ex] s1]; cbn [snd] in H1.
    + rewrite IH. exact H1.
    + exact H1.
Qed.

Lemma load_rules_rules (rows : list rule_row) :
  forall result s, rules (snd (load_rules rows result s)) = rules s.
Proof.
  induction rows as [|row rows IH]; intros result s.
  - reflexivity.
  - cbn [load_rules]. unfold bind, Rule_from_dict.
    destruct (Rule.from_dict (row_definition row) _) as [r|e]; [|reflexivity].
    rewrite IH. reflexivity.
Qed.

Lemma get_active_rules_db_ok (s : state) :
  db_ok (snd (get_active_rules s)) = db_ok s.
Proof.
  apply db_ok_same_rules. unfold get_active_rules, bind, gets.
  apply load_rules_rules.
Qed.

Lemma run_rule_engine_db_ok (context : dict) (trigger_type : option string)
    (s : state) :
  db_ok (snd (run_rule_engine context trigger_type s)) = db_ok s.
Proof.
  unfold run_rule_engine, bind.
  pose proof (get_active_rules_db_ok s) as H.
  destruct (get_active_rules s) as [[rs|e] s1]; cbn [snd] in H.
  - rewrite run_rules_db_ok. exact H.
  - exact H.
Qed.


(** Whether it returns or raises, [get_execution_history] reads the clock
    once and does nothing else. *)
Lemma history_state (rule_name : option string) (hours : Z) (s : state) :
  snd (get_execution_history rule_name hours s) = tick s.
Proof.
  unfold get_execution_history, bind, now, lift, gets, ret.
  destruct (timedelta_hours hours) as [delta|e]; [|reflexivity].
  destruct (datetime_sub _ delta) as [since|e]; reflexivity.
Qed.


End Reachable.

(** * Concrete runs *)

Section Scenarios.
#[local] Existing Instance ms_clock.

(** Scenario 1: a reading of 40 passes the condition; the action runs. *)
Example reading_above_threshold :
  fst (process_sensor_update "t1" (40 # 1) "C" hub_temp_alert) =
  Ret [[("rule", FStr "temp_alert"); ("status", FStr "ok");
        ("actions", FActions [VDict [("logged", VStr "hot!")]]);
        ("duration_ms", FRounded 2000)]].
Proof. reflexivity. Qed.

(** Scenario 2: a reading of 20 fails it; the rule is skipped. *)
Example reading_below_threshold :
  fst (process_sensor_update "t1" (20 # 1) "C" hub_temp_alert) =
  Ret [[("rule", FStr "temp_alert"); ("status", FStr "skipped");
        ("failed_conditions",
         FFailures [FailedCondition "sensor.t1.value" ">" (VFloat (30 # 1))])]].
Proof. reflexivity. Qed.

Example reading_below_threshold_count :
  option_map row_trigger_count
    (row_for "temp_alert"
       (snd (process_sensor_update "t1" (20 # 1) "C" hub_temp_alert))) =
  Some (CInt 0).
Proof. reflexivity. Qed.

Example two_readings_count_twice :
  option_map row_trigger_count
    (row_for "temp_alert"
       (snd (process_sensor_update "t1" (60 # 1) "C"
               (snd (process_sensor_update "t1" (50 # 1) "C" hub_temp_alert))))) =
  Some (CInt 2).
Proof. reflexivity. Qed.

(** With no name the records of one stamp come in storage order; with a
    name, the one stored last comes first. *)
Example history_ties_without_name :
  fst (get_execution_history None 0 tied_history) =
  Ret [ExecutionRow "x" "manual" [("i", VInt 4)] "ok" None "b" 0;
       ExecutionRow "x" "manual" [("i", VInt 1)] "ok" None "a" 0;
       ExecutionRow "y" "manual" [("i", VInt 2)] "ok" None "a" 0;
       ExecutionRow "x" "manual" [("i", VInt 3)] "ok" None "a" 0].
Proof. reflexivity. Qed.

Example history_ties_with_name :
  fst (get_execution_history (Some "x") 0 tied_history) =
  Ret [ExecutionRow "x" "manual" [("i", VInt 4)] "ok" None "b" 0;
       ExecutionRow "x" "manual" [("i", VInt 3)] "ok" None "a" 0;
       ExecutionRow "x" "manual" [("i", VInt 1)] "ok" None "a" 0].
Proof. reflexivity. Qed.

(** At [datetime.min] there is no hour before; a span of 10^9 days is more
    than a [timedelta] holds. *)
Example history_before_the_first_hour :
  get_execution_history None 1 init_db =
  (Raise (OverflowError "date value out of range"), tick init_db).
Proof. reflexivity. Qed.

Example history_span_too_long :
  fst (get_execution_history None 24000000000 init_db) =
  Raise (OverflowError "days; must have magnitude <= 999999999").
Proof. reflexivity. Qed.

(** A priority of 2^63 is one more than [sqlite3] binds. *)
Example oversized_priority :
  add_rule (Rule.Build "big" (Trigger.Build "event" []) [] [] true (2 ^ 63) ""
                       "2024-01-01T00:00:00" None 0) hub_temp_alert =
  (Raise (OverflowError "Python int too large to convert to SQLite INTEGER"),
   hub_temp_alert).
Proof. reflexivity. Qed.

Example largest_priority :
  fst (add_rule (Rule.Build "big" (Trigger.Build "event" []) [] [] true (2 ^ 63 - 1) ""
                            "2024-01-01T00:00:00" None (- 2 ^ 63)) hub_temp_alert) =
  Ret (Rule.Build "big" (Trigger.Build "event" []) [] [] true (2 ^ 63 - 1) ""
                  "2024-01-01T00:00:00" None (- 2 ^ 63)).
Proof. reflexivity. Qed.

Example int_equals_float :
  Condition.evaluate (Condition.Build "n" "==" (VFloat (1 # 1)) false)
                     [("n", VInt 1)] = Ret true.
Proof. reflexivity. Qed.

Example none_is_unordered :
  Condition.evaluate (Condition.Build "n" "<" VNone false) [("n", VInt 1)] =
  Raise (TypeError "unorderable types").
Proof. reflexivity. Qed.

Example member_of_list :
  Condition.evaluate (Condition.Build "room" "in" (VList [VStr "hall"; VStr "porch"]) false)
                     [("room", VStr "porch")] = Ret true.
Proof. reflexivity. Qed.

Example unknown_operator :
  Condition.evaluate (Condition.Build "n" "~=" (VInt 1) false) [("n", VInt 1)] =
  Raise (UnknownConditionOperator "~=").
Proof. reflexivity. Qed.
End Scenarios.

(** * Instances of the theorems, and the runs that depart from the text *)

Section Instances.
#[local] Existing Instance ms_clock.

(** The path [sensor.t9.value] is missing from a reading of sensor t1: the
    negated condition passes. *)
Lemma missing_field_instance :
  path_lookup (split_dot "sensor.t9.value") (VDict (reading (35 # 1))) = None /\
  Condition.evaluate (Condition.Build "sensor.t9.value" ">" (VInt 30) true)
                     (reading (35 # 1)) = Ret true.
Proof.
  split; [reflexivity|].
  exact (proj2 (missing_field_evaluates_to_negate
                  (Condition.Build "sensor.t9.value" ">" (VInt 30) true)
                  (reading (35 # 1)) eq_refl)).
Defined.

(** A stored [None] and an operator nobody defines: the condition
    evaluates to its [negate] flag. *)
Lemma null_field_instance :
  path_lookup (split_dot "sensor.t1.value")
              (VDict [("sensor", VDict [("t1", VDict [("value", VNone)])])])
    = Some VNone /\
  Condition.evaluate (Condition.Build "sensor.t1.value" "~=" (VInt 30) false)
                     [("sensor", VDict [("t1", VDict [("value", VNone)])])]
    = Ret false.
Proof.
  split; [reflexivity|].
  exact (proj1 (proj2 (null_field_evaluates_to_negate
                         (Condition.Build "sensor.t1.value" "~=" (VInt 30) false)
                         [("sensor", VDict [("t1", VDict [("value", VNone)])])]
                         eq_refl)) "~=" (VInt 30)).
Defined.

Lemma evaluate_rule_instance :
  fst (evaluate_rule temp_alert (reading (20 # 1))) = true <->
  snd (evaluate_rule temp_alert (reading (20 # 1))) = [].
Proof.
  exact (proj1 (proj2 (proj2
           (evaluate_rule_collects_every_failure temp_alert (reading (20 # 1)))))).
Defined.

(** Scenario 2 through the theorem: the skipped rule keeps its row and gets
    no execution record. *)
Lemma skipped_rule_instance :
  db_ok hub_temp_alert = true /\
  In temp_alert (selected_rules (Some "sensor") hub_temp_alert) /\
  fst (evaluate_rule temp_alert (reading (20 # 1))) = false /\
  exists results s',
    run_rule_engine (reading (20 # 1)) (Some "sensor") hub_temp_alert =
      (Ret results, s') /\
    executions_for "temp_alert" s' = executions_for "temp_alert" hub_temp_alert /\
    row_for "temp_alert" s' = row_for "temp_alert" hub_temp_alert.
Proof.
  assert (Hdb : db_ok hub_temp_alert = true) by reflexivity.
  assert (Hin : In temp_alert (selected_rules (Some "sensor") hub_temp_alert))
    by (left; reflexivity).
  assert (Hf : fst (evaluate_rule temp_alert (reading (20 # 1))) = false)
    by reflexivity.
  split; [exact Hdb|]. split; [exact Hin|]. split; [exact Hf|].
  destruct (skipped_rule_records_nothing (reading (20 # 1)) (Some "sensor")
              temp_alert hub_temp_alert Hdb Hin Hf)
    as (results & s' & row & E & _ & _ & _ & _ & Hx & Hr & Hr' & _).
  exists results, s'. split; [exact E|]. split; [exact Hx|].
  exact (eq_trans Hr' (eq_sym Hr)).
Defined.

(** Scenario 1 through the theorem: one record, one more trigger. *)
Lemma executed_rule_instance :
  db_ok hub_temp_alert = true /\
  In temp_alert (selected_rules (Some "sensor") hub_temp_alert) /\
  fst (evaluate_rule temp_alert (reading (40 # 1))) = true /\
  exists results s' rec row',
    run_rule_engine (reading (40 # 1)) (Some "sensor") hub_temp_alert =
      (Ret results, s') /\
    executions_for "temp_alert" s' =
      executions_for "temp_alert" hub_temp_alert ++ [rec] /\
    ex_triggered_by rec = "sensor" /\
    row_for "temp_alert" s' = Some row' /\
    row_trigger_count row' = 1.
Proof.
  assert (Hdb : db_ok hub_temp_alert = true) by reflexivity.
  assert (Hin : In temp_alert (selected_rules (Some "sensor") hub_temp_alert))
    by (left; reflexivity).
  assert (Hp : fst (evaluate_rule temp_alert (reading (40 # 1))) = true)
    by reflexivity.
  split; [exact Hdb|]. split; [exact Hin|]. split; [exact Hp|].
  destruct (executed_rule_is_recorded_and_counted (reading (40 # 1)) (Some "sensor")
              temp_alert hub_temp_alert Hdb Hin Hp)
    as (results & s' & rec & row & row' & c0 & c1 & c2 & E & Hx & _ & Hby & _ & _
        & _ & _ & _ & Hrow & _ & Hrow' & Hcount & _).
  exists results, s', rec, row'.
  split; [exact E|]. split; [exact Hx|]. split; [exact Hby|].
  split; [exact Hrow'|].
  assert (Hr0 : row_for "temp_alert" hub_temp_alert = Some (row_of temp_alert))
    by reflexivity.
  change (Rule.name temp_alert) with "temp_alert" in Hrow.
  assert (Hrow0 : row = row_of temp_alert)
    by (apply (f_equal (fun o => or_default o row)) in Hr0;
        rewrite Hrow in Hr0; exact Hr0).
  rewrite Hcount, Hrow0. reflexivity.
Defined.

(** C5 as stated fails on this run. A rule stored with the count 2^63 - 1
    is selected and passes in two runs, each of which appends its record;
    the first run takes the count to the REAL 2^63, and the second leaves
    it there: the count after the second run is the count before it. *)
Lemma trigger_count_stays_at_real :
  exists res1 s1 res2 s2,
    add_rule worn_rule init_db = (Ret worn_rule, hub_worn_rule) /\
    run_rule_engine [] (Some "sensor") hub_worn_rule = (Ret res1, s1) /\
    run_rule_engine [] (Some "sensor") s1 = (Ret res2, s2) /\
    map entry_rule res2 = [Some "worn"] /\
    map entry_status res2 = [Some "ok"] /\
    List.length (executions s2) = S (List.length (executions s1)) /\
    option_map row_trigger_count (row_for "worn" hub_worn_rule) =
      Some (CInt (2 ^ 63 - 1)) /\
    option_map row_trigger_count (row_for "worn" s1) = Some CReal /\
    option_map row_trigger_count (row_for "worn" s2) = Some CReal /\
    option_map row_trigger_count (row_for "worn" s2) =
      option_map row_trigger_count (row_for "worn" s1).
Proof.
  do 4 eexists. split; [reflexivity|]. split; [vm_compute; reflexivity|].
  split; [vm_compute; reflexivity|].
  repeat split.
Qed.

(** The rule whose second action is unknown, through the theorem. *)
Lemma failing_action_instance :
  db_ok hub_night_scene = true /\
  In night_scene (selected_rules None hub_night_scene) /\
  fst (evaluate_rule night_scene []) = true /\
  exists results s' e,
    run_rule_engine [] None hub_night_scene = (Ret results, s') /\
    entries_for "night_scene" results = [e] /\
    calls_for "night_scene" s' =
      [Action.Build "log_message" None [("message", VStr "start")];
       Action.Build "launch_rocket" None []] /\
    dict_get e "status" = Some (FStr "error") /\
    dict_get e "actions" = Some (FActions [VDict [("logged", VStr "start")]]).
Proof.
  assert (Hdb : db_ok hub_night_scene = true) by reflexivity.
  assert (Hin : In night_scene (selected_rules None hub_night_scene))
    by (left; reflexivity).
  assert (Hp : fst (evaluate_rule night_scene []) = true) by reflexivity.
  split; [exact Hdb|]. split; [exact Hin|]. split; [exact Hp|].
  destruct (actions_stop_at_first_failure [] None night_scene hub_night_scene
              Hdb Hin Hp)
    as (results & s' & e & rec & E & Hent & _ & _ & _ & Hstop & _).
  assert (HF : Forall2 (fun a v => fst (execute_action a [] hub_night_scene) = Ret v)
                       [Action.Build "log_message" None [("message", VStr "start")]]
                       [VDict [("logged", VStr "start")]])
    by (constructor; [reflexivity | constructor]).
  destruct (Hstop [Action.Build "log_message" None [("message", VStr "start")]]
                  (Action.Build "launch_rocket" None [])
                  [Action.Build "log_message" None [("message", VStr "done")]]
                  [VDict [("logged", VStr "start")]]
                  (UnknownActionType "launch_rocket")
                  eq_refl HF eq_refl)
    as (Hcalls & Hstatus & Hacts & _).
  exists results, s', e.
  split; [exact E|]. split; [exact Hent|]. split; [exact Hcalls|].
  split; [exact Hstatus | exact Hacts].
Defined.

(** C3 as stated fails on this run. The second of three actions raises, so
    the results up to and including the failure point would be two; the
    entry returned has the status "error", one result, that of the first
    action, and no key for the message, which goes to the execution record
    instead. *)
Lemma failing_action_has_no_result_and_entry_no_message :
  exists s' e acts,
    Rule.actions night_scene =
      [Action.Build "log_message" None [("message", VStr "start")];
       Action.Build "launch_rocket" None [];
       Action.Build "log_message" None [("message", VStr "done")]] /\
    fst (execute_action (Action.Build "log_message" None [("message", VStr "start")])
                        [] hub_night_scene) = Ret (VDict [("logged", VStr "start")]) /\
    fst (execute_action (Action.Build "launch_rocket" None []) [] hub_night_scene) =
      Raise (UnknownActionType "launch_rocket") /\
    run_rule_engine [] None hub_night_scene = (Ret [e], s') /\
    e = [("rule", FStr "night_scene"); ("status", FStr "error");
         ("actions", FActions acts); ("duration_ms", FRounded 2000)] /\
    acts = [VDict [("logged", VStr "start")]] /\
    List.length acts <> 2%nat /\
    dict_get e "error" = None /\
    map ex_error (executions s') = [Some (UnknownActionType "launch_rocket")].
Proof.
  do 3 eexists. split; [reflexivity|]. split; [reflexivity|].
  split; [reflexivity|]. split; [vm_compute; reflexivity|].
  split; [reflexivity|]. split; [reflexivity|].
  split; [discriminate|]. split; reflexivity.
Qed.

(** Scenario 5 through the theorem. *)
Lemma unregistered_service_instance :
  Action.type (Action.Build "call_service" (Some "garage.open") []) = "call_service" /\
  dict_get (_service_handlers hub_call_unregistered) "garage.open" = None /\
  db_ok hub_call_unregistered = true /\
  In call_unregistered (selected_rules (Some "event") hub_call_unregistered) /\
  fst (evaluate_rule call_unregistered []) = true /\
  exists results s' d,
    run_rule_engine [] (Some "event") hub_call_unregistered = (Ret results, s') /\
    entries_for "call_unregistered" results =
      [[("rule", FStr "call_unregistered"); ("status", FStr "ok");
        ("actions",
         FActions [VDict [("logged", VStr "calling")];
                   VDict [("service", VStr "garage.open");
                          ("status", VStr "no_handler")]]);
        ("duration_ms", FRounded d)]].
Proof.
  assert (Hdb : db_ok hub_call_unregistered = true) by reflexivity.
  assert (Hin : In call_unregistered
                   (selected_rules (Some "event") hub_call_unregistered))
    by (left; reflexivity).
  assert (Hp : fst (evaluate_rule call_unregistered []) = true) by reflexivity.
  split; [reflexivity|]. split; [reflexivity|].
  split; [exact Hdb|]. split; [exact Hin|]. split; [exact Hp|].
  destruct (proj2 (unregistered_service_is_not_fatal
                     (Action.Build "call_service" (Some "garage.open") [])
                     [] hub_call_unregistered eq_refl eq_refl)
                  (Some "event") call_unregistered
                  (Action.Build "log_message" None [("message", VStr "calling")])
                  Hdb Hin Hp eq_refl eq_refl)
    as (results & s' & d & rec & E & Hent & _).
  exists results, s', d. split; [exact E | exact Hent].
Defined.

(** Adding the fixture rule again leaves one row of its name. *)
Lemma add_rule_again_instance :
  db_ok hub_temp_alert = true /\
  Rule.binds temp_alert = true /\
  exists s',
    add_rule temp_alert hub_temp_alert = (Ret temp_alert, s') /\
    count_name "temp_alert" (map row_name (rules s')) = 1%nat /\
    count_name "temp_alert" (active_names s') = 1%nat.
Proof.
  assert (Hdb : db_ok hub_temp_alert = true) by reflexivity.
  split; [exact Hdb|]. split; [reflexivity|].
  destruct (proj1 (add_rule_replaces_by_name hub_temp_alert Hdb) temp_alert eq_refl)
    as (s' & E & _ & Hrows & _ & _ & Hactive & _).
  exists s'. split; [exact E|]. split; [exact Hrows | exact Hactive].
Defined.

(** C6 as stated fails on this run: a document that states
    [enabled: false], imported twice, is stored once and listed nowhere. *)
Lemma disabled_document_twice_is_not_listed :
  exists r1 s1 r2 s2,
    add_rule_from_json disabled_document init_db = (Ret r1, s1) /\
    add_rule_from_json disabled_document s1 = (Ret r2, s2) /\
    Rule.name r1 = "porch_light" /\
    map row_name (rules s2) = ["porch_light"] /\
    get_active_rules s2 = (Ret [], s2) /\
    count_name "porch_light" (active_names s2) <> 1%nat.
Proof.
  do 4 eexists. split; [vm_compute; reflexivity|].
  split; [vm_compute; reflexivity|].
  split; [reflexivity|]. split; [reflexivity|].
  split; [reflexivity | discriminate].
Qed.

(** The fixture rule, disabled and enabled again. *)
Lemma disable_enable_instance :
  db_ok hub_temp_alert = true /\
  row_for "temp_alert" hub_temp_alert = Some (row_of temp_alert) /\
  exists s1 s2,
    disable_rule "temp_alert" hub_temp_alert = (Ret tt, s1) /\
    enable_rule "temp_alert" s1 = (Ret tt, s2) /\
    ~ In "temp_alert" (active_names s1) /\
    count_name "temp_alert" (active_names s2) = 1%nat /\
    s2 = hub_temp_alert.
Proof.
  assert (Hdb : db_ok hub_temp_alert = true) by reflexivity.
  assert (Hrow : row_for "temp_alert" hub_temp_alert = Some (row_of temp_alert))
    by reflexivity.
  split; [exact Hdb|]. split; [exact Hrow|].
  destruct (disable_enable_round_trip "temp_alert" (row_of temp_alert)
              hub_temp_alert Hdb Hrow)
    as (s1 & s2 & E1 & E2 & Hout & Hin & _ & _ & _ & _ & _ & _ & Hsame).
  exists s1, s2. split; [exact E1|]. split; [exact E2|]. split; [exact Hout|].
  split; [exact Hin | exact (Hsame eq_refl)].
Defined.

(** A document without [name] is refused and nothing changes; a document
    with [name] and [trigger] only is stored with the defaults. *)
Lemma import_instance :
  (exists e, add_rule_from_json nameless_document hub_temp_alert =
             (Raise e, hub_temp_alert)) /\
  required_present minimal_document = true /\
  document_binds minimal_document = true /\
  exists r s',
    add_rule_from_json minimal_document hub_temp_alert = (Ret r, s') /\
    Rule.enabled r = true /\ Rule.priority r = 0 /\
    Rule.conditions r = [] /\ Rule.actions r = [].
Proof.
  split.
  - exact (proj1 (proj2 (import_needs_name_and_trigger nameless_document
                           hub_temp_alert)) (or_introl eq_refl)).
  - split; [reflexivity|]. split; [reflexivity|].
    destruct (proj2 (proj2 (proj2 (proj2 (import_needs_name_and_trigger
                                            minimal_document hub_temp_alert))))
                    eq_refl eq_refl)
      as (r & s' & E & _ & _ & _ & Hen & Hpr & Hco & Hac & _).
    exists r, s'. split; [exact E|].
    split; [exact (Hen eq_refl)|]. split; [exact (Hpr eq_refl)|].
    split; [exact (Hco eq_refl) | exact (Hac eq_refl)].
Defined.

(** C8 as stated fails on this import. The document lacks optional fields
    only, and states the priority 2^63: the import raises and the table
    stays empty. *)
Lemma oversized_document_is_refused :
  exists s',
    Rule.d_name oversized_document = Some "porch_light" /\
    Rule.d_trigger oversized_document = Some (Trigger.Kw (Some "event") None) /\
    required_present oversized_document = true /\
    add_rule_from_json oversized_document init_db =
      (Raise (OverflowError "Python int too large to convert to SQLite INTEGER"),
       s') /\
    rules s' = [] /\
    get_rule "porch_light" s' = (Ret None, s').
Proof.
  eexists. split; [reflexivity|]. split; [reflexivity|]. split; [reflexivity|].
  split; [vm_compute; reflexivity|]. split; reflexivity.
Qed.
End Instances.

(** * Further properties of the code *)

(** ** Conditions and paths *)

(** X1. Flipping the [negate] flag of a condition inverts what it evaluates
    to, in every context: also when the field is missing, where the plain
    condition fails and the negated one passes. An evaluation that raises
    (unknown operator, unordered types) raises the same exception with the
    flag flipped: errors are not inverted. *)
Theorem negate_inverts_evaluation (c : Condition.t) (context : dict) :
  Condition.evaluate (negated c) context =
  outcome_map negb (Condition.evaluate c context).
Proof.
  unfold Condition.evaluate, negated.
  cbn [Condition.field Condition.op Condition.value Condition.negate].
  destruct (_resolve_path (Condition.field c) context) as [|b|z|q|t|l|d];
    try reflexivity;
    (destruct (_OP_MAP (Condition.op c)) as [fn|]; [|reflexivity];
     match goal with
     | |- context [fn ?a ?v] => destruct (fn a v) as [r|e]; [|reflexivity]
     end;
     destruct (Condition.negate c), r; reflexivity).
Qed.

Lemma split_dot_append (p q : string) :
  split_dot (p ++ "." ++ q)%string = split_dot p ++ split_dot q.
Proof.
  induction p as [|c p IH].
  - reflexivity.
  - cbn [String.append split_dot]. fold (String.append p (String "." q)).
    change (String "." q) with ("." ++ q)%string. rewrite IH.
    destruct (Ascii.eqb c "."); [reflexivity|].
    destruct (split_dot p) as [|part parts] eqn:E.
    + exfalso. exact (split_dot_not_nil p E).
    + reflexivity.
Qed.

Lemma resolve_parts_app (l1 l2 : list string) :
  forall val, resolve_parts (l1 ++ l2) val = resolve_parts l2 (resolve_parts l1 val).
Proof.
  induction l1 as [|part l1 IH]; intros val; cbn [app resolve_parts].
  - reflexivity.
  - destruct val; try (symmetry; apply resolve_parts_none). apply IH.
Qed.

(** X2. Paths compose: resolving [p.q] is resolving [q] from what [p]
    resolves to. When [p] resolves to a mapping, [p.q] is the resolution of
    [q] in that mapping; when it resolves to anything else, [p.q] is
    [None]. *)
Theorem resolve_path_composes (p q : string) (context : dict) :
  _resolve_path (p ++ "." ++ q)%string context =
    resolve_parts (split_dot q) (_resolve_path p context) /\
  (forall d, _resolve_path p context = VDict d ->
             _resolve_path (p ++ "." ++ q)%string context = _resolve_path q d) /\
  ((forall d, _resolve_path p context <> VDict d) ->
   _resolve_path (p ++ "." ++ q)%string context = VNone).
Proof.
  assert (E : _resolve_path (p ++ "." ++ q)%string context =
              resolve_parts (split_dot q) (_resolve_path p context)).
  { unfold _resolve_path. rewrite split_dot_append. apply resolve_parts_app. }
  split; [exact E|]. split.
  - intros d Hd. rewrite E, Hd. reflexivity.
  - intros Hnd. rewrite E.
    destruct (split_dot q) as [|part parts] eqn:Eq.
    + exfalso. exact (split_dot_not_nil q Eq).
    + destruct (_resolve_path p context) as [|b|z|r|t|l|d]; try reflexivity.
      exfalso. exact (Hnd d eq_refl).
Qed.

Lemma split_dot_no_dot (s : string) : no_dot s = true -> split_dot s = [s].
Proof.
  induction s as [|c s IH]; cbn [no_dot split_dot]; intros H.
  - reflexivity.
  - apply andb_true_iff in H. destruct H as [Hc Hs].
    apply negb_true_iff in Hc. rewrite Hc, (IH Hs). reflexivity.
Qed.

Lemma split_dot_head_no_dot (s : string) :
  exists part parts, split_dot s = part :: parts /\ no_dot part = true.
Proof.
  induction s as [|c s (part & parts & E & Hp)]; cbn [split_dot].
  - exists EmptyString, []. split; reflexivity.
  - destruct (Ascii.eqb c ".") eqn:Ec.
    + exists EmptyString, (split_dot s). split; reflexivity.
    + rewrite E. exists (String c part), parts. split; [reflexivity|].
      cbn [no_dot]. rewrite Ec, Hp. reflexivity.
Qed.

Lemma dict_get_single {A : Type} (k : string) (v : A) : dict_get [(k, v)] k = Some v.
Proof. cbn. rewrite String.eqb_refl. reflexivity. Qed.

(** ** The contexts the entry points build *)

Section EntryPoints.
Context {clock : Clock}.

(** X3. [process_sensor_update] is one reading of the clock followed by a
    run over the rules of trigger type "sensor", on a context in which the
    event fields hold the reading. A condition on [sensor.<id>.value] sees
    the value exactly when the sensor id has no dot in it: with a dotted id
    the path splits inside the id and resolves to [None]. *)
Theorem sensor_update_context (sensor_id : string) (value : Q) (unit : string)
    (s : state) :
  exists context,
    process_sensor_update sensor_id value unit s =
      run_rule_engine context (Some "sensor") (tick s) /\
    _resolve_path ("sensor." ++ sensor_id ++ ".value")%string context =
      (if no_dot sensor_id then VFloat value else VNone) /\
    _resolve_path "event.name" context = VStr "sensor_update" /\
    _resolve_path "event.sensor_id" context = VStr sensor_id /\
    _resolve_path "event.value" context = VFloat value /\
    _resolve_path "ts" context = VStr (isoformat (utcnow (clock_reads s))).
Proof.
  eexists. split; [reflexivity|]. split; [|repeat split].
  unfold _resolve_path.
  change ("sensor." ++ sensor_id ++ ".value")%string
    with ("sensor" ++ "." ++ (sensor_id ++ "." ++ "value"))%string.
  rewrite !split_dot_append.
  change (split_dot "sensor") with ["sensor"].
  change (split_dot "value") with ["value"].
  cbn [app resolve_parts].
  change (py_get _ "sensor")
    with (VDict [(sensor_id, VDict [("value", VFloat value); ("unit", VStr unit)])]).
  destruct (no_dot sensor_id) eqn:Hdot.
  - rewrite (split_dot_no_dot _ Hdot). cbn [app resolve_parts].
    assert (E : forall v : pyval, py_get [(sensor_id, v)] sensor_id = v)
      by (intros v; unfold py_get; rewrite dict_get_single; reflexivity).
    rewrite E. reflexivity.
  - destruct (split_dot_head_no_dot sensor_id) as (part & parts & Esplit & Hpart).
    rewrite Esplit. cbn [app resolve_parts].
    assert (E : forall v : pyval, py_get [(sensor_id, v)] part = VNone).
    { intros v. unfold py_get. cbn [dict_get].
      destruct (String.eqb_spec sensor_id part) as [Heq|_]; [|reflexivity].
      rewrite <- Heq, Hdot in Hpart. discriminate. }
    rewrite E. apply resolve_parts_none.
Qed.

(** X4. [fire_event] is one reading of the clock followed by a run over the
    rules of trigger type "event", on a context where [event.name] is the
    event name, [event.data] is the data given (an empty mapping when none
    is given) and [event.data.<key>] is the datum under a dot-free key. *)
Theorem fire_event_context (event_name : string) (event_data : option dict)
    (s : state) :
  exists context,
    fire_event event_name event_data s =
      run_rule_engine context (Some "event") (tick s) /\
    _resolve_path "event.name" context = VStr event_name /\
    _resolve_path "event.data" context = VDict (or_default event_data []) /\
    (forall key, no_dot key = true ->
       _resolve_path ("event.data." ++ key)%string context =
       py_get (or_default event_data []) key) /\
    (event_data = None -> forall key,
       _resolve_path ("event.data." ++ key)%string context = VNone) /\
    _resolve_path "ts" context = VStr (isoformat (utcnow (clock_reads s))).
Proof.
  eexists. split; [reflexivity|]. split; [reflexivity|]. split; [reflexivity|].
  assert (Hpath : forall key ctx,
            _resolve_path ("event.data." ++ key)%string ctx =
            resolve_parts (split_dot key) (_resolve_path "event.data" ctx)).
  { intros key ctx. unfold _resolve_path.
    change ("event.data." ++ key)%string with ("event.data" ++ "." ++ key)%string.
    rewrite split_dot_append. apply resolve_parts_app. }
  split; [|split; [|reflexivity]].
  - intros key Hkey. rewrite Hpath, (split_dot_no_dot _ Hkey). reflexivity.
  - intros -> key. rewrite Hpath.
    destruct (split_dot_head_no_dot key) as (part & parts & -> & _).
    cbn. apply resolve_parts_none.
Qed.
End EntryPoints.

(** ** Storing, reading and deleting rules *)

Lemma from_dict_counters (d : Rule.document) (now : string) (r : Rule.t) :
  Rule.from_dict d now = Ret r ->
  Rule.trigger_count r = or_default (Rule.d_trigger_count d) 0 /\
  Rule.last_triggered r = or_default (Rule.d_last_triggered d) None /\
  Rule.created_at r = or_default (Rule.d_created_at d) now /\
  Rule.description r = or_default (Rule.d_description d) "".
Proof.
  unfold Rule.from_dict.
  destruct (Rule.d_trigger d) as [tkw|]; [|discriminate].
  destruct (Trigger.init tkw) as [trigger|]; [|discriminate].
  destruct (comprehension Condition.init _) as [conds|]; [|discriminate].
  destruct (comprehension Action.init _) as [acts|]; [|discriminate].
  destruct (Rule.d_name d) as [name|]; [|discriminate].
  intros E. injection E as <-. repeat split.
Qed.

Lemma set_counters_own (rule : Rule.t) :
  Rule.set_counters rule (negb (Z.eqb (Z.b2z (Rule.enabled rule)) 0))
                    (Rule.last_triggered rule) (Rule.trigger_count rule) = rule.
Proof. destruct rule as [n t c a [|] p d cr lt tc]; reflexivity. Qed.

Lemma no_row_named (name : string) (table : list rule_row) :
  find (name_is name) table = None ->
  filter (fun r => negb (name_is name r)) table = table /\
  forall f, update_where name f table = table.
Proof.
  intros Hnone. pose proof (find_none _ _ Hnone) as Hall. split.
  - apply forallb_filter_id. apply forallb_forall. intros r Hin.
    rewrite (Hall r Hin). reflexivity.
  - intros f. unfold update_where. rewrite <- (map_id table) at 2.
    apply map_ext_in. intros r Hin. rewrite (Hall r Hin). reflexivity.
Qed.

Section Lookup.
Context {clock : Clock}.

Lemma get_rule_found (name : string) (row : rule_row) (r : Rule.t) (s : state) :
  row_for name s = Some row ->
  Rule.from_dict (row_definition row) (isoformat (utcnow (clock_reads s))) = Ret r ->
  get_rule name s =
    (Ret (Some (Rule.set_counters r (negb (Z.eqb (row_enabled row) 0))
                  (row_last_triggered row) (row_trigger_count row))), tick s).
Proof.
  intros Hrow Hr. unfold get_rule, bind, gets. unfold row_for in Hrow.
  rewrite Hrow. unfold Rule_from_dict. rewrite Hr. reflexivity.
Qed.

Lemma get_rule_absent (name : string) (s : state) :
  row_for name s = None -> get_rule name s = (Ret None, s).
Proof.
  intros Hrow. unfold get_rule, bind, gets. unfold row_for in Hrow.
  rewrite Hrow. reflexivity.
Qed.

(** X5. What [add_rule] stores, [get_rule] gives back: for every state of
    the hub and every rule whose priority and trigger count [sqlite3] binds
    (ints of 64 bits; for the count also the float 2^63 that an overflowed
    count is read back as), looking the rule up by name right after adding
    it returns that very rule, all ten fields included, whatever the table
    held under the name before. *)
Theorem get_rule_returns_added_rule (rule : Rule.t) (s : state) :
  Rule.binds rule = true ->
  exists s1 s2,
    add_rule rule s = (Ret rule, s1) /\
    get_rule (Rule.name rule) s1 = (Ret (Some rule), s2) /\
    rules s2 = rules s1 /\
    executions s2 = executions s.
Proof.
  intros Hb. destruct (add_rule_state rule s Hb) as (s1 & E & Hr & Hx & _).
  assert (Hrow : row_for (Rule.name rule) s1 = Some (row_of rule)).
  { unfold row_for. rewrite Hr. apply (insert_or_replace_own (row_of rule)). }
  exists s1, (tick s1). split; [exact E|]. split; [|split; [reflexivity | exact Hx]].
  rewrite (get_rule_found _ _ rule s1 Hrow) by apply from_dict_to_dict.
  cbn [row_of row_enabled row_last_triggered row_trigger_count].
  rewrite set_counters_own. reflexivity.
Qed.

Lemma delete_rule_state (name : string) (s : state) :
  delete_rule name s =
    (Ret tt, set_rules (filter (fun r => negb (name_is name r))) s).
Proof. reflexivity. Qed.

(** X6. [delete_rule] removes the row of the name and nothing else: a lookup
    of the name then returns [None], the name is out of the active-rule
    listing, the rows of other names and the whole execution table (the
    records of the deleted rule included) stay, and deleting a name that is
    not stored changes nothing and raises nothing. *)
Theorem delete_rule_removes_only_the_row (name : string) (s : state) :
  db_ok s = true ->
  exists s1,
    delete_rule name s = (Ret tt, s1) /\
    get_rule name s1 = (Ret None, s1) /\
    ~ In name (active_names s1) /\
    (forall other, other <> name -> row_for other s1 = row_for other s) /\
    executions s1 = executions s /\
    executions_for name s1 = executions_for name s /\
    (row_for name s = None -> s1 = s).
Proof.
  intros Hdb.
  set (s1 := set_rules (filter (fun r => negb (name_is name r))) s).
  assert (Hnone : row_for name s1 = None)
    by (unfold row_for, s1; cbn [rules set_rules]; apply find_filter_out).
  assert (Hdb1 : db_ok s1 = true) by (apply (db_ok_delete_rule name s Hdb)).
  exists s1. split; [reflexivity|]. split; [apply get_rule_absent; exact Hnone|].
  split.
  { intros Hin. destruct (get_active_rules_ok s1 Hdb1) as (rs & E & _ & Hn & _).
    unfold active_names in Hin. rewrite E, Hn in Hin.
    apply in_map_iff in Hin. destruct Hin as (row & Hname & Hin).
    apply select_active_In in Hin. destruct Hin as [Hin _].
    pose proof (find_none _ _ Hnone row Hin) as Hf.
    unfold name_is in Hf. rewrite Hname, String.eqb_refl in Hf. discriminate. }
  split.
  { intros other Hne. unfold row_for, s1. cbn [rules set_rules].
    apply find_filter_other. exact Hne. }
  split; [reflexivity|]. split; [reflexivity|].
  intros Habsent. unfold s1. destruct s as [t x l h c k].
  unfold set_rules. cbn [rules executions logs _service_handlers clock_reads calls].
  f_equal. apply (no_row_named name t). exact Habsent.
Qed.

(** X7. Enabling or disabling a name that is not stored changes nothing and
    raises nothing. On any state the last call wins and repeating a call
    adds nothing: disable after disable is disable, enable after disable is
    enable, disable after enable is disable. *)
Theorem enable_disable_compose (name : string) (s : state) :
  (row_for name s = None ->
   enable_rule name s = (Ret tt, s) /\ disable_rule name s = (Ret tt, s)) /\
  snd (disable_rule name (snd (disable_rule name s))) = snd (disable_rule name s) /\
  snd (enable_rule name (snd (enable_rule name s))) = snd (enable_rule name s) /\
  snd (enable_rule name (snd (disable_rule name s))) = snd (enable_rule name s) /\
  snd (disable_rule name (snd (enable_rule name s))) = snd (disable_rule name s).
Proof.
  split.
  - intros Habsent. unfold enable_rule, disable_rule, modify.
    destruct s as [t x l h c k]. unfold set_rules.
    cbn [rules executions logs _service_handlers clock_reads calls].
    rewrite !(proj2 (no_row_named name t Habsent)). split; reflexivity.
  - unfold enable_rule, disable_rule, modify, set_rules.
    cbn [snd rules executions logs _service_handlers clock_reads calls].
    rewrite !update_where_compose by reflexivity. repeat split.
Qed.

(** X8. Importing a document over a stored rule replaces every column: the
    new row takes its trigger count and last-triggered stamp from the
    document (0 and none when it leaves them out), not from the row it
    replaces, and its creation stamp is the one of the document or, when the
    document has none, the reading of the clock at the import. *)
Theorem import_replaces_counters (d : Rule.document) (r : Rule.t) (s s' : state) :
  add_rule_from_json d s = (Ret r, s') ->
  exists row,
    row_for (Rule.name r) s' = Some row /\
    row_trigger_count row = or_default (Rule.d_trigger_count d) 0 /\
    row_last_triggered row = or_default (Rule.d_last_triggered d) None /\
    row_created_at row =
      or_default (Rule.d_created_at d) (isoformat (utcnow (clock_reads s))) /\
    row_enabled row = Z.b2z (or_default (Rule.d_enabled d) true) /\
    row_priority row = or_default (Rule.d_priority d) 0 /\
    row_definition row = Rule.to_dict r.
Proof.
  intros E. destruct (import_steps d s r s' E) as (Hp & _ & Hr).
  destruct (from_dict_counters d _ r Hp) as (Htc & Hlt & Hcr & _).
  destruct (from_dict_defaults d _ r Hp) as (_ & Hen & Hpr & _).
  exists (row_of r). split.
  - unfold row_for. rewrite Hr. apply (insert_or_replace_own (row_of r)).
  - cbn [row_of row_trigger_count row_last_triggered row_created_at row_enabled
         row_priority row_definition].
    rewrite Htc, Hlt, Hcr, Hen, Hpr. repeat split.
Qed.

End Lookup.

(** ** Actions and the handler registry *)

Section ActionFacts.
Context {clock : Clock}.

(** X10. A [call_service] action calls the handler registered last under
    its target, with the target and the parameters of the action, and
    returns what the handler returns or raises what it raises; a handler
    registered under another name is not affected by the registration. *)
Theorem registered_handler_is_called (name : string) (h : handler)
    (action : Action.t) (context : dict) (s : state) :
  Action.type action = "call_service" ->
  Action.target action = Some name ->
  exists s1 s2,
    register_service name h s = (Ret tt, s1) /\
    execute_action action context s1 = (h name (Action.params action), s2) /\
    keeps s1 s2 /\
    rules s1 = rules s /\
    (forall other, other <> name ->
       dict_get (_service_handlers s1) other = dict_get (_service_handlers s) other).
Proof.
  intros Hty Htarget.
  set (s1 := set_handlers (fun l => (name, h) :: l) s).
  destruct (execute_action_outcome action context s1) as (s2 & E & K).
  exists s1, s2. split; [reflexivity|]. split; [|split; [exact K|split]].
  - rewrite E. f_equal. unfold action_outcome. rewrite Hty, Htarget.
    change (is_type "call_service" "log_message") with false.
    change (is_type "call_service" "send_notify") with false.
    change (is_type "call_service" "set_state") with false.
    change (is_type "call_service" "call_service") with true.
    cbv iota. unfold s1. cbn [_service_handlers set_handlers dict_get].
    rewrite String.eqb_refl. reflexivity.
  - reflexivity.
  - intros other Hne. unfold s1. cbn [_service_handlers set_handlers dict_get].
    destruct (String.eqb_spec name other); [congruence | reflexivity].
Qed.

(** X11. The actions [log_message], [send_notify], [set_state] and
    [run_scene] return a result whatever their target and parameters are.
    The last three leave the whole state as it is; [log_message] reads the
    clock once and appends one INFO row to the log, which carries the
    message and the context as given, its [credentials] key included. *)
Theorem builtin_actions_return (action : Action.t) (context : dict) (s : state) :
  existsb (String.eqb (Action.type action))
          ["log_message"; "send_notify"; "set_state"; "run_scene"] = true ->
  exists v s',
    execute_action action context s = (Ret v, s') /\
    rules s' = rules s /\
    executions s' = executions s /\
    (Action.type action <> "log_message" -> s' = s) /\
    (Action.type action = "log_message" ->
     v = VDict [("logged", py_get_default (Action.params action) "message" (VStr ""))] /\
     logs s' =
       logs s ++
       [LogRow "INFO"
          (RuleAction (py_get_default (Action.params action) "message" (VStr "")))
          context (isoformat (utcnow (clock_reads s)))] /\
     clock_reads s' = S (clock_reads s)).
Proof.
  intros Hty. cbn [existsb] in Hty. rewrite orb_false_r in Hty.
  unfold execute_action. unfold is_type.
  destruct (String.eqb_spec (Action.type action) "log_message") as [E1|N1].
  { do 2 eexists. split; [reflexivity|]. split; [reflexivity|].
    split; [reflexivity|]. split; [intros C; contradiction|].
    intros _. repeat split. }
  destruct (String.eqb_spec (Action.type action) "send_notify") as [E2|N2].
  { do 2 eexists. split; [reflexivity|]. split; [reflexivity|].
    split; [reflexivity|]. split; [reflexivity | intros C; contradiction]. }
  destruct (String.eqb_spec (Action.type action) "set_state") as [E3|N3].
  { do 2 eexists. split; [reflexivity|]. split; [reflexivity|].
    split; [reflexivity|]. split; [reflexivity | intros C; contradiction]. }
  destruct (String.eqb_spec (Action.type action) "call_service") as [E4|N4].
  { rewrite E4 in Hty. discriminate. }
  destruct (String.eqb_spec (Action.type action) "delay") as [E5|N5].
  { rewrite E5 in Hty. discriminate. }
  destruct (String.eqb_spec (Action.type action) "run_scene") as [E6|N6].
  { do 2 eexists. split; [reflexivity|]. split; [reflexivity|].
    split; [reflexivity|]. split; [reflexivity | intros C; contradiction]. }
  cbn [orb] in Hty. discriminate.
Qed.
End ActionFacts.

(** ** What a run does to the tables *)

Lemma count_le_refl (c : count) : count_le c c.
Proof. destruct c; cbn; [apply Z.le_refl | exact I]. Qed.

Lemma count_le_trans (c1 c2 c3 : count) :
  count_le c1 c2 -> count_le c2 c3 -> count_le c1 c3.
Proof.
  destruct c1 as [n1|], c2 as [n2|], c3 as [n3|]; cbn; try tauto.
  apply Z.le_trans.
Qed.

(** The addition of SQLite never takes a count down. *)
Lemma count_le_succ (c : count) : count_le c (sqlite_succ c).
Proof.
  destruct c as [n|]; [|exact I]. unfold sqlite_succ, count_le.
  destruct (n <? 2 ^ 63 - 1); [lia | exact I].
Qed.

(** The three cases of the addition. *)
Lemma sqlite_succ_cases (c c' : count) :
  c' = sqlite_succ c ->
  (forall n, c = CInt n -> n < 2 ^ 63 - 1 -> c' = CInt (n + 1)) /\
  (c = CInt (2 ^ 63 - 1) -> c' = CReal) /\
  (c = CReal -> c' = CReal).
Proof.
  intros ->. split; [|split].
  - intros n -> Hn. unfold sqlite_succ.
    destruct (Z.ltb_spec n (2 ^ 63 - 1)); [reflexivity | lia].
  - intros ->. reflexivity.
  - intros ->. reflexivity.
Qed.

(** Two additions in a row. *)
Lemma sqlite_succ_twice (c c' : count) :
  c' = sqlite_succ (sqlite_succ c) ->
  (forall n, c = CInt n -> n < 2 ^ 63 - 2 -> c' = CInt (n + 2)) /\
  (forall n, c = CInt n -> 2 ^ 63 - 2 <= n -> c' = CReal) /\
  (c = CReal -> c' = CReal).
Proof.
  intros ->. split; [|split].
  - intros n -> Hn. unfold sqlite_succ.
    destruct (Z.ltb_spec n (2 ^ 63 - 1)); [|lia].
    destruct (Z.ltb_spec (n + 1) (2 ^ 63 - 1)); [|lia].
    f_equal. lia.
  - intros n -> Hn. unfold sqlite_succ.
    destruct (Z.ltb_spec n (2 ^ 63 - 1)); [|reflexivity].
    destruct (Z.ltb_spec (n + 1) (2 ^ 63 - 1)); [lia | reflexivity].
  - intros ->. reflexivity.
Qed.

Lemma same_but_counters_refl (r : rule_row) : same_but_counters r r.
Proof. unfold same_but_counters. repeat split. apply count_le_refl. Qed.

Lemma same_but_counters_trans (r1 r2 r3 : rule_row) :
  same_but_counters r1 r2 -> same_but_counters r2 r3 -> same_but_counters r1 r3.
Proof.
  unfold same_but_counters.
  intros (A1 & A2 & A3 & A4 & A5 & A6) (B1 & B2 & B3 & B4 & B5 & B6).
  repeat split; try congruence. eapply count_le_trans; eassumption.
Qed.

Lemma rows_kept_refl (table : list rule_row) : Forall2 same_but_counters table table.
Proof.
  induction table as [|r table IH]; constructor;
    [apply same_but_counters_refl | exact IH].
Qed.

Lemma rows_kept_trans (t1 t2 : list rule_row) :
  Forall2 same_but_counters t1 t2 ->
  forall t3, Forall2 same_but_counters t2 t3 -> Forall2 same_but_counters t1 t3.
Proof.
  induction 1 as [|r1 r2 t1 t2 H12 HF IH]; intros t3 H23.
  - inversion H23. constructor.
  - inversion H23 as [|? r3 ? t3' Hr Ht]; subst. constructor.
    + eapply same_but_counters_trans; eassumption.
    + apply IH. exact Ht.
Qed.

Lemma rows_kept_trigger (name ts : string) (table : list rule_row) :
  Forall2 same_but_counters table (update_where name (with_trigger ts) table).
Proof.
  unfold update_where. induction table as [|r table IH]; cbn [map]; constructor.
  - destruct (name_is name r); [|apply same_but_counters_refl].
    unfold same_but_counters. cbn [with_trigger row_name row_definition row_enabled
      row_priority row_created_at row_trigger_count].
    repeat split. apply count_le_succ.
  - exact IH.
Qed.

Lemma without_credentials_get (context : dict) :
  dict_get (without_credentials context) "credentials" = None /\
  forall key, key <> "credentials" ->
              dict_get (without_credentials context) key = dict_get context key.
Proof.
  unfold without_credentials. induction context as [|[k v] context [IH1 IH2]].
  - split; [reflexivity | intros; reflexivity].
  - cbn [filter fst]. destruct (String.eqb_spec k "credentials") as [->|Hk]; cbn [negb].
    + split; [exact IH1|]. intros key Hkey. cbn [dict_get].
      destruct (String.eqb_spec "credentials" key); [congruence | apply IH2; exact Hkey].
    + split.
      * cbn [dict_get]. destruct (String.eqb_spec k "credentials"); [contradiction|].
        exact IH1.
      * intros key Hkey. cbn [dict_get]. destruct (String.eqb k key); [reflexivity|].
        apply IH2. exact Hkey.
Qed.

Section RunEffects.
Context {clock : Clock}.

Lemma execute_action_logs (action : Action.t) (context : dict) (s : state) :
  exists new, logs (snd (execute_action action context s)) = logs s ++ new.
Proof.
  unfold execute_action.
  destruct (is_type (Action.type action) "log_message").
  { eexists. reflexivity. }
  destruct (is_type (Action.type action) "send_notify").
  { exists []. symmetry. apply app_nil_r. }
  destruct (is_type (Action.type action) "set_state").
  { exists []. symmetry. apply app_nil_r. }
  destruct (is_type (Action.type action) "call_service").
  { exists []. rewrite app_nil_r. unfold bind, gets, lift, ret.
    destruct (Action.target action) as [name|]; [|reflexivity].
    destruct (dict_get (_service_handlers s) name) as [h|]; reflexivity. }
  destruct (is_type (Action.type action) "delay").
  { exists []. rewrite app_nil_r. unfold bind, lift, ret.
    destruct (time_sleep _); reflexivity. }
  destruct (is_type (Action.type action) "run_scene").
  { exists []. symmetry. apply app_nil_r. }
  exists []. symmetry. apply app_nil_r.
Qed.

Lemma run_actions_logs (rule_name : string) (context : dict)
    (actions : list Action.t) :
  forall action_results s,
    exists new,
      logs (snd (run_actions rule_name actions context action_results s)) =
      logs s ++ new.
Proof.
  induction actions as [|action rest IH]; intros acc s.
  - exists []. symmetry. apply app_nil_r.
  - cbn [run_actions]. unfold bind at 1, modify. unfold bind at 1, try_except.
    destruct (execute_action_logs action context (record_call rule_name action s))
      as (new1 & E1).
    destruct (execute_action action context (record_call rule_name action s))
      as [[v|e] s1]; cbn [snd logs record_call] in E1.
    + destruct (IH (acc ++ [v]) s1) as (new2 & E2).
      exists (new1 ++ new2). rewrite E2, E1. symmetry. apply app_assoc.
    + exists new1. exact E1.
Qed.

(** One pass of the loop body, as the tables see it. *)
Lemma run_rule_effect (context : dict) (trigger_type : option string)
    (rule : Rule.t) (s : state) :
  exists e s' new,
    run_rule context trigger_type rule s = (Ret e, s') /\
    entry_rule e = Some (Rule.name rule) /\
    entry_status e = Some (status_of (_service_handlers s) context rule) /\
    executions s' = executions s ++ new /\
    map ex_rule_name new = (if passes context rule then [Rule.name rule] else []) /\
    Forall (fun r => ex_context r = without_credentials context /\
                     ex_triggered_by r = or_str trigger_type "manual" /\
                     ex_result r = status_of (_service_handlers s) context rule) new /\
    Forall2 same_but_counters (rules s) (rules s') /\
    _service_handlers s' = _service_handlers s /\
    (exists l, logs s' = logs s ++ l).
Proof.
  unfold status_of, passes.
  destruct (fst (evaluate_rule rule context)) eqn:Ev.
  - destruct (run_rule_passed context trigger_type rule s Ev)
      as (c1 & s' & _ & E & Hr & Hx & Hh & _).
    eexists. exists s'. eexists. split; [exact E|].
    split; [reflexivity|]. split; [reflexivity|]. split; [exact Hx|].
    split; [reflexivity|]. split; [repeat constructor|].
    split; [rewrite Hr; apply rows_kept_trigger|]. split; [exact Hh|].
    pose proof (f_equal snd E) as Es. cbn [snd] in Es. rewrite <- Es.
    unfold run_rule. unfold bind at 1, now at 1.
    destruct (evaluate_rule rule context) as [ok failed]. cbn [fst] in Ev. subst ok.
    cbn [negb]. unfold bind at 1.
    destruct (run_actions_logs (Rule.name rule) context (Rule.actions rule) [] (tick s))
      as (l & El).
    destruct (run_actions (Rule.name rule) (Rule.actions rule) context [] (tick s))
      as [[tried|ex] s1]; cbn [snd logs tick] in El.
    + exists l. cbn. exact El.
    + exists l. exact El.
  - rewrite (run_rule_skipped context trigger_type rule s Ev).
    exists (skipped_entry rule context), (tick s), [].
    split; [reflexivity|]. split; [reflexivity|]. split; [reflexivity|].
    split; [symmetry; apply app_nil_r|]. split; [reflexivity|].
    split; [constructor|]. split; [apply rows_kept_refl|].
    split; [reflexivity|]. exists []. symmetry. apply app_nil_r.
Qed.

(** The loop of a run over any list of rules, as the tables see it. *)
Lemma run_rules_effect (context : dict) (trigger_type : option string)
    (rs : list Rule.t) :
  forall results s,
    exists es s' new,
      run_rules context trigger_type rs results s = (Ret (results ++ es), s') /\
      map entry_rule es = map (fun r => Some (Rule.name r)) rs /\
      map entry_status es =
        map (fun r => Some (status_of (_service_handlers s) context r)) rs /\
      executions s' = executions s ++ new /\
      map ex_rule_name new = map Rule.name (filter (passes context) rs) /\
      Forall (fun r => ex_context r = without_credentials context /\
                       ex_triggered_by r = or_str trigger_type "manual") new /\
      Forall2 same_but_counters (rules s) (rules s') /\
      _service_handlers s' = _service_handlers s /\
      (exists l, logs s' = logs s ++ l).
Proof.
  induction rs as [|rule rs IH]; intros results s.
  - exists [], s, []. rewrite !app_nil_r. split; [reflexivity|].
    split; [reflexivity|]. split; [reflexivity|]. split; [reflexivity|].
    split; [reflexivity|]. split; [constructor|]. split; [apply rows_kept_refl|].
    split; [reflexivity|]. exists []. symmetry. apply app_nil_r.
  - destruct (run_rule_effect context trigger_type rule s)
      as (e & s1 & new1 & E1 & Hn1 & Hs1 & Hx1 & Hm1 & Hf1 & Hr1 & Hh1 & (l1 & Hl1)).
    destruct (IH (results ++ [e]) s1)
      as (es & s' & new2 & E2 & Hn2 & Hs2 & Hx2 & Hm2 & Hf2 & Hr2 & Hh2 & (l2 & Hl2)).
    exists (e :: es), s', (new1 ++ new2).
    cbn [run_rules]. unfold bind at 1. rewrite E1, E2. rewrite <- app_assoc.
    split; [reflexivity|].
    split; [cbn [map]; rewrite Hn1, Hn2; reflexivity|].
    split; [cbn [map]; rewrite Hs1, Hs2, Hh1; reflexivity|].
    split; [rewrite Hx2, Hx1; symmetry; apply app_assoc|].
    split.
    { rewrite map_app, Hm1, Hm2. cbn [filter].
      destruct (passes context rule); reflexivity. }
    split.
    { apply Forall_app. split; [|exact Hf2].
      eapply Forall_impl; [|exact Hf1]. cbn. intros r (A & B & _). split; assumption. }
    split; [eapply rows_kept_trans; eassumption|].
    split; [congruence|].
    exists (l1 ++ l2). rewrite Hl2, Hl1. symmetry. apply app_assoc.
Qed.

Lemma load_rules_keeps (rows : list rule_row) :
  forall result s,
    keeps s (snd (load_rules rows result s)) /\
    logs (snd (load_rules rows result s)) = logs s.
Proof.
  induction rows as [|row rows IH]; intros result s.
  - split; [apply keeps_refl | reflexivity].
  - cbn [load_rules]. unfold bind, Rule_from_dict.
    destruct (Rule.from_dict (row_definition row) _) as [r|e].
    + destruct (IH (result ++ [Rule.set_counters r true (row_last_triggered row)
                                                  (row_trigger_count row)]) (tick s))
        as [K L].
      split; [|rewrite L; reflexivity].
      eapply keeps_trans; [|exact K]. unfold keeps. cbn. repeat split.
      apply Nat.le_succ_diag_r.
    + split; [apply keeps_refl | reflexivity].
Qed.

Lemma get_active_rules_keeps (s : state) :
  keeps s (snd (get_active_rules s)) /\ logs (snd (get_active_rules s)) = logs s.
Proof. unfold get_active_rules, bind, gets. apply load_rules_keeps. Qed.
End RunEffects.

Lemma passes_conditions (context : dict) (r r' : Rule.t) :
  Rule.conditions r = Rule.conditions r' -> passes context r = passes context r'.
Proof. unfold passes, evaluate_rule. intros ->. reflexivity. Qed.

Lemma loaded_same_definition (row row' : rule_row) (r r' : Rule.t) :
  row_definition row = row_definition row' ->
  loaded row r -> loaded row' r' ->
  Rule.name r = Rule.name r' /\
  Rule.trigger r = Rule.trigger r' /\
  Rule.conditions r = Rule.conditions r' /\
  Rule.actions r = Rule.actions r'.
Proof.
  intros Hdef (now & r0 & H0 & ->) (now' & r1 & H1 & ->).
  rewrite Hdef in H0.
  destruct (from_dict_clock _ _ now' _ H0) as (r2 & H2 & Hn & Ht & Hc & Ha & _).
  rewrite H1 in H2. injection H2 as <-. cbn. repeat split; congruence.
Qed.

Section RunTheorems.
Context {clock : Clock}.

Lemma run_rule_engine_loop (context : dict) (trigger_type : option string)
    (s : state) :
  db_ok s = true ->
  run_rule_engine context trigger_type s =
  run_rules context trigger_type (selected_rules trigger_type s) []
            (advance (List.length (select_active (rules s))) s).
Proof.
  intros Hdb. destruct (get_active_rules_ok s Hdb) as (rs & E & _).
  unfold run_rule_engine, selected_rules, bind. rewrite E. reflexivity.
Qed.

(** X12. A run returns one result entry per selected rule, in the order of
    the active-rule listing, each under the name of its rule and with the
    status of that rule: "skipped" when a condition fails, else "error" when
    an action raises, else "ok". *)
Theorem run_reports_each_selected_rule (context : dict)
    (trigger_type : option string) (s : state) :
  db_ok s = true ->
  exists results s',
    run_rule_engine context trigger_type s = (Ret results, s') /\
    List.length results = List.length (selected_rules trigger_type s) /\
    map entry_rule results =
      map (fun r => Some (Rule.name r)) (selected_rules trigger_type s) /\
    map entry_status results =
      map (fun r => Some (status_of (_service_handlers s) context r))
          (selected_rules trigger_type s).
Proof.
  intros Hdb. rewrite (run_rule_engine_loop context trigger_type s Hdb).
  destruct (run_rules_effect context trigger_type (selected_rules trigger_type s) []
              (advance (List.length (select_active (rules s))) s))
    as (es & s' & new & E & Hn & Hs & _).
  exists es, s'. split; [exact E|]. split; [|split; [exact Hn | exact Hs]].
  rewrite <- (length_map entry_rule), Hn. apply length_map.
Qed.

(** X13. A run appends to the execution table one record for each selected
    rule whose conditions all pass, in the order the rules are run, and
    none for the others; each record carries the trigger type given
    ("manual" when none) and the context without its top-level
    [credentials] key, whose other keys are kept. *)
Theorem run_records_each_passing_rule (context : dict)
    (trigger_type : option string) (s : state) :
  db_ok s = true ->
  exists results s' new,
    run_rule_engine context trigger_type s = (Ret results, s') /\
    executions s' = executions s ++ new /\
    map ex_rule_name new =
      map Rule.name (filter (passes context) (selected_rules trigger_type s)) /\
    Forall (fun r =>
              ex_triggered_by r = or_str trigger_type "manual" /\
              dict_get (ex_context r) "credentials" = None /\
              forall key, key <> "credentials" ->
                          dict_get (ex_context r) key = dict_get context key) new.
Proof.
  intros Hdb. rewrite (run_rule_engine_loop context trigger_type s Hdb).
  destruct (run_rules_effect context trigger_type (selected_rules trigger_type s) []
              (advance (List.length (select_active (rules s))) s))
    as (es & s' & new & E & _ & _ & Hx & Hm & Hf & _).
  exists es, s', new. split; [exact E|]. split; [exact Hx|]. split; [exact Hm|].
  eapply Forall_impl; [|exact Hf]. cbn. intros r [Hc Hl].
  destruct (without_credentials_get context) as [G1 G2].
  rewrite Hc. split; [exact Hl|]. split; [exact G1 | exact G2].
Qed.

(** A run on any state, as the tables see it. *)
Lemma run_rule_engine_effect (context : dict) (trigger_type : option string)
    (s : state) :
  Forall2 same_but_counters (rules s)
          (rules (snd (run_rule_engine context trigger_type s))) /\
  _service_handlers (snd (run_rule_engine context trigger_type s)) =
    _service_handlers s /\
  (exists new,
     executions (snd (run_rule_engine context trigger_type s)) =
       executions s ++ new /\
     Forall (fun r => ex_context r = without_credentials context) new) /\
  (exists l, logs (snd (run_rule_engine context trigger_type s)) = logs s ++ l).
Proof.
  unfold run_rule_engine, bind.
  destruct (get_active_rules_keeps s) as [(K1 & K2 & K3 & _) KL].
  destruct (get_active_rules s) as [[rs|e] s1]; cbn [snd] in K1, K2, K3, KL |- *.
  - destruct (run_rules_effect context trigger_type
                (select_trigger trigger_type rs) [] s1)
      as (es & s' & new & E & _ & _ & Hx & _ & Hf & Hr & Hh & (l & Hl)).
    rewrite E. cbn [snd]. rewrite K1 in Hr. rewrite K2 in Hx. rewrite KL in Hl.
    split; [exact Hr|]. split; [congruence|]. split; [|exists l; exact Hl].
    exists new. split; [exact Hx|]. eapply Forall_impl; [|exact Hf].
    cbn. intros r [Hc _]. exact Hc.
  - rewrite K1, K3. split; [apply rows_kept_refl|]. split; [reflexivity|].
    split; exists []; rewrite app_nil_r; [split; [assumption | constructor] | assumption].
Qed.

(** X14. Whatever a run does, to any state and on any context, it changes
    no column of table [rules] other than the trigger count, which never
    decreases, and the last-triggered stamp: no row is added, removed or
    reordered, no rule is renamed, redefined, enabled or disabled. It leaves
    the handler registry as it is and only appends to the execution table
    and to the log. *)
Theorem run_changes_only_counters (context : dict) (trigger_type : option string)
    (s : state) :
  Forall2 same_but_counters (rules s)
          (rules (snd (run_rule_engine context trigger_type s))) /\
  _service_handlers (snd (run_rule_engine context trigger_type s)) =
    _service_handlers s /\
  grows s (snd (run_rule_engine context trigger_type s)).
Proof.
  destruct (run_rule_engine_effect context trigger_type s)
    as (Hr & Hh & (new & Hx & _) & Hl).
  split; [exact Hr|]. split; [exact Hh|].
  split; [exists new; exact Hx | exact Hl].
Qed.

Lemma select_trigger_type (trigger_type : option string) (rs : list Rule.t)
    (rule : Rule.t) :
  In rule (select_trigger trigger_type rs) ->
  truthy trigger_type = true ->
  String.eqb (Trigger.type (Rule.trigger rule)) (or_default trigger_type "") = true.
Proof.
  unfold select_trigger. intros Hin Ht. rewrite Ht in Hin.
  apply filter_In in Hin. apply Hin.
Qed.

Lemma selected_type (trigger_type : option string) (rule : Rule.t) (s : state) :
  In rule (selected_rules trigger_type s) ->
  truthy trigger_type = true ->
  String.eqb (Trigger.type (Rule.trigger rule)) (or_default trigger_type "") = true.
Proof.
  unfold selected_rules. destruct (get_active_rules s) as [[rs|e] s1]; [|intros []].
  apply select_trigger_type.
Qed.

(** X15. A run passes over the rules it does not select. A stored rule that
    is disabled, or whose trigger type is not the one the run is given,
    gets no result entry, no call of [execute_action], no execution record,
    and its row stays as it is, counters included. *)
Theorem unselected_rule_is_untouched (context : dict)
    (trigger_type : option string) (name : string) (row : rule_row) (r0 : Rule.t)
    (s : state) :
  db_ok s = true ->
  row_for name s = Some row ->
  Rule.from_dict (row_definition row) "" = Ret r0 ->
  row_enabled row <> 1 \/
  (truthy trigger_type = true /\
   Trigger.type (Rule.trigger r0) <> or_default trigger_type "") ->
  exists results s',
    run_rule_engine context trigger_type s = (Ret results, s') /\
    entries_for name results = [] /\
    calls_for name s' = calls_for name s /\
    executions_for name s' = executions_for name s /\
    row_for name s' = Some row.
Proof.
  intros Hdb Hrow Hr0 Hwhy.
  assert (Hothers : Forall (fun r => Rule.name r <> name)
                           (selected_rules trigger_type s)).
  { apply Forall_forall. intros rule Hin Hname.
    destruct (selected_row trigger_type rule s Hdb Hin) as (row' & Hrow' & _ & Hen & Hl).
    rewrite Hname, Hrow in Hrow'. injection Hrow' as <-.
    destruct Hwhy as [Hdis | [Ht Hty]]; [contradiction|].
    assert (Hl0 : loaded row (Rule.set_counters r0 true (row_last_triggered row)
                                                (row_trigger_count row)))
      by (exists "", r0; split; [exact Hr0 | reflexivity]).
    destruct (loaded_same_definition row row _ _ eq_refl Hl Hl0) as (_ & Htr & _).
    pose proof (selected_type trigger_type rule s Hin Ht) as Heq.
    apply String.eqb_eq in Heq. rewrite Htr in Heq. exact (Hty Heq). }
  rewrite (run_rule_engine_loop context trigger_type s Hdb).
  destruct (run_rules_others name context trigger_type _ Hothers []
              (advance (List.length (select_active (rules s))) s))
    as (es & s' & E & (Ur & Ux & Uc) & _ & _ & Hent).
  exists es, s'. split; [exact E|]. split; [exact Hent|].
  split; [exact Uc|]. split; [exact Ux|]. rewrite Ur. exact Hrow.
Qed.

(** X16. A run that selects no rule (an empty table, every rule disabled,
    or no rule of the trigger type) returns the empty list and writes
    nothing: the three tables and the registry are as before. *)
Theorem run_without_selected_rule (context : dict) (trigger_type : option string)
    (s : state) :
  db_ok s = true ->
  selected_rules trigger_type s = [] ->
  exists s',
    run_rule_engine context trigger_type s = (Ret [], s') /\
    rules s' = rules s /\
    executions s' = executions s /\
    logs s' = logs s /\
    calls s' = calls s /\
    _service_handlers s' = _service_handlers s.
Proof.
  intros Hdb Hnone. rewrite (run_rule_engine_loop context trigger_type s Hdb), Hnone.
  eexists. split; [reflexivity|]. repeat split.
Qed.

(** X17. The counters a run updates are the ones a later lookup returns:
    after a run in which a selected rule passes its conditions, [get_rule]
    returns the rule with the same trigger, conditions and actions, enabled,
    its last-triggered stamp a reading of the clock, and its trigger count
    the one SQLite computes from the count the listing gave: one more while
    that count is below 2^63 - 1, and from then on the float 2^63, where it
    stays. *)
Theorem get_rule_shows_updated_counters (context : dict)
    (trigger_type : option string) (rule : Rule.t) (s : state) :
  db_ok s = true ->
  In rule (selected_rules trigger_type s) ->
  passes context rule = true ->
  exists results s' r' s'' t,
    run_rule_engine context trigger_type s = (Ret results, s') /\
    get_rule (Rule.name rule) s' = (Ret (Some r'), s'') /\
    Rule.trigger_count r' = sqlite_succ (Rule.trigger_count rule) /\
    (forall n, Rule.trigger_count rule = CInt n -> n < 2 ^ 63 - 1 ->
               Rule.trigger_count r' = CInt (n + 1)) /\
    (Rule.trigger_count rule = CInt (2 ^ 63 - 1) -> Rule.trigger_count r' = CReal) /\
    (Rule.trigger_count rule = CReal -> Rule.trigger_count r' = CReal) /\
    Rule.last_triggered r' = Some (isoformat (utcnow t)) /\
    Rule.name r' = Rule.name rule /\
    Rule.trigger r' = Rule.trigger rule /\
    Rule.conditions r' = Rule.conditions rule /\
    Rule.actions r' = Rule.actions rule /\
    Rule.enabled r' = true.
Proof.
  intros Hdb Hin Hpass.
  destruct (engine_passed context trigger_type rule s Hdb Hin Hpass)
    as (results & s' & c0 & c1 & row & E & _ & _ & _ & _ & _ & _ & Hrow & Hl & Hrow').
  destruct (selected_row trigger_type rule s Hdb Hin) as (row0 & Hrow0 & _ & Hen & _).
  rewrite Hrow in Hrow0. injection Hrow0 as <-.
  destruct (loaded_counters row rule Hl) as (_ & _ & Htc).
  assert (Hdb' : db_ok s' = true).
  { pose proof (run_rule_engine_db_ok context trigger_type s) as H.
    rewrite E in H. cbn [snd] in H. rewrite H. exact Hdb. }
  destruct (row_for_found _ _ _ Hrow') as [Hin' _].
  destruct (db_ok_parts s' Hdb') as [_ Hok'].
  pose proof (proj1 (forallb_forall _ _) Hok' _ Hin') as Hrok.
  destruct (row_ok_parses _ (isoformat (utcnow (clock_reads s'))) Hrok)
    as (r1 & Hr1 & _).
  assert (Hl1 : loaded row (Rule.set_counters r1 true (row_last_triggered row)
                                              (row_trigger_count row)))
    by (eexists; exists r1; split; [exact Hr1 | reflexivity]).
  destruct (loaded_same_definition row row _ _ eq_refl Hl1 Hl) as (Hn & Ht & Hc & Ha).
  eexists results, s', _, (tick s'), (S (S c1)).
  split; [exact E|].
  split; [apply (get_rule_found _ _ r1 s' Hrow' Hr1)|].
  cbn [with_trigger row_enabled row_last_triggered row_trigger_count].
  rewrite Hen. rewrite <- Htc.
  cbn [Rule.set_counters Rule.trigger_count Rule.last_triggered Rule.name
       Rule.trigger Rule.conditions Rule.actions Rule.enabled] in Hn, Ht, Hc, Ha |- *.
  split; [reflexivity|].
  destruct (sqlite_succ_cases (Rule.trigger_count rule) _ eq_refl) as (C1 & C2 & C3).
  split; [exact C1|]. split; [exact C2|]. split; [exact C3|].
  split; [reflexivity|]. repeat split; assumption.
Qed.
End RunTheorems.

(** ** Successive runs, the history query and the listing *)

Lemma insert_desc_sorted {A : Type} (gt : A -> A -> bool) (x : A) (l : list A) :
  (forall a b, gt a b = true -> gt b a = false) ->
  Sorted (fun a b => gt b a = false) l ->
  Sorted (fun a b => gt b a = false) (insert_desc gt x l).
Proof.
  intros Hasym. induction l as [|y l IH]; intros Hs; cbn [insert_desc].
  - repeat constructor.
  - destruct (gt y x) eqn:Eyx.
    + apply Sorted_inv in Hs. destruct Hs as [Hl Hhd]. constructor; [exact (IH Hl)|].
      destruct l as [|z l]; cbn [insert_desc].
      * constructor. apply Hasym. exact Eyx.
      * apply HdRel_inv in Hhd. destruct (gt z x); constructor;
          [exact Hhd | apply Hasym; exact Eyx].
    + constructor; [exact Hs | constructor; exact Eyx].
Qed.

Lemma sort_desc_sorted {A : Type} (gt : A -> A -> bool) (l : list A) :
  (forall a b, gt a b = true -> gt b a = false) ->
  Sorted (fun a b => gt b a = false) (sort_desc gt l).
Proof.
  intros Hasym. induction l as [|x l IH]; cbn [sort_desc].
  - constructor.
  - apply insert_desc_sorted; assumption.
Qed.

Lemma ltb_asym (a b : string) : String.ltb a b = true -> String.ltb b a = false.
Proof.
  unfold String.ltb. rewrite (String.compare_antisym b a).
  destruct (String.compare a b); cbn; congruence.
Qed.


Section History.
Context {clock : Clock}.

Lemma selected_from_row (trigger_type : option string) (name : string)
    (row row0 : rule_row) (rule0 : Rule.t) (s : state) :
  db_ok s = true ->
  row_for name s = Some row ->
  row_enabled row = 1 ->
  row_definition row = row_definition row0 ->
  loaded row0 rule0 ->
  (truthy trigger_type = true ->
   String.eqb (Trigger.type (Rule.trigger rule0)) (or_default trigger_type "") = true) ->
  exists rule,
    In rule (selected_rules trigger_type s) /\
    loaded row rule /\
    Rule.name rule = Rule.name rule0 /\
    Rule.conditions rule = Rule.conditions rule0 /\
    Rule.actions rule = Rule.actions rule0.
Proof.
  intros Hdb Hrow Hen Hdef Hl0 Hty.
  destruct (get_active_rules_ok s Hdb) as (rs & E & HF & _).
  destruct (row_for_found _ _ _ Hrow) as [Hin _].
  assert (Hsel : In row (select_active (rules s)))
    by (apply select_active_In; split; assumption).
  destruct (Forall2_In_l _ _ _ _ HF Hsel) as (rule & Hrule & Hl).
  destruct (loaded_same_definition row row0 rule rule0 Hdef Hl Hl0)
    as (Hn & Ht & Hc & Ha).
  exists rule. split; [|repeat split; assumption].
  unfold selected_rules. rewrite E. unfold select_trigger.
  destruct (truthy trigger_type) eqn:Etr; [|exact Hrule].
  apply filter_In. split; [exact Hrule|]. rewrite Ht. apply Hty. reflexivity.
Qed.

(** X18. Runs add up: when a selected rule passes its conditions in two
    successive runs, it has two more execution records and its trigger
    count has gone through the addition of SQLite twice, while the rest of
    its row is unchanged: a count below 2^63 - 2 ends two above where it
    started, and any other count ends at the REAL 2^63. *)
Theorem two_runs_count_twice (context1 context2 : dict)
    (trigger_type : option string) (rule : Rule.t) (s : state) :
  db_ok s = true ->
  In rule (selected_rules trigger_type s) ->
  passes context1 rule = true ->
  passes context2 rule = true ->
  exists results1 s1 results2 s2 row row2,
    run_rule_engine context1 trigger_type s = (Ret results1, s1) /\
    run_rule_engine context2 trigger_type s1 = (Ret results2, s2) /\
    row_for (Rule.name rule) s = Some row /\
    row_for (Rule.name rule) s2 = Some row2 /\
    row_trigger_count row2 = sqlite_succ (sqlite_succ (row_trigger_count row)) /\
    (forall n, row_trigger_count row = CInt n -> n < 2 ^ 63 - 2 ->
               row_trigger_count row2 = CInt (n + 2)) /\
    (forall n, row_trigger_count row = CInt n -> 2 ^ 63 - 2 <= n ->
               row_trigger_count row2 = CReal) /\
    (row_trigger_count row = CReal -> row_trigger_count row2 = CReal) /\
    same_but_counters row row2 /\
    List.length (executions_for (Rule.name rule) s2) =
      (List.length (executions_for (Rule.name rule) s) + 2)%nat.
Proof.
  intros Hdb Hin Hp1 Hp2.
  destruct (engine_passed context1 trigger_type rule s Hdb Hin Hp1)
    as (res1 & s1 & a0 & a1 & row & E1 & _ & _ & _ & _ & Hx1 & _ & Hrow & Hl & Hrow1).
  destruct (selected_row trigger_type rule s Hdb Hin) as (row0 & Hrow0 & _ & Hen & _).
  rewrite Hrow in Hrow0. injection Hrow0 as <-.
  assert (Hdb1 : db_ok s1 = true).
  { pose proof (run_rule_engine_db_ok context1 trigger_type s) as H.
    rewrite E1 in H. cbn [snd] in H. rewrite H. exact Hdb. }
  destruct (selected_from_row trigger_type (Rule.name rule) _ row rule s1
              Hdb1 Hrow1 Hen eq_refl Hl (selected_type trigger_type rule s Hin))
    as (rule1 & Hin1 & _ & Hn1 & Hc1 & _).
  assert (Hp2' : passes context2 rule1 = true)
    by (rewrite (passes_conditions context2 rule1 rule Hc1); exact Hp2).
  destruct (engine_passed context2 trigger_type rule1 s1 Hdb1 Hin1 Hp2')
    as (res2 & s2 & b0 & b1 & row1 & E2 & _ & _ & _ & _ & Hx2 & _ & Hrow1' & _ & Hrow2).
  rewrite Hn1 in Hx2, Hrow1', Hrow2. rewrite Hrow1 in Hrow1'.
  injection Hrow1' as <-.
  eexists res1, s1, res2, s2, row, _.
  split; [exact E1|]. split; [exact E2|]. split; [exact Hrow|].
  split; [exact Hrow2|]. cbn [with_trigger row_trigger_count].
  split; [reflexivity|].
  destruct (sqlite_succ_twice (row_trigger_count row) _ eq_refl) as (C1 & C2 & C3).
  split; [exact C1|]. split; [exact C2|]. split; [exact C3|]. split.
  - unfold same_but_counters.
    cbn [row_name row_definition row_enabled row_priority row_created_at
         row_trigger_count].
    repeat split.
    eapply count_le_trans; apply count_le_succ.
  - rewrite Hx2, Hx1, !length_app. cbn [List.length]. lia.
Qed.

(** X19. [get_execution_history] reads the clock once and changes nothing
    else. When the span of [hours] is one [timedelta] holds (at most
    999999999 days either way) and the threshold, the clock reading less
    that span, is a datetime (between [datetime.min] and [datetime.max]),
    it returns exactly the records whose stamp is not before the threshold,
    compared as text, of the named rule only when a non-empty name is given
    and of every rule otherwise, with the later stamps first. Otherwise it
    raises [OverflowError]. *)
Theorem execution_history_is_filtered_and_sorted (rule_name : option string)
    (hours : Z) (s : state) :
  let t := utcnow (clock_reads s) - hours * 3600000000 in
  let since := isoformat t in
  (- 999999999 <= hours / 24 <= 999999999 ->
   0 <= t <= datetime_max ->
   exists rows,
     get_execution_history rule_name hours s = (Ret rows, tick s) /\
     Permutation rows
       (filter (fun r => String.leb since (ex_ts r) &&
                         (negb (truthy rule_name) ||
                          String.eqb (ex_rule_name r) (or_default rule_name "")))
               (executions s)) /\
     Sorted (fun a b => String.ltb (ex_ts a) (ex_ts b) = false) rows /\
     (forall r, In r rows -> In r (executions s) /\ String.leb since (ex_ts r) = true) /\
     (forall name, rule_name = Some name -> name <> "" ->
                   Forall (fun r => ex_rule_name r = name) rows) /\
     (truthy rule_name = false ->
      forall r, In r (executions s) -> String.leb since (ex_ts r) = true -> In r rows)) /\
  (hours / 24 < - 999999999 \/ 999999999 < hours / 24 \/ t < 0 \/ datetime_max < t ->
   exists what,
     get_execution_history rule_name hours s = (Raise (OverflowError what), tick s)).
Proof.
  intros t since. split.
  - intros Hd Ht.
    assert (E1 : timedelta_hours hours = Ret (hours * 3600000000)).
    { unfold timedelta_hours.
      destruct (Z.leb_spec (- 2 ^ 31) (hours / 24)); [|lia].
      destruct (Z.ltb_spec (hours / 24) (2 ^ 31)); [|lia].
      destruct (Z.leb_spec (- 999999999) (hours / 24)); [|lia].
      destruct (Z.leb_spec (hours / 24) 999999999); [|lia].
      reflexivity. }
    assert (E2 : datetime_sub (utcnow (clock_reads s)) (hours * 3600000000) = Ret t).
    { unfold datetime_sub. fold t.
      destruct (Z.leb_spec 0 t); [|lia].
      destruct (Z.leb_spec t datetime_max); [|lia].
      reflexivity. }
    set (wanted := filter (fun r => String.leb since (ex_ts r) &&
                      (negb (truthy rule_name) ||
                       String.eqb (ex_rule_name r) (or_default rule_name "")))
                    (executions s)).
    set (kept := if truthy rule_name
                 then rev (filter (fun r => String.eqb (ex_rule_name r)
                                                       (or_default rule_name ""))
                             (filter (fun r => String.leb since (ex_ts r))
                                     (executions s)))
                 else filter (fun r => String.leb since (ex_ts r)) (executions s)).
    exists (sort_desc (fun a b => String.ltb (ex_ts b) (ex_ts a)) kept).
    split.
    { unfold get_execution_history, bind, now, lift, gets, ret.
      rewrite E1, E2. reflexivity. }
    assert (Hkept : Permutation kept wanted).
    { unfold kept, wanted. destruct (truthy rule_name); cbn [negb orb].
      - eapply Permutation_trans; [apply Permutation_sym, Permutation_rev|].
        induction (executions s) as [|r l IH]; cbn [filter]; [constructor|].
        destruct (String.leb since (ex_ts r)); cbn [andb filter]; [|exact IH].
        destruct (String.eqb (ex_rule_name r) (or_default rule_name ""));
          [constructor; exact IH | exact IH].
      - erewrite filter_ext; [apply Permutation_refl|].
        intros r. cbn. rewrite andb_true_r. reflexivity. }
    set (rows := sort_desc _ kept).
    assert (Hperm : Permutation rows wanted)
      by (eapply Permutation_trans; [apply sort_desc_perm | exact Hkept]).
    assert (Hin : forall r, In r rows <-> In r wanted).
    { intros r. split; apply Permutation_in;
        [exact Hperm | apply Permutation_sym, Hperm]. }
    split; [exact Hperm|]. split.
    { apply (sort_desc_sorted (fun a b => String.ltb (ex_ts b) (ex_ts a))).
      intros a b. apply ltb_asym. }
    split.
    { intros r Hr. apply Hin in Hr. apply filter_In in Hr. destruct Hr as [Hr Hw].
      apply andb_true_iff in Hw. split; [exact Hr | apply Hw]. }
    split.
    { intros name -> Hne. apply Forall_forall. intros r Hr. apply Hin in Hr.
      apply filter_In in Hr. destruct Hr as [_ Hw].
      apply andb_true_iff in Hw. destruct Hw as [_ Hw]. cbn in Hw.
      destruct (String.eqb_spec name "") as [|_]; [contradiction|].
      cbn in Hw. apply String.eqb_eq. exact Hw. }
    intros Hall r Hr Hts. apply Hin. apply filter_In. split; [exact Hr|].
    rewrite Hts, Hall. reflexivity.
  - intros Hout.
    unfold get_execution_history, bind, now, lift, gets, ret.
    unfold timedelta_hours.
    destruct ((- 2 ^ 31 <=? hours / 24) && (hours / 24 <? 2 ^ 31)) eqn:Ec;
      cbn [negb]; [|eexists; reflexivity].
    destruct (Z.leb_spec (- 999999999) (hours / 24));
      cbn [andb negb]; [|eexists; reflexivity].
    destruct (Z.leb_spec (hours / 24) 999999999);
      cbn [negb]; [|eexists; reflexivity].
    unfold datetime_sub. fold t.
    destruct (Z.leb_spec 0 t); cbn [andb]; [|eexists; reflexivity].
    destruct (Z.leb_spec t datetime_max); [lia | eexists; reflexivity].
Qed.
End History.

(** ** Invariants of every reachable state *)

Lemma synced_kept (t t' : list rule_row) :
  Forall2 same_but_counters t t' ->
  forallb row_synced t = true -> forallb row_synced t' = true.
Proof.
  induction 1 as [|r r' t t' (Hn & Hd & _ & Hp & _) HF IH]; cbn [forallb].
  - exact (fun H => H).
  - intros H. apply andb_true_iff in H. destruct H as [Hr Ht].
    rewrite (IH Ht), andb_true_r. unfold row_synced in *. rewrite Hd, Hp. exact Hr.
Qed.

Lemma synced_filter (p : rule_row -> bool) (t : list rule_row) :
  forallb row_synced t = true -> forallb row_synced (filter p t) = true.
Proof.
  intros H. apply forallb_forall. intros r Hin. apply filter_In in Hin.
  apply (proj1 (forallb_forall _ _) H). apply Hin.
Qed.

Lemma synced_insert (rule : Rule.t) (t : list rule_row) :
  forallb row_synced t = true ->
  forallb row_synced (insert_or_replace (row_of rule) t) = true.
Proof.
  intros H. unfold insert_or_replace. rewrite forallb_app, synced_filter by exact H.
  cbn [forallb andb]. rewrite andb_true_r. unfold row_synced, row_of.
  cbn [row_definition row_priority]. rewrite from_dict_to_dict. apply Z.eqb_refl.
Qed.

Lemma rows_kept_enabled (name : string) (e : Z) (table : list rule_row) :
  forallb row_synced table = true ->
  forallb row_synced (update_where name (with_enabled e) table) = true.
Proof.
  intros H. apply forallb_forall. intros r Hin. unfold update_where in Hin.
  apply in_map_iff in Hin. destruct Hin as (r0 & <- & Hin).
  pose proof (proj1 (forallb_forall _ _) H _ Hin) as H0.
  destruct (name_is name r0); exact H0.
Qed.

Section Invariants.
Context {clock : Clock}.

Lemma nothing_new (s s' : state) :
  executions s' = executions s -> logs s' = logs s ->
  (exists new, executions s' = executions s ++ new /\ Forall no_credentials new) /\
  (exists l, logs s' = logs s ++ l).
Proof.
  intros Hx Hl. split; exists []; rewrite app_nil_r; [split; [exact Hx | constructor]|].
  exact Hl.
Qed.

Lemma run_step_effect (context : dict) (trigger_type : option string) (s0 s : state) :
  executions s = executions s0 -> logs s = logs s0 -> rules s = rules s0 ->
  ((exists new,
      executions (snd (run_rule_engine context trigger_type s)) =
        executions s0 ++ new /\ Forall no_credentials new) /\
   (exists l, logs (snd (run_rule_engine context trigger_type s)) = logs s0 ++ l)) /\
  (forallb row_synced (rules s0) = true ->
   forallb row_synced (rules (snd (run_rule_engine context trigger_type s))) = true).
Proof.
  intros Hx Hl Hr.
  destruct (run_rule_engine_effect context trigger_type s)
    as (Hrows & _ & (new & Hnew & Hf) & (l & Hlog)).
  rewrite Hx in Hnew. rewrite Hl in Hlog. rewrite Hr in Hrows.
  split; [split|].
  - exists new. split; [exact Hnew|]. eapply Forall_impl; [|exact Hf].
    cbn. intros r Hc. unfold no_credentials. rewrite Hc.
    apply without_credentials_get.
  - exists l. exact Hlog.
  - apply synced_kept. exact Hrows.
Qed.

(** What one call of a method does to the history and to the agreement of
    the rows with their definitions. *)
Lemma step_effect (s s' : state) :
  step s s' ->
  ((exists new, executions s' = executions s ++ new /\ Forall no_credentials new) /\
   (exists l, logs s' = logs s ++ l)) /\
  (forallb row_synced (rules s) = true -> forallb row_synced (rules s') = true).
Proof.
  intros Hstep. destruct Hstep.
  - destruct (add_rule_rules rule s) as (Hr & Hx & _ & _ & (l & Hl)).
    split; [split|].
    + exists []. rewrite app_nil_r. split; [exact Hx | constructor].
    + exists l. exact Hl.
    + rewrite Hr. destruct (Rule.binds rule); [apply synced_insert | exact (fun H => H)].
  - unfold add_rule_from_json, bind, Rule_from_dict.
    destruct (Rule.from_dict d _) as [r|e]; cbn [snd].
    + destruct (add_rule_rules r (tick s)) as (Hr & Hx & _ & _ & (l & Hl)).
      split; [split|].
      * exists []. rewrite app_nil_r. split; [exact Hx | constructor].
      * exists l. exact Hl.
      * rewrite Hr.
        destruct (Rule.binds r); [apply synced_insert | exact (fun H => H)].
    + split; [apply nothing_new; reflexivity | exact (fun H => H)].
  - unfold get_rule, bind, gets.
    destruct (find (name_is name) (rules s)) as [row|];
      [|split; [apply nothing_new; reflexivity | exact (fun H => H)]].
    unfold Rule_from_dict. destruct (Rule.from_dict (row_definition row) _);
      (split; [apply nothing_new; reflexivity | exact (fun H => H)]).
  - split; [apply nothing_new; reflexivity | apply rows_kept_enabled].
  - split; [apply nothing_new; reflexivity | apply rows_kept_enabled].
  - split; [apply nothing_new; reflexivity | apply synced_filter].
  - destruct (get_active_rules_keeps s) as [(K1 & K2 & _) KL].
    split; [apply nothing_new; assumption | rewrite K1; exact (fun H => H)].
  - split; [apply nothing_new; reflexivity | exact (fun H => H)].
  - split; [apply nothing_new; reflexivity | exact (fun H => H)].
  - destruct (execute_action_outcome action context s) as (s' & E & K1 & K2 & _).
    destruct (execute_action_logs action context s) as (l & Hl).
    rewrite E in Hl |- *. cbn [snd] in Hl |- *.
    split; [split|].
    + exists []. rewrite app_nil_r. split; [exact K2 | constructor].
    + exists l. exact Hl.
    + rewrite K1. exact (fun H => H).
  - split; [apply nothing_new; reflexivity | exact (fun H => H)].
  - apply run_step_effect; reflexivity.
  - unfold fire_event, now_iso, bind, now, ret. cbv beta iota.
    apply run_step_effect; reflexivity.
  - unfold process_sensor_update, now_iso, bind, now, ret. cbv beta iota.
    apply run_step_effect; reflexivity.
  - rewrite history_state.
    split; [apply nothing_new; reflexivity | exact (fun H => H)].
  - split; [split|].
    + eexists. split; [reflexivity|]. constructor; [|constructor].
      apply without_credentials_get.
    + exists []. symmetry. apply app_nil_r.
    + exact (fun H => H).
  - split; [apply nothing_new; reflexivity|].
    apply synced_kept.
    unfold _increment_trigger, now_iso, bind, now, ret, modify.
    cbn [snd rules set_rules tick]. apply rows_kept_trigger.
  - split; [split|].
    + exists []. rewrite app_nil_r. split; [reflexivity | constructor].
    + eexists. reflexivity.
    + exact (fun H => H).
Qed.

(** X20. No method of the hub rewrites history: whatever the call and
    whatever it returns or raises, the execution table and the log after
    the call are those before it with rows appended at the end. *)
Theorem every_call_only_appends (s s' : state) :
  step s s' -> grows s s'.
Proof.
  intros Hstep. destruct (step_effect s s' Hstep) as [[(new & Hx & _) Hl] _].
  split; [exists new; exact Hx | exact Hl].
Qed.

(** X21. In every state a hub reaches from a fresh database, no execution
    record holds a top-level [credentials] key in its context. *)
Theorem execution_records_hold_no_credentials (s : state) :
  reachable s ->
  Forall (fun r => dict_get (ex_context r) "credentials" = None) (executions s).
Proof.
  induction 1 as [|s s' _ IH Hstep].
  - constructor.
  - destruct (step_effect s s' Hstep) as [[(new & Hx & Hf) _] _].
    rewrite Hx. apply Forall_app. split; [exact IH | exact Hf].
Qed.


End Invariants.

(** ** Edge cases of the trigger type and of the import *)

Lemma comprehension_returned {K T : Type} (init : K -> outcome T) (ok : K -> bool)
    (l : list K) :
  (forall x y, init x = Ret y -> ok x = true) ->
  forall ys, comprehension init l = Ret ys -> forallb ok l = true.
Proof.
  intros Hinit. induction l as [|x l IH]; cbn [comprehension forallb]; intros ys H.
  - reflexivity.
  - destruct (init x) as [y|] eqn:Ex; [|discriminate].
    destruct (comprehension init l) as [ys'|]; [|discriminate].
    rewrite (Hinit x y Ex), (IH ys' eq_refl). reflexivity.
Qed.

Section Edges.
Context {clock : Clock}.

Lemma run_rules_empty_type (context : dict) (rs : list Rule.t) :
  forall results s,
    run_rules context (Some "") rs results s = run_rules context None rs results s.
Proof.
  induction rs as [|rule rs IH]; intros results s.
  - reflexivity.
  - cbn [run_rules]. unfold bind.
    change (run_rule context (Some "") rule s) with (run_rule context None rule s).
    destruct (run_rule context None rule s) as [[e|ex] s1]; [apply IH | reflexivity].
Qed.

(** X23. An empty string given as trigger type is no trigger type: the run
    is the same as the run without one, over every active rule and with
    its records labelled "manual". *)
Theorem empty_trigger_type_is_none (context : dict) (s : state) :
  run_rule_engine context (Some "") s = run_rule_engine context None s.
Proof.
  unfold run_rule_engine, bind.
  destruct (get_active_rules s) as [[rs|e] s1]; [|reflexivity].
  change (select_trigger (Some "") rs) with (select_trigger None rs).
  apply run_rules_empty_type.
Qed.

(** X24. An import returns exactly when the document holds every required
    field ([name], [trigger] with its [type], the [field], [op] and [value]
    of each condition and the [type] of each action) and its priority and
    trigger count, 0 where it leaves them out, fit 64 bits. A document that
    lacks a required field is refused before anything is done; one whose
    priority or trigger count does not fit is refused with [OverflowError]
    once the clock has been read; no import that raises changes a table. *)
Theorem import_succeeds_iff_document_is_storable (d : Rule.document) (s : state) :
  (required_present d && document_binds d = true <->
   exists r s', add_rule_from_json d s = (Ret r, s')) /\
  (required_present d = false ->
   exists e, add_rule_from_json d s = (Raise e, s)) /\
  (required_present d = true ->
   document_binds d = false ->
   add_rule_from_json d s =
     (Raise (OverflowError "Python int too large to convert to SQLite INTEGER"),
      tick s)) /\
  (forall e s',
     add_rule_from_json d s = (Raise e, s') ->
     rules s' = rules s /\ executions s' = executions s /\ logs s' = logs s).
Proof.
  assert (Hparse : forall now r, Rule.from_dict d now = Ret r ->
                                 required_present d = true).
  { intros now r. unfold Rule.from_dict, required_present.
    destruct (Rule.d_trigger d) as [tkw|]; [|discriminate].
    unfold Trigger.init. destruct (Trigger.kw_type tkw) as [ty|]; [|discriminate].
    destruct (comprehension Condition.init _) as [conds|] eqn:Ec; [|discriminate].
    destruct (comprehension Action.init _) as [acts|] eqn:Ea; [|discriminate].
    destruct (Rule.d_name d) as [name|]; [|discriminate]. intros _.
    cbn [is_some andb].
    assert (Hc : forall c y, Condition.init c = Ret y ->
                   is_some (Condition.kw_field c) && is_some (Condition.kw_op c)
                   && is_some (Condition.kw_value c) = true).
    { intros c y H. unfold Condition.init in H.
      destruct (Condition.kw_field c), (Condition.kw_op c), (Condition.kw_value c);
        try discriminate; reflexivity. }
    assert (Ha' : forall a y, Action.init a = Ret y ->
                              is_some (Action.kw_type a) = true).
    { intros a y H. unfold Action.init in H.
      destruct (Action.kw_type a); [reflexivity | discriminate]. }
    rewrite (comprehension_returned Condition.init _ _ Hc _ Ec).
    rewrite (comprehension_returned Action.init _ _ Ha' _ Ea). reflexivity. }
  split; [split|split; [|split]].
  - intros H. apply andb_true_iff in H. destruct H as [Hreq Hb].
    destruct (required_present_parses d (isoformat (utcnow (clock_reads s))) Hreq)
      as (r & Hr).
    rewrite <- (from_dict_binds d _ r Hr) in Hb.
    destruct (import_parsed d s r Hr Hb) as (s' & E & _). exists r, s'. exact E.
  - intros (r & s' & E). destruct (import_steps d s r s' E) as (Hp & Hb & _).
    rewrite (Hparse _ _ Hp), <- (from_dict_binds d _ r Hp). exact Hb.
  - intros Hreq. unfold add_rule_from_json, bind, Rule_from_dict.
    destruct (Rule.from_dict d _) as [r|e] eqn:E.
    + rewrite (Hparse _ _ E) in Hreq. discriminate.
    + exists e. reflexivity.
  - intros Hreq Hb.
    destruct (required_present_parses d (isoformat (utcnow (clock_reads s))) Hreq)
      as (r & Hr).
    rewrite <- (from_dict_binds d _ r Hr) in Hb.
    apply (import_overflow d s r Hr Hb).
  - intros e s' E.
    destruct (import_failed d s e s' E) as [(_ & ->) | (r & _ & _ & _ & ->)];
      repeat split.
Qed.
End Edges.

(** ** Equality and its complement *)

(** X25. The operators [==] and [!=] never raise, whatever the types of the
    two sides. On a field that resolves to a value they are complements of
    each other; on a field that is missing or null they are not: both
    conditions evaluate to the [negate] flag, so that [x != v] fails just as
    [x == v] does. *)
Theorem equal_and_not_equal (c : Condition.t) (context : dict) :
  (exists b b',
     Condition.evaluate (with_op c "==") context = Ret b /\
     Condition.evaluate (with_op c "!=") context = Ret b') /\
  (_resolve_path (Condition.field c) context <> VNone ->
   Condition.evaluate (with_op c "!=") context =
   outcome_map negb (Condition.evaluate (with_op c "==") context)) /\
  (_resolve_path (Condition.field c) context = VNone ->
   Condition.evaluate (with_op c "!=") context = Ret (Condition.negate c) /\
   Condition.evaluate (with_op c "==") context = Ret (Condition.negate c)).
Proof.
  unfold Condition.evaluate, with_op.
  cbn [Condition.field Condition.op Condition.value Condition.negate].
  change (_OP_MAP "==") with (Some (fun a b : pyval => Ret (py_eq a b))).
  change (_OP_MAP "!=") with (Some (fun a b : pyval => Ret (negb (py_eq a b)))).
  destruct (_resolve_path (Condition.field c) context) eqn:E;
    destruct (Condition.negate c); cbn [outcome_map];
    (split; [do 2 eexists; split; reflexivity|]);
    (split; [intros H; try congruence; try reflexivity;
             rewrite ?Bool.negb_involutive; reflexivity
            | intros H; try discriminate H; split; reflexivity]).
Qed.

(** * Instances of the further properties *)

Section FurtherInstances.
#[local] Existing Instance ms_clock.

Lemma delete_rule_instance :
  db_ok hub_temp_alert = true /\
  exists s1,
    delete_rule "temp_alert" hub_temp_alert = (Ret tt, s1) /\
    get_rule "temp_alert" s1 = (Ret None, s1) /\
    executions s1 = executions hub_temp_alert.
Proof.
  assert (Hdb : db_ok hub_temp_alert = true) by reflexivity.
  split; [exact Hdb|].
  destruct (delete_rule_removes_only_the_row "temp_alert" hub_temp_alert Hdb)
    as (s1 & E & Hget & _ & _ & Hx & _).
  exists s1. split; [exact E|]. split; [exact Hget | exact Hx].
Defined.

(** A rule read back with the float an overflowed count has become is
    stored again as it is. *)
Lemma added_rule_instance :
  Rule.binds (Rule.set_counters worn_rule true (Some "T+5000") CReal) = true /\
  exists s1 s2,
    add_rule (Rule.set_counters worn_rule true (Some "T+5000") CReal) hub_worn_rule =
      (Ret (Rule.set_counters worn_rule true (Some "T+5000") CReal), s1) /\
    get_rule "worn" s1 =
      (Ret (Some (Rule.set_counters worn_rule true (Some "T+5000") CReal)), s2).
Proof.
  split; [reflexivity|].
  destruct (get_rule_returns_added_rule
              (Rule.set_counters worn_rule true (Some "T+5000") CReal)
              hub_worn_rule eq_refl)
    as (s1 & s2 & E1 & E2 & _).
  exists s1, s2. split; [exact E1 | exact E2].
Defined.

Lemma import_replaces_counters_instance :
  add_rule_from_json
    (Rule.Doc (Some "temp_alert") (Some (Trigger.Kw (Some "sensor") None))
              None None None None None None None None)
    hub_after_reading =
  (Ret (Rule.Build "temp_alert" (Trigger.Build "sensor" []) [] [] true 0 ""
                   "T+8000" None 0),
   snd (add_rule_from_json
          (Rule.Doc (Some "temp_alert") (Some (Trigger.Kw (Some "sensor") None))
                    None None None None None None None None)
          hub_after_reading)) /\
  option_map row_trigger_count (row_for "temp_alert" hub_after_reading) =
    Some (CInt 1) /\
  exists row,
    row_for "temp_alert"
      (snd (add_rule_from_json
              (Rule.Doc (Some "temp_alert") (Some (Trigger.Kw (Some "sensor") None))
                        None None None None None None None None)
              hub_after_reading)) = Some row /\
    row_trigger_count row = 0 /\
    row_last_triggered row = None.
Proof.
  assert (E : add_rule_from_json
                (Rule.Doc (Some "temp_alert") (Some (Trigger.Kw (Some "sensor") None))
                          None None None None None None None None)
                hub_after_reading =
              (Ret (Rule.Build "temp_alert" (Trigger.Build "sensor" []) [] [] true 0 ""
                               "T+8000" None 0),
               snd (add_rule_from_json
                      (Rule.Doc (Some "temp_alert")
                                (Some (Trigger.Kw (Some "sensor") None))
                                None None None None None None None None)
                      hub_after_reading))) by reflexivity.
  split; [exact E|]. split; [reflexivity|].
  destruct (import_replaces_counters _ _ _ _ E) as (row & Hrow & Htc & Hlt & _).
  exists row. split; [exact Hrow|]. split; [exact Htc | exact Hlt].
Defined.

Lemma registered_handler_instance :
  exists s1 s2,
    register_service "garage.open" (constant_handler (VStr "opened")) init_db =
      (Ret tt, s1) /\
    execute_action (Action.Build "call_service" (Some "garage.open") []) [] s1 =
      (Ret (VStr "opened"), s2).
Proof.
  destruct (registered_handler_is_called "garage.open"
              (constant_handler (VStr "opened"))
              (Action.Build "call_service" (Some "garage.open") []) [] init_db
              eq_refl eq_refl)
    as (s1 & s2 & E1 & E2 & _).
  exists s1, s2. split; [exact E1 | exact E2].
Defined.

Lemma builtin_action_instance :
  exists v s',
    execute_action (Action.Build "log_message" None [("message", VStr "hot!")])
                   [("credentials", VStr "secret")] init_db = (Ret v, s') /\
    map log_context (logs s') = [[("credentials", VStr "secret")]].
Proof.
  destruct (builtin_actions_return
              (Action.Build "log_message" None [("message", VStr "hot!")])
              [("credentials", VStr "secret")] init_db eq_refl)
    as (v & s' & E & _ & _ & _ & Hlog).
  destruct (Hlog eq_refl) as (_ & Hl & _).
  exists v, s'. split; [exact E|]. rewrite Hl. reflexivity.
Defined.

Lemma run_reports_instance :
  db_ok hub_temp_alert = true /\
  exists results s',
    run_rule_engine (reading (20 # 1)) (Some "sensor") hub_temp_alert =
      (Ret results, s') /\
    map entry_rule results = [Some "temp_alert"] /\
    map entry_status results = [Some "skipped"].
Proof.
  assert (Hdb : db_ok hub_temp_alert = true) by reflexivity.
  split; [exact Hdb|].
  destruct (run_reports_each_selected_rule (reading (20 # 1)) (Some "sensor")
              hub_temp_alert Hdb)
    as (results & s' & E & _ & Hn & Hs).
  exists results, s'. split; [exact E|]. split; [exact Hn | exact Hs].
Defined.

Lemma run_records_instance :
  db_ok hub_temp_alert = true /\
  exists results s' new,
    run_rule_engine (("credentials", VStr "secret") :: reading (40 # 1))
                    (Some "sensor") hub_temp_alert = (Ret results, s') /\
    executions s' = executions hub_temp_alert ++ new /\
    map ex_rule_name new = ["temp_alert"] /\
    Forall (fun r => dict_get (ex_context r) "credentials" = None) new.
Proof.
  assert (Hdb : db_ok hub_temp_alert = true) by reflexivity.
  split; [exact Hdb|].
  destruct (run_records_each_passing_rule
              (("credentials", VStr "secret") :: reading (40 # 1))
              (Some "sensor") hub_temp_alert Hdb)
    as (results & s' & new & E & Hx & Hm & Hf).
  exists results, s', new. split; [exact E|]. split; [exact Hx|].
  split; [exact Hm|]. eapply Forall_impl; [|exact Hf].
  intros r (_ & Hc & _). exact Hc.
Defined.

Lemma unselected_rule_instance :
  db_ok hub_temp_alert = true /\
  row_for "temp_alert" hub_temp_alert = Some (row_of temp_alert) /\
  Rule.from_dict (row_definition (row_of temp_alert)) "" = Ret temp_alert /\
  Trigger.type (Rule.trigger temp_alert) <> "event" /\
  exists results s',
    run_rule_engine [] (Some "event") hub_temp_alert = (Ret results, s') /\
    entries_for "temp_alert" results = [] /\
    row_for "temp_alert" s' = Some (row_of temp_alert).
Proof.
  assert (Hdb : db_ok hub_temp_alert = true) by reflexivity.
  assert (Hty : Trigger.type (Rule.trigger temp_alert) <> "event") by discriminate.
  split; [exact Hdb|]. split; [reflexivity|]. split; [reflexivity|].
  split; [exact Hty|].
  destruct (unselected_rule_is_untouched [] (Some "event") "temp_alert"
              (row_of temp_alert) temp_alert hub_temp_alert Hdb eq_refl eq_refl
              (or_intror (conj eq_refl Hty)))
    as (results & s' & E & Hent & _ & _ & Hrow).
  exists results, s'. split; [exact E|]. split; [exact Hent | exact Hrow].
Defined.

Lemma run_on_fresh_hub_instance :
  db_ok init_db = true /\
  selected_rules None init_db = [] /\
  exists s', run_rule_engine (reading (40 # 1)) None init_db = (Ret [], s') /\
             executions s' = [].
Proof.
  split; [reflexivity|]. split; [reflexivity|].
  destruct (run_without_selected_rule (reading (40 # 1)) None init_db eq_refl eq_refl)
    as (s' & E & _ & Hx & _).
  exists s'. split; [exact E | exact Hx].
Defined.

Lemma updated_counters_instance :
  db_ok hub_temp_alert = true /\
  In temp_alert (selected_rules (Some "sensor") hub_temp_alert) /\
  passes (reading (40 # 1)) temp_alert = true /\
  exists results s' r' s'',
    run_rule_engine (reading (40 # 1)) (Some "sensor") hub_temp_alert =
      (Ret results, s') /\
    get_rule "temp_alert" s' = (Ret (Some r'), s'') /\
    Rule.trigger_count r' = 1.
Proof.
  assert (Hdb : db_ok hub_temp_alert = true) by reflexivity.
  assert (Hin : In temp_alert (selected_rules (Some "sensor") hub_temp_alert))
    by (left; reflexivity).
  assert (Hp : passes (reading (40 # 1)) temp_alert = true) by reflexivity.
  split; [exact Hdb|]. split; [exact Hin|]. split; [exact Hp|].
  destruct (get_rule_shows_updated_counters (reading (40 # 1)) (Some "sensor")
              temp_alert hub_temp_alert Hdb Hin Hp)
    as (results & s' & r' & s'' & t & E & Hget & Htc & _).
  exists results, s', r', s''. split; [exact E|]. split; [exact Hget | exact Htc].
Defined.

Lemma two_runs_instance :
  db_ok hub_temp_alert = true /\
  In temp_alert (selected_rules (Some "sensor") hub_temp_alert) /\
  passes (reading (50 # 1)) temp_alert = true /\
  passes (reading (60 # 1)) temp_alert = true /\
  exists results1 s1 results2 s2 row2,
    run_rule_engine (reading (50 # 1)) (Some "sensor") hub_temp_alert =
      (Ret results1, s1) /\
    run_rule_engine (reading (60 # 1)) (Some "sensor") s1 = (Ret results2, s2) /\
    row_for "temp_alert" s2 = Some row2 /\
    row_trigger_count row2 = 2.
Proof.
  assert (Hdb : db_ok hub_temp_alert = true) by reflexivity.
  assert (Hin : In temp_alert (selected_rules (Some "sensor") hub_temp_alert))
    by (left; reflexivity).
  assert (Hp1 : passes (reading (50 # 1)) temp_alert = true) by reflexivity.
  assert (Hp2 : passes (reading (60 # 1)) temp_alert = true) by reflexivity.
  split; [exact Hdb|]. split; [exact Hin|]. split; [exact Hp1|]. split; [exact Hp2|].
  destruct (two_runs_count_twice (reading (50 # 1)) (reading (60 # 1)) (Some "sensor")
              temp_alert hub_temp_alert Hdb Hin Hp1 Hp2)
    as (res1 & s1 & res2 & s2 & row & row2 & E1 & E2 & Hrow & Hrow2 & Hc & _).
  exists res1, s1, res2, s2, row2.
  split; [exact E1|]. split; [exact E2|]. split; [exact Hrow2|].
  assert (Hr0 : row_for "temp_alert" hub_temp_alert = Some (row_of temp_alert))
    by reflexivity.
  change (Rule.name temp_alert) with "temp_alert" in Hrow.
  assert (Hrow0 : row = row_of temp_alert)
    by (apply (f_equal (fun o => or_default o row)) in Hr0;
        rewrite Hrow in Hr0; exact Hr0).
  rewrite Hc, Hrow0. reflexivity.
Defined.

Lemma reachable_after_reading : reachable hub_after_reading.
Proof.
  exact (reachable_step _ _
           (reachable_step _ _ reachable_init (step_add_rule temp_alert init_db))
           (step_process_sensor_update "t1" (40 # 1) "C" hub_temp_alert)).
Defined.

Lemma only_appends_instance :
  step hub_temp_alert hub_after_reading /\
  exists new, executions hub_after_reading = executions hub_temp_alert ++ new.
Proof.
  assert (Hstep : step hub_temp_alert hub_after_reading)
    by exact (step_process_sensor_update "t1" (40 # 1) "C" hub_temp_alert).
  split; [exact Hstep|].
  exact (proj1 (every_call_only_appends _ _ Hstep)).
Defined.

Lemma no_credentials_instance :
  reachable hub_after_reading /\
  Forall (fun r => dict_get (ex_context r) "credentials" = None)
         (executions hub_after_reading).
Proof.
  split; [exact reachable_after_reading|].
  exact (execution_records_hold_no_credentials _ reachable_after_reading).
Defined.

End FurtherInstances.
